(** * pudding: the component execution engine

    A shallow embedding of [src/pudding/core] (data_envelope.py, config.py,
    base_component.py) and of the text-pipeline example components,
    followed by the properties of the engine: the error boundary of [run],
    the compatibility check, lineage tracking, and the sample store
    (collision-free saving, loading, replay).

    Conventions.  Python values are modelled by [pyval], JSON documents by
    [json]; a sample file holds the document that [json.dump] wrote, kept as
    a tree.  Python exceptions are values of [py_exception]; code that can
    raise lives in the monad [M], which threads the mutable
    [ComponentMetadata] object of one [run] call and the file system.  Every
    reading of the clock is an explicit argument. *)

From Stdlib Require Import ZArith NArith Ascii String List Lia SpecFloat.
From stdpp Require Import base option list strings gmap fin_maps pretty sorting.

Local Open Scope string_scope.
Local Open Scope N_scope.

(* ===================================================================== *)
(** ** Strings *)
(* ===================================================================== *)

(** [s.startswith(p)] *)
Fixpoint startswith (p s : string) : bool :=
  match p, s with
  | EmptyString, _ => true
  | String a p', String b s' => if Ascii.eqb a b then startswith p' s' else false
  | String _ _, EmptyString => false
  end.

(** [s.endswith(p)] *)
Definition endswith (p s : string) : bool :=
  startswith (String.rev p) (String.rev s).

(** [s[len(p):]] when [s] starts with [p] *)
Fixpoint strip_prefix (p s : string) : option string :=
  match p, s with
  | EmptyString, _ => Some s
  | String a p', String b s' => if Ascii.eqb a b then strip_prefix p' s' else None
  | String _ _, EmptyString => None
  end.

(** [c in s] for a single character *)
Fixpoint contains_char (c : ascii) (s : string) : bool :=
  match s with
  | EmptyString => false
  | String a s' => if Ascii.eqb a c then true else contains_char c s'
  end.

Fixpoint replicate_char (n : nat) (c : ascii) : string :=
  match n with
  | O => EmptyString
  | S n' => String c (replicate_char n' c)
  end.

(** Zero padding of the format specs [:03d], [%m], [%f], ... : the decimal
    digits of [n], left-padded with ["0"] to at least [width] characters. *)
Definition zfill (width : nat) (s : string) : string :=
  replicate_char (width - String.length s) "0"%char +:+ s.

Definition decimal (n : N) : string := pretty n.

Definition padded (width : nat) (n : N) : string := zfill width (decimal n).

(** [s[:-k]], for [k] positive: the slice from the start to [k] characters
    before the end *)
Definition drop_last (k : nat) (s : string) : string :=
  String.substring 0 (String.length s - k) s.

(** Reading a decimal numeral back; used to show that the numeric suffixes
    of sample files are pairwise distinct. *)
Definition digit_value (c : ascii) : N := N_of_ascii c - 48.

Fixpoint decimal_value_from (acc : N) (s : string) : N :=
  match s with
  | EmptyString => acc
  | String c s' => decimal_value_from (acc * 10 + digit_value c) s'
  end.

Definition decimal_value (s : string) : N := decimal_value_from 0 s.

(* ===================================================================== *)
(** ** Python values and JSON documents *)
(* ===================================================================== *)

(** The values a payload ([dict[str, Any]]) is built from.  A [float] is
    an IEEE-754 double, given by its sign and, when finite, its mantissa and
    binary exponent.  Dictionaries are insertion-ordered association lists
    with string keys. *)
#[local] Unset Elimination Schemes.

Inductive pyval : Type :=
| PyNone
| PyBool (b : bool)
| PyInt (z : Z)
| PyFloat (x : spec_float)
| PyStr (s : string)
| PyList (items : list pyval)
| PyTuple (items : list pyval)
| PyDict (entries : list (string * pyval)).

Definition pydict : Type := list (string * pyval).

Inductive json : Type :=
| JNull
| JBool (b : bool)
| JNum (z : Z)
| JFloat (x : spec_float)
| JStr (s : string)
| JArr (items : list json)
| JObj (members : list (string * json)).

#[local] Set Elimination Schemes.

(** [d.get(k)] *)
Fixpoint dict_get {V : Type} (k : string) (d : list (string * V)) : option V :=
  match d with
  | [] => None
  | (k', v) :: d' => if String.eqb k' k then Some v else dict_get k d'
  end.

(** [d[k] = v]: an existing key keeps its position, a new key goes last. *)
Fixpoint dict_set {V : Type} (k : string) (v : V) (d : list (string * V))
  : list (string * V) :=
  match d with
  | [] => [(k, v)]
  | (k', v') :: d' =>
      if String.eqb k' k then (k', v) :: d' else (k', v') :: dict_set k v d'
  end.

(** The dict built from a sequence of pairs, as [json.load] builds a JSON
    object: a repeated key keeps the last value. *)
Definition dict_of_pairs {V : Type} (l : list (string * V)) : list (string * V) :=
  fold_left (fun d kv => dict_set (fst kv) (snd kv) d) l [].

(** [json.dump(v, default=str)] on a payload value: tuples are written as
    arrays.  A float is written by [float.__repr__], the shortest decimal
    numeral that reads back as the same double ([NaN], [Infinity] and
    [-Infinity] for the values that are not finite); the document holds the
    double the numeral denotes. *)
Fixpoint to_json (v : pyval) : json :=
  match v with
  | PyNone => JNull
  | PyBool b => JBool b
  | PyInt z => JNum z
  | PyFloat x => JFloat x
  | PyStr s => JStr s
  | PyList l => JArr (map to_json l)
  | PyTuple l => JArr (map to_json l)
  | PyDict d => JObj (map (fun kv => (fst kv, to_json (snd kv))) d)
  end.

(** [json.load]: arrays come back as lists, objects as dicts. *)
Fixpoint of_json (j : json) : pyval :=
  match j with
  | JNull => PyNone
  | JBool b => PyBool b
  | JNum z => PyInt z
  | JFloat x => PyFloat x
  | JStr s => PyStr s
  | JArr l => PyList (map of_json l)
  | JObj m => PyDict (dict_of_pairs (map (fun kv => (fst kv, of_json (snd kv))) m))
  end.

(** Payload values that JSON represents exactly: no tuple anywhere, no
    NaN (which is read back as a NaN, and a NaN compares unequal to every
    float, itself included), and no repeated key in a dictionary (a Python
    dict never has one). *)
Fixpoint nodup_keys {V : Type} (d : list (string * V)) : bool :=
  match d with
  | [] => true
  | (k, _) :: d' =>
      match dict_get k d' with
      | Some _ => false
      | None => nodup_keys d'
      end
  end.

Fixpoint json_native (v : pyval) : bool :=
  match v with
  | PyNone | PyBool _ | PyInt _ | PyStr _ => true
  | PyFloat x => match x with S754_nan => false | _ => true end
  | PyList l => forallb json_native l
  | PyTuple _ => false
  | PyDict d => nodup_keys d && forallb (fun kv => json_native (snd kv)) d
  end.

Definition json_native_dict (d : pydict) : bool := json_native (PyDict d).

(* ===================================================================== *)
(** ** Dates and times *)
(* ===================================================================== *)

Record datetime : Type := {
  year : N; month : N; day : N;
  hour : N; minute : N; second : N; microsecond : N
}.

(** [strftime("%Y%m%d_%H%M%S_%f")] *)
Definition strftime_stamp (t : datetime) : string :=
  padded 4 (year t) +:+ padded 2 (month t) +:+ padded 2 (day t) +:+ "_" +:+
  padded 2 (hour t) +:+ padded 2 (minute t) +:+ padded 2 (second t) +:+ "_" +:+
  padded 6 (microsecond t).

(** [isoformat(sep)] of a UTC-aware datetime; the fraction is omitted when
    the microsecond field is zero. *)
Definition isoformat_sep (sep : string) (t : datetime) : string :=
  padded 4 (year t) +:+ "-" +:+ padded 2 (month t) +:+ "-" +:+ padded 2 (day t) +:+
  sep +:+
  padded 2 (hour t) +:+ ":" +:+ padded 2 (minute t) +:+ ":" +:+ padded 2 (second t) +:+
  (if N.eqb (microsecond t) 0 then "" else "." +:+ padded 6 (microsecond t)) +:+
  "+00:00".

Definition isoformat : datetime -> string := isoformat_sep "T".

(** [str(t)], which is what [json.dump(..., default=str)] writes. *)
Definition datetime_str : datetime -> string := isoformat_sep " ".

(* ===================================================================== *)
(** ** data_envelope.py *)
(* ===================================================================== *)

Inductive DataType : Type := COMPONENT_INPUT | COMPONENT_OUTPUT | RAW_DATA.

Definition DataType_value (t : DataType) : string :=
  match t with
  | COMPONENT_INPUT => "component_input"
  | COMPONENT_OUTPUT => "component_output"
  | RAW_DATA => "raw_data"
  end.

Definition DataType_eqb (a b : DataType) : bool :=
  match a, b with
  | COMPONENT_INPUT, COMPONENT_INPUT
  | COMPONENT_OUTPUT, COMPONENT_OUTPUT
  | RAW_DATA, RAW_DATA => true
  | _, _ => false
  end.

(** One lineage entry is a [dict[str, str]]. *)
Definition lineage_record : Type := list (string * string).

Record DataEnvelope : Type := {
  envelope_version : string;
  data_type : DataType;
  env_component_name : option string;
  env_component_version : option string;
  data_tags : list string;
  schema_name : option string;
  schema_version : option string;
  env_execution_id : option string;
  timestamp : datetime;
  source_info : option pydict;
  lineage : list lineage_record;
  data : pydict
}.

Record ComponentMetadata : Type := {
  component_name : string;
  component_version : string;
  executed_at : datetime;
  execution_id : option string;
  debug_mode : bool;
  input_source_type : option string;
  is_replay : bool;
  data_lineage : list lineage_record
}.

(** An instance of a pydantic model class: its class and its field values
    ([model_dump()] returns the latter). *)
Record model : Type := {
  model_module : string;
  model_class : string;
  model_fields : pydict
}.

Definition model_dump (m : model) : pydict := model_fields m.

Record ComponentResult : Type := {
  res_data : option model;
  res_metadata : ComponentMetadata;
  res_error : option string;
  res_warnings : list string;
  res_envelope : option DataEnvelope
}.

(* ===================================================================== *)
(** ** config.py *)
(* ===================================================================== *)

(** [SampleSaveMode] is a [Flag]: a bit set, [&] is bitwise and, and a flag
    value is truthy when it is not zero. *)
Module SampleSaveMode.
Definition NONE : N := 0.
Definition INPUT : N := 1.
Definition OUTPUT : N := 2.
Definition BOTH : N := N.lor INPUT OUTPUT.
Definition truthy (flags : N) : bool := negb (N.eqb flags 0).
End SampleSaveMode.

Record RunConfig : Type := {
  cfg_debug_mode : bool;
  save_samples : N;
  cfg_execution_id : option string;
  cfg_source_info : option pydict;
  skip_compatibility_check : bool;
  timeout : option Z;
  max_retries : Z;
  sample_name_prefix : option string;
  compress_samples : bool
}.

(** [RunConfig()] *)
Definition RunConfig_default : RunConfig := {|
  cfg_debug_mode := false;
  save_samples := SampleSaveMode.NONE;
  cfg_execution_id := None;
  cfg_source_info := None;
  skip_compatibility_check := false;
  timeout := None;
  max_retries := 0%Z;
  sample_name_prefix := None;
  compress_samples := false
|}.

Module RunConfigPresets.
Definition debug (save_all : bool) : RunConfig := {|
  cfg_debug_mode := true;
  save_samples := if save_all then SampleSaveMode.BOTH else SampleSaveMode.NONE;
  cfg_execution_id := None;
  cfg_source_info := None;
  skip_compatibility_check := false;
  timeout := None;
  max_retries := 0%Z;
  sample_name_prefix := None;
  compress_samples := false
|}.

Definition production (execution_id : string) : RunConfig := {|
  cfg_debug_mode := false;
  save_samples := SampleSaveMode.NONE;
  cfg_execution_id := Some execution_id;
  cfg_source_info := None;
  skip_compatibility_check := false;
  timeout := None;
  max_retries := 0%Z;
  sample_name_prefix := None;
  compress_samples := false
|}.

Definition testing (save_output_only : bool) : RunConfig := {|
  cfg_debug_mode := true;
  save_samples :=
    if save_output_only then SampleSaveMode.OUTPUT else SampleSaveMode.BOTH;
  cfg_execution_id := None;
  cfg_source_info := None;
  skip_compatibility_check := false;
  timeout := None;
  max_retries := 0%Z;
  sample_name_prefix := None;
  compress_samples := false
|}.
End RunConfigPresets.

(* ===================================================================== *)
(** ** Exceptions, the file system, and the monad of [run] *)
(* ===================================================================== *)

(** A raised exception: its class name, [str(e)], and whether the class
    derives from [Exception] (what an [except Exception] clause tests;
    [KeyboardInterrupt], [SystemExit] and [asyncio.CancelledError] derive
    from [BaseException] only). *)
Record py_exception : Type := {
  exc_class : string;
  exc_str : string;
  exc_is_Exception : bool
}.

Definition ValueError (msg : string) : py_exception :=
  {| exc_class := "ValueError"; exc_str := msg; exc_is_Exception := true |}.
Definition FileNotFoundError (msg : string) : py_exception :=
  {| exc_class := "FileNotFoundError"; exc_str := msg; exc_is_Exception := true |}.
Definition TypeError (msg : string) : py_exception :=
  {| exc_class := "TypeError"; exc_str := msg; exc_is_Exception := true |}.
Definition AttributeError (msg : string) : py_exception :=
  {| exc_class := "AttributeError"; exc_str := msg; exc_is_Exception := true |}.
Definition ValidationError (msg : string) : py_exception :=
  {| exc_class := "ValidationError"; exc_str := msg; exc_is_Exception := true |}.
Definition JSONDecodeError (msg : string) : py_exception :=
  {| exc_class := "JSONDecodeError"; exc_str := msg; exc_is_Exception := true |}.

Inductive outcome (A : Type) : Type :=
| Ok (a : A)
| Raise (e : py_exception).
Arguments Ok {A} a.
Arguments Raise {A} e.

(** A file of the store: the JSON document it holds ([None] when the bytes
    are not a JSON document) and its modification time. *)
Record file : Type := {
  content : option json;
  st_mtime : N
}.

Abbreviation filesystem := (gmap string file).

(** The state one [run] call works on: its [metadata] object, which the
    body mutates and the handler reads, and the files. *)
Record run_state : Type := {
  st_metadata : ComponentMetadata;
  st_files : filesystem
}.

Definition M (A : Type) : Type := run_state -> outcome A * run_state.

Definition ret {A : Type} (a : A) : M A := fun s => (Ok a, s).

Definition raise {A : Type} (e : py_exception) : M A := fun s => (Raise e, s).

Definition bind {A B : Type} (m : M A) (k : A -> M B) : M B :=
  fun s =>
    match m s with
    | (Ok a, s') => k a s'
    | (Raise e, s') => (Raise e, s')
    end.

Notation "'let*' x ':=' m 'in' k" := (bind m (fun x => k))
  (at level 10, x pattern, m at level 100, k at level 200, only parsing).

Definition lift {A : Type} (o : outcome A) : M A := fun s => (o, s).

Definition get_metadata : M ComponentMetadata := fun s => (Ok (st_metadata s), s).

Definition get_files : M filesystem := fun s => (Ok (st_files s), s).

Definition update_metadata (f : ComponentMetadata -> ComponentMetadata) : M unit :=
  fun s => (Ok tt, {| st_metadata := f (st_metadata s); st_files := st_files s |}).

Definition put_files (fs : filesystem) : M unit :=
  fun s => (Ok tt, {| st_metadata := st_metadata s; st_files := fs |}).

(** Attribute assignments on the metadata object. *)
Definition set_is_replay (b : bool) (m : ComponentMetadata) : ComponentMetadata :=
  {| component_name := component_name m; component_version := component_version m;
     executed_at := executed_at m; execution_id := execution_id m;
     debug_mode := debug_mode m; input_source_type := input_source_type m;
     is_replay := b; data_lineage := data_lineage m |}.

Definition set_input_source_type (t : string) (m : ComponentMetadata)
  : ComponentMetadata :=
  {| component_name := component_name m; component_version := component_version m;
     executed_at := executed_at m; execution_id := execution_id m;
     debug_mode := debug_mode m; input_source_type := Some t;
     is_replay := is_replay m; data_lineage := data_lineage m |}.

Definition set_data_lineage (l : list lineage_record) (m : ComponentMetadata)
  : ComponentMetadata :=
  {| component_name := component_name m; component_version := component_version m;
     executed_at := executed_at m; execution_id := execution_id m;
     debug_mode := debug_mode m; input_source_type := input_source_type m;
     is_replay := is_replay m; data_lineage := l |}.

(** Python truthiness of an optional string: [None] and [""] are falsy. *)
Definition truthy_str (o : option string) : bool :=
  match o with
  | None => false
  | Some s => negb (String.eqb s "")
  end.

(** [o or d] for an optional string [o] and a string [d] *)
Definition or_str (o : option string) (d : string) : string :=
  match o with
  | Some s => if String.eqb s "" then d else s
  | None => d
  end.

(* ===================================================================== *)
(** ** Components *)
(* ===================================================================== *)

(** A pydantic model class ([type[BaseModel]]): its [__name__] and its
    validating constructor (the class called on the keyword dictionary, or
    [model_validate]), which is the class author's code and may raise. *)
Record model_type : Type := {
  cls_module : string;
  cls_name : string;
  cls_validate : pydict -> outcome model
}.

(** [isinstance(m, cls)], classes being identified by module and name. *)
Definition isinstance_model (m : model) (cls : model_type) : bool :=
  String.eqb (model_module m) (cls_module cls) &&
  String.eqb (model_class m) (cls_name cls).

(** A Python function object: its [__name__] and what calling it does. *)
Record py_function : Type := {
  fn_name : string;
  fn_call : pydict -> outcome pydict
}.

(** What [process] may hand back: a model instance, or some other object
    (which then has no [model_dump]). *)
Inductive py_object : Type :=
| ObjModel (m : model)
| ObjOther (type_name : string).

(** A component instance.  [prepare_input_override] is the method a
    subclass defines under the name [prepare_input], if it defines one;
    [process] receives the validated input and the keyword arguments. *)
Record BaseComponent : Type := {
  comp_class : string;
  name : string;
  version : string;
  input_schema : model_type;
  output_schema : model_type;
  sample_data_dir : string;
  prepare_input_override : option py_function;
  process : model -> pydict -> outcome py_object
}.

(** [BaseComponent.prepare_input] *)
Definition BaseComponent_prepare_input : py_function :=
  {| fn_name := "prepare_input"; fn_call := fun input_dict => Ok input_dict |}.

(** Attribute lookup [self.prepare_input]: the subclass's method when there
    is one, the base class's otherwise. *)
Definition prepare_input (self : BaseComponent) : py_function :=
  match prepare_input_override self with
  | Some f => f
  | None => BaseComponent_prepare_input
  end.

(** The shapes [run] can be handed as [input_source].  [SrcOther t] is an
    object of a class [t] (its qualified name) that is none of the others
    and that no [isinstance] test of the code recognises; in particular it
    is not path-like, [bytes] being the one such class told apart below. *)
#[local] Unset Elimination Schemes.
Inductive input_source : Type :=
| SrcNone
| SrcStr (s : string)
| SrcPath (p : string)
| SrcEnvelope (e : DataEnvelope)
| SrcResult (r : ComponentResult)
| SrcComponent (c : BaseComponent)
| SrcModel (m : model)
| SrcDict (d : pydict)
| SrcTuple (items : list input_source)
| SrcOther (type_name : string).
#[local] Set Elimination Schemes.

(** [type(x)] as an f-string prints it *)
Definition class_repr (qualified_name : string) : string :=
  "<class '" +:+ qualified_name +:+ "'>".

Definition type_repr (x : input_source) : string :=
  match x with
  | SrcNone => class_repr "NoneType"
  | SrcStr _ => class_repr "str"
  | SrcPath _ => class_repr "pathlib.PosixPath"
  | SrcEnvelope _ => class_repr "pudding.core.data_envelope.DataEnvelope"
  | SrcResult _ => class_repr "pudding.core.data_envelope.ComponentResult"
  | SrcComponent c => class_repr (comp_class c)
  | SrcModel m => class_repr (model_module m +:+ "." +:+ model_class m)
  | SrcDict _ => class_repr "dict"
  | SrcTuple _ => class_repr "tuple"
  | SrcOther t => class_repr t
  end.

(** The class name without its module: the text after the last dot *)
Fixpoint unqualified (qualified_name : string) : string :=
  match qualified_name with
  | "" => ""
  | String c rest =>
      if contains_char "." rest then unqualified rest
      else if Ascii.eqb c "." then rest
      else qualified_name
  end.

(** [type(x).__name__] *)
Definition type_name (x : input_source) : string :=
  match x with
  | SrcNone => "NoneType"
  | SrcStr _ => "str"
  | SrcPath _ => "PosixPath"
  | SrcEnvelope _ => "DataEnvelope"
  | SrcResult _ => "ComponentResult"
  | SrcComponent c => unqualified (comp_class c)
  | SrcModel m => model_class m
  | SrcDict _ => "dict"
  | SrcTuple _ => "tuple"
  | SrcOther t => unqualified t
  end.

(** The text of the [TypeError] that [Path(x)] raises for an [x] that is
    neither a string nor a path, in the wording of CPython up to 3.11:
    [os.fspath] refuses what is not [str], [bytes] or path-like, and
    [pathlib] refuses [bytes].  (From 3.12 on [pathlib] words both cases
    as [argument should be a str or an os.PathLike object where __fspath__
    returns a str, not 'int'].) *)
Definition path_type_error (x : input_source) : string :=
  match x with
  | SrcOther "bytes" =>
      "argument should be a str object or an os.PathLike object returning str, not " +:+
      type_repr x
  | _ => "expected str, bytes or os.PathLike object, not " +:+ type_name x
  end.

(** The readings of the clock one [run] call makes. *)
Record clock : Type := {
  now_metadata : datetime;        (* [executed_at] of the metadata *)
  now_envelope : datetime;        (* [timestamp] default of a new envelope *)
  now_input_sample : datetime;    (* [datetime.now()] naming the input sample *)
  mtime_input_sample : N;         (* modification time of the input sample *)
  now_output_sample : datetime;
  mtime_output_sample : N
}.

(* ===================================================================== *)
(** ** Paths and the sample directory *)
(* ===================================================================== *)

Definition is_absolute (p : string) : bool := startswith "/" p.

(** [dir / filename]: an absolute right operand replaces the left one. *)
Definition path_join (dir filename : string) : string :=
  if is_absolute filename then filename else dir +:+ "/" +:+ filename.

(** The name of [path] inside directory [dir], when it is directly there. *)
Definition name_in_dir (dir path : string) : option string :=
  match strip_prefix (dir +:+ "/") path with
  | Some n =>
      if String.eqb n "" || contains_char "/"%char n then None else Some n
  | None => None
  end.

(** [fnmatch(n, prefix + "*.json")] *)
Definition matches_pattern (prefix n : string) : bool :=
  startswith prefix n && endswith ".json" n &&
  Nat.leb (String.length prefix + 5) (String.length n).

(** [list(dir.glob(prefix + "*.json"))], each entry with its name *)
Definition glob (dir prefix : string) (fs : filesystem) : list (string * file) :=
  omap (fun pf : string * file =>
          match name_in_dir dir (fst pf) with
          | Some n => if matches_pattern prefix n then Some (n, snd pf) else None
          | None => None
          end)
       (map_to_list fs).

(** [max(files, key=...)] on a non-empty list: the first entry whose key is
    largest. *)
Fixpoint max_by_mtime (best : string * file) (rest : list (string * file))
  : string * file :=
  match rest with
  | [] => best
  | x :: rest' =>
      if N.ltb (st_mtime (snd best)) (st_mtime (snd x))
      then max_by_mtime x rest'
      else max_by_mtime best rest'
  end.

(* ===================================================================== *)
(** ** Envelopes as JSON documents *)
(* ===================================================================== *)

Definition json_opt_str (o : option string) : json :=
  match o with
  | Some s => JStr s
  | None => JNull
  end.

Definition lineage_record_to_json (r : lineage_record) : json :=
  JObj (map (fun kv => (fst kv, JStr (snd kv))) r).

(** [json.dump(envelope.model_dump(), f, default=str)]: the fields in
    declaration order; the [DataType] member is written as its string
    value and the datetime through [str]. *)
Definition envelope_to_json (e : DataEnvelope) : json :=
  JObj [ ("envelope_version", JStr (envelope_version e));
         ("data_type", JStr (DataType_value (data_type e)));
         ("component_name", json_opt_str (env_component_name e));
         ("component_version", json_opt_str (env_component_version e));
         ("data_tags", JArr (map JStr (data_tags e)));
         ("schema_name", json_opt_str (schema_name e));
         ("schema_version", json_opt_str (schema_version e));
         ("execution_id", json_opt_str (env_execution_id e));
         ("timestamp", JStr (datetime_str (timestamp e)));
         ("source_info", match source_info e with
                         | Some d => to_json (PyDict d)
                         | None => JNull
                         end);
         ("lineage", JArr (map lineage_record_to_json (lineage e)));
         ("data", to_json (PyDict (data e))) ].

(** Field validators of [DataEnvelope], on a keyword argument that may be
    missing. *)
Definition validate_str (default : string) (field : option pyval) : option string :=
  match field with
  | None => Some default
  | Some (PyStr s) => Some s
  | Some _ => None
  end.

Definition validate_opt_str (field : option pyval) : option (option string) :=
  match field with
  | None | Some PyNone => Some None
  | Some (PyStr s) => Some (Some s)
  | Some _ => None
  end.

Definition validate_DataType (field : option pyval) : option DataType :=
  match field with
  | Some (PyStr s) =>
      if String.eqb s "component_input" then Some COMPONENT_INPUT
      else if String.eqb s "component_output" then Some COMPONENT_OUTPUT
      else if String.eqb s "raw_data" then Some RAW_DATA
      else None
  | _ => None
  end.

Definition as_str (v : pyval) : option string :=
  match v with
  | PyStr s => Some s
  | _ => None
  end.

Definition validate_str_list (field : option pyval) : option (list string) :=
  match field with
  | None => Some []
  | Some (PyList l) | Some (PyTuple l) => mapM as_str l
  | Some _ => None
  end.

Definition as_str_dict (v : pyval) : option lineage_record :=
  match v with
  | PyDict d =>
      mapM (fun kv : string * pyval =>
              match as_str (snd kv) with
              | Some s => Some (fst kv, s)
              | None => None
              end) d
  | _ => None
  end.

Definition validate_lineage (field : option pyval) : option (list lineage_record) :=
  match field with
  | None => Some []
  | Some (PyList l) | Some (PyTuple l) => mapM as_str_dict l
  | Some _ => None
  end.

Definition validate_dict (field : option pyval) : option pydict :=
  match field with
  | Some (PyDict d) => Some d
  | _ => None
  end.

Definition validate_opt_dict (field : option pyval) : option (option pydict) :=
  match field with
  | None | Some PyNone => Some None
  | Some (PyDict d) => Some (Some d)
  | Some _ => None
  end.

Section Engine.

(** pydantic's validator of a [datetime] field, applied to the value that
    was read from a document; [None] is a validation error.  It is part of
    the library, not of this repository, and is left open. *)
Variable pydantic_datetime : pyval -> option datetime.

Definition validate_timestamp (now : datetime) (field : option pyval)
  : option datetime :=
  match field with
  | None => Some now
  | Some v => pydantic_datetime v
  end.

(** The constructor of [DataEnvelope] called on the keyword dictionary
    [kwargs]: every field is validated, unknown keys are ignored, [now] is
    the reading of the timestamp default. *)
Definition DataEnvelope_init (now : datetime) (kwargs : pydict)
  : outcome DataEnvelope :=
  match validate_str "1.0" (dict_get "envelope_version" kwargs),
        validate_DataType (dict_get "data_type" kwargs),
        validate_opt_str (dict_get "component_name" kwargs),
        validate_opt_str (dict_get "component_version" kwargs),
        validate_str_list (dict_get "data_tags" kwargs),
        validate_opt_str (dict_get "schema_name" kwargs) with
  | Some ev, Some dt, Some cn, Some cv, Some tags, Some sn =>
      match validate_opt_str (dict_get "schema_version" kwargs),
            validate_opt_str (dict_get "execution_id" kwargs),
            validate_timestamp now (dict_get "timestamp" kwargs),
            validate_opt_dict (dict_get "source_info" kwargs),
            validate_lineage (dict_get "lineage" kwargs),
            validate_dict (dict_get "data" kwargs) with
      | Some sv, Some eid, Some ts, Some si, Some lin, Some d =>
          Ok {| envelope_version := ev; data_type := dt;
                env_component_name := cn; env_component_version := cv;
                data_tags := tags; schema_name := sn; schema_version := sv;
                env_execution_id := eid; timestamp := ts; source_info := si;
                lineage := lin; data := d |}
      | _, _, _, _, _, _ =>
          Raise (ValidationError "validation errors for DataEnvelope")
      end
  | _, _, _, _, _, _ =>
      Raise (ValidationError "validation errors for DataEnvelope")
  end.

(* ===================================================================== *)
(** ** base_component.py: the sample store *)
(* ===================================================================== *)

(** [load_sample] *)
Definition load_sample (self : BaseComponent) (filename : string) (now : datetime)
  : M DataEnvelope :=
  let filepath :=
    if is_absolute filename then filename
    else path_join (sample_data_dir self) filename in
  let* fs := get_files in
  match fs !! filepath with
  | None => raise (FileNotFoundError ("Sample file not found: " +:+ filename))
  | Some f =>
      match content f with
      | None => raise (JSONDecodeError "Expecting value")
      | Some doc =>
          match of_json doc with
          | PyDict kwargs => lift (DataEnvelope_init now kwargs)
          | _ => raise (TypeError "argument after ** must be a mapping")
          end
      end
  end.

(** [_get_latest_envelope] *)
Definition _get_latest_envelope (self : BaseComponent) (data_type : DataType)
    (now : datetime) : M (option DataEnvelope) :=
  let prefix := if DataType_eqb data_type COMPONENT_INPUT then "input_" else "output_" in
  let* fs := get_files in
  let files := glob (sample_data_dir self) prefix fs in
  match files with
  | [] => ret None
  | first :: rest =>
      let latest := max_by_mtime first rest in
      let* envelope := load_sample self (fst latest) now in
      ret (Some envelope)
  end.

(** The candidate file of the collision loop for a given [counter] *)
Definition sample_filename (base_filename : string) (counter : N) : string :=
  if N.eqb counter 0 then base_filename +:+ ".json"
  else base_filename +:+ "_" +:+ padded 3 counter +:+ ".json".

(** The [while True] loop of [_save_sample]: the first counter, starting at
    [counter], whose file does not exist.  [fuel] bounds the number of
    iterations; [S (size fs)] always suffices (see [find_free_path_total]). *)
Fixpoint find_free_path (fuel : nat) (dir base_filename : string) (counter : N)
    (fs : filesystem) : option string :=
  match fuel with
  | O => None
  | S fuel' =>
      let filepath := path_join dir (sample_filename base_filename counter) in
      match fs !! filepath with
      | None => Some filepath
      | Some _ => find_free_path fuel' dir base_filename (counter + 1) fs
      end
  end.

Definition sample_base_filename (sample_type : DataType) (prefix : option string)
    (now : datetime) : string :=
  let timestamp := drop_last 3 (strftime_stamp now) in
  let type_prefix :=
    if DataType_eqb sample_type COMPONENT_INPUT then "input" else "output" in
  if truthy_str prefix
  then or_str prefix "" +:+ "_" +:+ type_prefix +:+ "_" +:+ timestamp
  else type_prefix +:+ "_" +:+ timestamp.

(** The envelope [_save_sample] builds *)
Definition sample_envelope (self : BaseComponent) (sample_type : DataType)
    (data : pydict) (metadata : ComponentMetadata) : DataEnvelope :=
  {| envelope_version := "1.0";
     data_type := sample_type;
     env_component_name := Some (name self);
     env_component_version := Some (version self);
     data_tags := [];
     schema_name :=
       Some (if DataType_eqb sample_type COMPONENT_INPUT
             then cls_name (input_schema self)
             else cls_name (output_schema self));
     schema_version := None;
     env_execution_id := execution_id metadata;
     timestamp := executed_at metadata;
     source_info := None;
     lineage := data_lineage metadata;
     data := data |}.

(** [_save_sample].  [now] is the reading of [datetime.now()], [mtime] the
    modification time the new file gets.  The store holds files; it does
    not hold directories, permissions or free space, and [open] is taken to
    succeed.  That is what happens for a file name without separator: it
    names an entry of the component's directory, which the constructor
    creates.  With a caller prefix that holds a separator, such as [exp/1],
    [open] raises unless that directory is there; the statements about a
    completed save are therefore made for prefixes without separator
    ([plain_prefix] below). *)
Definition _save_sample (self : BaseComponent) (sample_type : DataType)
    (data : pydict) (prefix : option string) (now : datetime) (mtime : N)
  : M unit :=
  let* metadata := get_metadata in
  let envelope := sample_envelope self sample_type data metadata in
  let base_filename := sample_base_filename sample_type prefix now in
  let* fs := get_files in
  match find_free_path (S (size fs)) (sample_data_dir self) base_filename 0 fs with
  | Some filepath =>
      put_files (<[filepath :=
                    {| content := Some (envelope_to_json envelope);
                       st_mtime := mtime |}]> fs)
  | None => raise (ValueError "collision loop did not finish")
  end.

(* ===================================================================== *)
(** ** base_component.py: the engine *)
(* ===================================================================== *)

(** [can_process] *)
Definition can_process (self : BaseComponent) (envelope : DataEnvelope)
  : bool * option string :=
  if truthy_str (schema_name envelope) &&
     negb (String.eqb (or_str (schema_name envelope) "") (cls_name (input_schema self)))
  then
    if negb (String.eqb (fn_name (prepare_input self))
                        (fn_name BaseComponent_prepare_input))
    then (true, Some "Will transform using prepare_input()")
    else (false,
          Some ("Schema mismatch: expects " +:+ cls_name (input_schema self) +:+
                ", got " +:+ or_str (schema_name envelope) ""))
  else (true, None).

(** [Path(filename)] wants a string or a path. *)
Definition as_filename (x : input_source) : option string :=
  match x with
  | SrcStr s | SrcPath s => Some s
  | _ => None
  end.

(** [_normalize_to_envelope]: the chain of [isinstance] tests, in the
    order of the source. *)
Definition _normalize_to_envelope (self : BaseComponent) (input_source : input_source)
    (now : datetime) : M DataEnvelope :=
  match input_source with
  | SrcStr s => load_sample self s now
  | SrcPath p => load_sample self p now
  | SrcEnvelope e => ret e
  | SrcResult r =>
      match res_envelope r with
      | Some e => ret e
      | None =>
          ret {| envelope_version := "1.0";
                 data_type := COMPONENT_OUTPUT;
                 env_component_name := Some (component_name (res_metadata r));
                 env_component_version := Some (component_version (res_metadata r));
                 data_tags := [];
                 schema_name := None;
                 schema_version := None;
                 env_execution_id := execution_id (res_metadata r);
                 timestamp := executed_at (res_metadata r);
                 source_info := None;
                 lineage := data_lineage (res_metadata r);
                 data := match res_data r with
                         | Some m => model_dump m
                         | None => []
                         end |}
      end
  | SrcComponent other =>
      let* envelope := _get_latest_envelope other COMPONENT_OUTPUT now in
      match envelope with
      | None => raise (ValueError ("No output samples found for " +:+ name other))
      | Some e => ret e
      end
  | SrcModel m =>
      ret {| envelope_version := "1.0"; data_type := RAW_DATA;
             env_component_name := None; env_component_version := None;
             data_tags := []; schema_name := Some (model_class m);
             schema_version := None; env_execution_id := None;
             timestamp := now; source_info := None; lineage := [];
             data := model_dump m |}
  | SrcDict d =>
      ret {| envelope_version := "1.0"; data_type := RAW_DATA;
             env_component_name := None; env_component_version := None;
             data_tags := []; schema_name := None;
             schema_version := None; env_execution_id := None;
             timestamp := now; source_info := None; lineage := [];
             data := d |}
  | SrcTuple [component; sample_name] =>
      match component with
      | SrcComponent other =>
          match as_filename sample_name with
          | Some filename => load_sample other filename now
          | None => raise (TypeError (path_type_error sample_name))
          end
      | _ =>
          raise (ValueError ("First element of tuple must be a BaseComponent, got " +:+
                             type_repr component))
      end
  | SrcNone | SrcTuple _ | SrcOther _ =>
      raise (ValueError ("Unsupported input source type: " +:+ type_repr input_source))
  end.

(** [_get_source_type_name]: envelopes and results are pydantic models, and
    the test for [BaseModel] comes before the tests for them. *)
Definition _get_source_type_name (input_source : input_source) : string :=
  match input_source with
  | SrcDict _ => "dict"
  | SrcModel m => "model:" +:+ model_class m
  | SrcResult _ => "model:ComponentResult"
  | SrcEnvelope _ => "model:DataEnvelope"
  | SrcComponent c => "component:" +:+ name c
  | SrcStr _ | SrcPath _ => "file"
  | SrcNone | SrcTuple _ | SrcOther _ => "unknown"
  end.

(** The record [_create_output_envelope] appends *)
Definition new_lineage_record (self : BaseComponent) (metadata : ComponentMetadata)
  : lineage_record :=
  [ ("component", name self);
    ("version", version self);
    ("timestamp", isoformat (executed_at metadata));
    ("execution_id", or_str (execution_id metadata) "") ].

(** [_create_output_envelope] *)
Definition _create_output_envelope (self : BaseComponent) (output_data : model)
    (metadata : ComponentMetadata) (input_envelope : DataEnvelope) : DataEnvelope :=
  let lineage := (lineage input_envelope ++ [new_lineage_record self metadata])%list in
  {| envelope_version := "1.0";
     data_type := COMPONENT_OUTPUT;
     env_component_name := Some (name self);
     env_component_version := Some (version self);
     data_tags := [];
     schema_name := Some (cls_name (output_schema self));
     schema_version := None;
     env_execution_id := execution_id metadata;
     timestamp := executed_at metadata;
     source_info := None;
     lineage := lineage;
     data := model_dump output_data |}.

(** The first statement of the [try] block: the envelope [run] works on.
    Without an input source the latest saved input is replayed. *)
Definition resolve_input (self : BaseComponent) (input_source : input_source)
    (clk : clock) : M DataEnvelope :=
  match input_source with
  | SrcNone =>
      let* latest := _get_latest_envelope self COMPONENT_INPUT (now_envelope clk) in
      match latest with
      | None => raise (ValueError ("No saved inputs found for " +:+ name self))
      | Some envelope =>
          let* _ := update_metadata (set_is_replay true) in
          let* _ := update_metadata (set_input_source_type "latest_saved_input") in
          ret envelope
      end
  | _ =>
      let* envelope := _normalize_to_envelope self input_source (now_envelope clk) in
      let* _ := update_metadata
                  (set_input_source_type (_get_source_type_name input_source)) in
      ret envelope
  end.

(** [isinstance(raw_output, self.output_schema)], and the re-validation of
    the dumped fields otherwise *)
Definition validate_output (self : BaseComponent) (raw_output : py_object) : M model :=
  match raw_output with
  | ObjModel m =>
      if isinstance_model m (output_schema self) then ret m
      else lift (cls_validate (output_schema self) (model_dump m))
  | ObjOther t =>
      raise (AttributeError ("'" +:+ t +:+ "' object has no attribute 'model_dump'"))
  end.

(** The rest of the [try] block, from the lineage snapshot to the
    [return]. *)
Definition execute (self : BaseComponent) (config : RunConfig)
    (process_kwargs : pydict) (clk : clock) (envelope : DataEnvelope)
  : M ComponentResult :=
  let* _ := update_metadata (set_data_lineage (lineage envelope)) in
  let* _ :=
    if negb (skip_compatibility_check config) then
      let '(ok, reason) := can_process self envelope in
      if negb ok then
        raise (ValueError ("Component " +:+ name self +:+
                           " cannot process this data: " +:+
                           match reason with Some r => r | None => "None" end))
      else ret tt
    else ret tt in
  let input_dict := data envelope in
  let* transformed_input := lift (fn_call (prepare_input self) input_dict) in
  let* validated_input := lift (cls_validate (input_schema self) transformed_input) in
  let* _ :=
    if SampleSaveMode.truthy (N.land (save_samples config) SampleSaveMode.INPUT) then
      _save_sample self COMPONENT_INPUT transformed_input (sample_name_prefix config)
                   (now_input_sample clk) (mtime_input_sample clk)
    else ret tt in
  let* raw_output := lift (process self validated_input process_kwargs) in
  let* validated_output := validate_output self raw_output in
  let* metadata := get_metadata in
  let output_envelope := _create_output_envelope self validated_output metadata envelope in
  let result := {| res_data := Some validated_output;
                   res_metadata := metadata;
                   res_error := None;
                   res_warnings := [];
                   res_envelope := Some output_envelope |} in
  let* _ :=
    if SampleSaveMode.truthy (N.land (save_samples config) SampleSaveMode.OUTPUT) then
      _save_sample self COMPONENT_OUTPUT (model_dump validated_output)
                   (sample_name_prefix config)
                   (now_output_sample clk) (mtime_output_sample clk)
    else ret tt in
  ret result.

(** The [try] block of [run] *)
Definition run_try (self : BaseComponent) (input_source : input_source)
    (config : RunConfig) (process_kwargs : pydict) (clk : clock)
  : M ComponentResult :=
  let* envelope := resolve_input self input_source clk in
  execute self config process_kwargs clk envelope.

(** What a call of [run] does as seen by its caller: it returns a result,
    or an exception leaves it. *)
Inductive run_outcome : Type :=
| Returned (result : ComponentResult)
| Propagated (e : py_exception).

(** The metadata [run] starts from *)
Definition initial_metadata (self : BaseComponent) (config : RunConfig) (clk : clock)
  : ComponentMetadata :=
  {| component_name := name self;
     component_version := version self;
     executed_at := now_metadata clk;
     execution_id := Some (or_str (cfg_execution_id config) "local_run");
     debug_mode := cfg_debug_mode config;
     input_source_type := None;
     is_replay := false;
     data_lineage := [] |}.

(** [run]: [config] is [None] when the caller passes none. *)
Definition run (self : BaseComponent) (input_source : input_source)
    (config : option RunConfig) (process_kwargs : pydict) (clk : clock)
    (fs : filesystem) : run_outcome * filesystem :=
  let config := match config with Some c => c | None => RunConfig_default end in
  let metadata := initial_metadata self config clk in
  match run_try self input_source config process_kwargs clk
                {| st_metadata := metadata; st_files := fs |} with
  | (Ok result, s) => (Returned result, st_files s)
  | (Raise e, s) =>
      if exc_is_Exception e then
        let error_msg := "Component " +:+ name self +:+ " failed: " +:+ exc_str e in
        (Returned {| res_data := None;
                     res_metadata := st_metadata s;
                     res_error := Some error_msg;
                     res_warnings := [];
                     res_envelope := None |},
         st_files s)
      else (Propagated e, st_files s)
  end.








End Engine.

(* ===================================================================== *)
(** ** examples/text_pipeline/components.py *)
(* ===================================================================== *)

Module TextPipeline.

(** [str.isspace] on the ASCII range, also what [\s] matches there *)
Definition isspace (c : ascii) : bool :=
  let n := N_of_ascii c in
  (N.leb 9 n && N.leb n 13) || (N.leb 28 n && N.leb n 32).

(** [s.split()] *)
Fixpoint split_go (cur : option string) (s : string) : list string :=
  match s with
  | EmptyString =>
      match cur with
      | Some w => [String.rev w]
      | None => []
      end
  | String c s' =>
      if isspace c then
        match cur with
        | Some w => String.rev w :: split_go None s'
        | None => split_go None s'
        end
      else
        split_go (Some (String c (match cur with Some w => w | None => "" end))) s'
  end.

Definition split (s : string) : list string := split_go None s.

(** [sep.join(words)] *)
Fixpoint join (sep : string) (words : list string) : string :=
  match words with
  | [] => ""
  | [w] => w
  | w :: rest => w +:+ sep +:+ join sep rest
  end.

Definition lower_char (c : ascii) : ascii :=
  let n := N_of_ascii c in
  if N.leb 65 n && N.leb n 90 then ascii_of_N (n + 32) else c.

(** [s.lower()] on ASCII text *)
Fixpoint lower (s : string) : string :=
  match s with
  | EmptyString => EmptyString
  | String c s' => String (lower_char c) (lower s')
  end.

(** The character class of the pattern: lower-case letters, digits and
    white space (the class is negated in the pattern) *)
Definition kept (c : ascii) : bool :=
  let n := N_of_ascii c in
  (N.leb 97 n && N.leb n 122) || (N.leb 48 n && N.leb n 57) || isspace c.

(** [re.sub] of every character outside the class by the empty string *)
Fixpoint remove_special (s : string) : string :=
  match s with
  | EmptyString => EmptyString
  | String c s' => if kept c then String c (remove_special s') else remove_special s'
  end.

Definition validate_source (field : option pyval) : option pyval :=
  match field with
  | None | Some PyNone => Some PyNone
  | Some (PyStr s) => Some (PyStr s)
  | Some _ => None
  end.

(** The schema [TextInput]: [text] is required, [source] optional. *)
Definition TextInput : model_type :=
  {| cls_module := "components";
     cls_name := "TextInput";
     cls_validate := fun d =>
       match dict_get "text" d, validate_source (dict_get "source" d) with
       | Some (PyStr t), Some src =>
           Ok {| model_module := "components"; model_class := "TextInput";
                 model_fields := [("text", PyStr t); ("source", src)] |}
       | _, _ => Raise (ValidationError "validation error for TextInput")
       end |}.

(** The schema [CleanedText] *)
Definition CleanedText : model_type :=
  {| cls_module := "components";
     cls_name := "CleanedText";
     cls_validate := fun d =>
       match dict_get "text" d, validate_source (dict_get "source" d),
             validate_str_list (dict_get "changes_made" d) with
       | Some (PyStr t), Some src, Some changes =>
           Ok {| model_module := "components"; model_class := "CleanedText";
                 model_fields := [("text", PyStr t); ("source", src);
                                  ("changes_made", PyList (map PyStr changes))] |}
       | _, _, _ => Raise (ValidationError "validation error for CleanedText")
       end |}.

(** [process] takes no keyword argument. *)
Definition no_kwargs (process_kwargs : pydict) (k : outcome py_object)
  : outcome py_object :=
  match process_kwargs with
  | [] => k
  | _ => Raise (TypeError "process() got an unexpected keyword argument")
  end.

(** [TextLoader.process] *)
Definition TextLoader_process (input_data : model) (process_kwargs : pydict)
  : outcome py_object :=
  no_kwargs process_kwargs (Ok (ObjModel input_data)).

(** [TextCleaner.process] *)
Definition TextCleaner_process (input_data : model) (process_kwargs : pydict)
  : outcome py_object :=
  no_kwargs process_kwargs
    match dict_get "text" (model_fields input_data),
          dict_get "source" (model_fields input_data) with
    | Some (PyStr original), Some source =>
        let changes := [] in
        let cleaned := join " " (split original) in
        let changes :=
          if negb (String.eqb cleaned original)
          then (changes ++ ["removed_extra_whitespace"])%list else changes in
        let cleaned := lower cleaned in
        let changes :=
          if negb (String.eqb cleaned (lower original))
          then (changes ++ ["converted_to_lowercase"])%list else changes in
        let cleaned := remove_special cleaned in
        let changes :=
          if negb (Nat.eqb (String.length cleaned) (String.length original))
          then (changes ++ ["removed_special_characters"])%list else changes in
        match cls_validate CleanedText
                [("text", PyStr cleaned); ("source", source);
                 ("changes_made", PyList (map PyStr changes))] with
        | Ok m => Ok (ObjModel m)
        | Raise e => Raise e
        end
    | _, _ => Raise (AttributeError "object has no attribute 'text'")
    end.

(** The component instances; [cwd] is the working directory at the time
    of construction. *)
Definition TextLoader (cwd : string) : BaseComponent :=
  {| comp_class := "components.TextLoader";
     name := "text_loader";
     version := "1.0.0";
     input_schema := TextInput;
     output_schema := TextInput;
     sample_data_dir := cwd +:+ "/sample_data/text_loader";
     prepare_input_override := None;
     process := TextLoader_process |}.

Definition TextCleaner (cwd : string) : BaseComponent :=
  {| comp_class := "components.TextCleaner";
     name := "text_cleaner";
     version := "1.0.0";
     input_schema := TextInput;
     output_schema := CleanedText;
     sample_data_dir := cwd +:+ "/sample_data/text_cleaner";
     prepare_input_override := None;
     process := TextCleaner_process |}.

End TextPipeline.


(* ===================================================================== *)
(** ** Lineage lists as shared objects *)
(* ===================================================================== *)

(** Python lists are objects: an envelope holds a reference to its lineage
    list, [copy()] allocates a new list and [append] changes a list in
    place.  This module keeps the lists in a store and follows the two
    statements of [_create_output_envelope] that touch them; it justifies
    reading lineage lists as values everywhere else. *)
Module ListStore.

Abbreviation store := (gmap positive (list lineage_record)).





End ListStore.

(* ===================================================================== *)
(** ** Concrete inputs used by the examples below *)
(* ===================================================================== *)

Module Fixtures.

Definition t0 : datetime :=
  {| year := 2024; month := 3; day := 9; hour := 14; minute := 5; second := 7;
     microsecond := 123456 |}.

Definition clk0 : clock :=
  {| now_metadata := t0; now_envelope := t0;
     now_input_sample := t0; mtime_input_sample := 10;
     now_output_sample := t0; mtime_output_sample := 11 |}.

(** The readings of a later call: its samples are the newer ones *)
Definition clk1 : clock :=
  {| now_metadata := t0; now_envelope := t0;
     now_input_sample := t0; mtime_input_sample := 20;
     now_output_sample := t0; mtime_output_sample := 21 |}.

(** A datetime validator that accepts every value *)
Definition any_datetime (v : pyval) : option datetime := Some t0.

Definition hello : pydict :=
  [("text", PyStr "Hello   World"); ("source", PyStr "t1")].

(** A component whose [process] is cancelled: the exception it raises
    derives from [BaseException] only. *)
Definition CancelledError : py_exception :=
  {| exc_class := "CancelledError"; exc_str := ""; exc_is_Exception := false |}.

Definition Cancelled : BaseComponent :=
  {| comp_class := "demo.Cancelled";
     name := "cancelled";
     version := "1.0.0";
     input_schema := TextPipeline.TextInput;
     output_schema := TextPipeline.TextInput;
     sample_data_dir := "/w/sample_data/cancelled";
     prepare_input_override := None;
     process := fun _ _ => Raise CancelledError |}.

(** A text cleaner whose class defines [prepare_input] in the usual way,
    with a [def prepare_input(self, input_dict)]: here it passes the
    fields [text] and [source] on. *)
Definition adapt : py_function :=
  {| fn_name := "prepare_input";
     fn_call := fun d =>
       Ok [("text", match dict_get "text" d with Some v => v | None => PyStr "" end);
           ("source", match dict_get "source" d with Some v => v | None => PyNone end)] |}.

Definition AdaptingCleaner : BaseComponent :=
  {| comp_class := "demo.AdaptingCleaner";
     name := "adapting_cleaner";
     version := "1.0.0";
     input_schema := TextPipeline.TextInput;
     output_schema := TextPipeline.CleanedText;
     sample_data_dir := "/w/sample_data/adapting_cleaner";
     prepare_input_override := Some adapt;
     process := TextPipeline.TextCleaner_process |}.

(** An envelope that declares the schema [CleanedText] *)
Definition cleaned_envelope : DataEnvelope :=
  {| envelope_version := "1.0"; data_type := COMPONENT_OUTPUT;
     env_component_name := Some "text_cleaner";
     env_component_version := Some "1.0.0";
     data_tags := []; schema_name := Some "CleanedText"; schema_version := None;
     env_execution_id := Some "local_run"; timestamp := t0; source_info := None;
     lineage := [];
     data := [("text", PyStr "hello world"); ("source", PyStr "t1");
              ("changes_made", PyList [])] |}.

(** Saving inputs under the caller's prefix ["exp"] *)
Definition prefixed : RunConfig :=
  {| cfg_debug_mode := false;
     save_samples := SampleSaveMode.INPUT;
     cfg_execution_id := None;
     cfg_source_info := None;
     skip_compatibility_check := false;
     timeout := None;
     max_retries := 0%Z;
     sample_name_prefix := Some "exp";
     compress_samples := false |}.

(** A payload as [WordStats.model_dump()] gives it for the text [the the]:
    two words, one distinct, of average length [3.0] (that is
    [3 * 2^51 * 2^-51]), and a list of pairs *)
Definition word_stats : pydict :=
  [("total_words", PyInt 2); ("unique_words", PyInt 1);
   ("average_word_length", PyFloat (S754_finite false 6755399441055744 (-51)));
   ("most_common_words", PyList [PyTuple [PyStr "the"; PyInt 2]]);
   ("source", PyNone)].

Definition metadata0 : ComponentMetadata :=
  {| component_name := "text_loader"; component_version := "1.0.0";
     executed_at := t0; execution_id := Some "local_run"; debug_mode := false;
     input_source_type := Some "dict"; is_replay := false; data_lineage := [] |}.

End Fixtures.

(* ===================================================================== *)
(** ** registry.py *)
(* ===================================================================== *)

Module Registry.

(** The value stored for a component name *)
Record info : Type := {
  reg_version : string;
  reg_input_schema : string;
  reg_output_schema : string
}.

(** [self._components]: a dict from names to [info], in insertion order *)
Definition ComponentRegistry : Type := list (string * info).

(** [ComponentRegistry()] *)
Definition empty : ComponentRegistry := [].

(** [register] *)
Definition register (name version input_schema output_schema : string)
    (reg : ComponentRegistry) : ComponentRegistry :=
  dict_set name
    {| reg_version := version;
       reg_input_schema := input_schema;
       reg_output_schema := output_schema |}
    reg.

(** [can_connect] *)
Definition can_connect (from_component to_component : string)
    (reg : ComponentRegistry) : bool * option string :=
  match dict_get from_component reg with
  | None => (false, Some ("Component '" +:+ from_component +:+ "' not registered"))
  | Some from_info =>
      match dict_get to_component reg with
      | None => (false, Some ("Component '" +:+ to_component +:+ "' not registered"))
      | Some to_info =>
          if String.eqb (reg_output_schema from_info) (reg_input_schema to_info)
          then (true, None)
          else (false,
                Some ("Schema mismatch: " +:+ from_component +:+ " outputs " +:+
                      reg_output_schema from_info +:+ ", " +:+ to_component +:+
                      " expects " +:+ reg_input_schema to_info))
      end
  end.

(** [list_components] *)
Definition list_components (reg : ComponentRegistry) : list string := map fst reg.

(** The registration a component's constructor performs: its name and
    version with the names of its two schemas *)
Definition register_component (c : BaseComponent) (reg : ComponentRegistry)
  : ComponentRegistry :=
  register (name c) (version c) (cls_name (input_schema c))
           (cls_name (output_schema c)) reg.

(** A registry as a sequence of [register] calls builds it *)
Fixpoint register_all (calls : list (string * info)) (reg : ComponentRegistry)
  : ComponentRegistry :=
  match calls with
  | [] => reg
  | (n, i) :: rest =>
      register_all rest
        (register n (reg_version i) (reg_input_schema i) (reg_output_schema i) reg)
  end.

End Registry.

(* ===================================================================== *)
(** ** base_component.py: listing the samples *)
(* ===================================================================== *)

(** The names [glob(pattern)] yields in [list_samples]: with a sample type,
    the pattern is the type, an underscore, anything, [.json]; without,
    anything followed by [.json]. *)
Definition listed_name (sample_type : option string) (n : string) : bool :=
  if truthy_str sample_type
  then matches_pattern (or_str sample_type "" +:+ "_") n
  else endswith ".json" n.

(** [list_samples]: the names of the matching files of the component's
    directory, sorted. *)
Definition list_samples (self : BaseComponent) (sample_type : option string)
    (fs : filesystem) : list string :=
  merge_sort String.le
    (omap (fun pf : string * file =>
             match name_in_dir (sample_data_dir self) (fst pf) with
             | Some n => if listed_name sample_type n then Some n else None
             | None => None
             end)
          (map_to_list fs)).

(* ===================================================================== *)
(** ** Auxiliary notions used in the statements *)
(* ===================================================================== *)

(** The path a candidate of the collision loop lands on is one fixed stem
    followed by a suffix that depends on the counter alone. *)
Definition sample_stem (dir base_filename : string) : string :=
  if is_absolute base_filename then base_filename else dir +:+ "/" +:+ base_filename.

Definition sample_suffix (counter : N) : string :=
  if N.eqb counter 0 then ".json" else "_" +:+ padded 3 counter +:+ ".json".

Definition sample_candidate (dir base_filename : string) (counter : N) : string :=
  path_join dir (sample_filename base_filename counter).

(** The file [_save_sample] writes *)
Definition sample_file (self : BaseComponent) (sample_type : DataType)
    (data : pydict) (metadata : ComponentMetadata) (mtime : N) : file :=
  {| content := Some (envelope_to_json (sample_envelope self sample_type data metadata));
     st_mtime := mtime |}.

(** The optional caller prefix and the kind, as they open a file name *)
Definition name_prefix (prefix : option string) : string :=
  if truthy_str prefix then or_str prefix "" +:+ "_" else "".

Definition kind_name (sample_type : DataType) : string :=
  if DataType_eqb sample_type COMPONENT_INPUT then "input" else "output".

(** The optional numeric suffix *)
Definition counter_suffix (counter : N) : string :=
  if N.eqb counter 0 then "" else "_" +:+ padded 3 counter.

(** A caller prefix that keeps the sample's file in the component's
    directory: none, the empty string, or a string without separator; it
    holds no null character either, which [open] refuses in a path *)
Definition plain_prefix (prefix : option string) : bool :=
  negb (contains_char "/" (or_str prefix "")) &&
  negb (contains_char Ascii.zero (or_str prefix "")).

(** A sequence of save operations, one after the other *)
Record save_request : Type := {
  req_component : BaseComponent;
  req_type : DataType;
  req_data : pydict;
  req_prefix : option string;
  req_now : datetime;
  req_mtime : N
}.

Fixpoint save_all (requests : list save_request) : M unit :=
  match requests with
  | [] => ret tt
  | r :: rest =>
      let* _ := _save_sample (req_component r) (req_type r) (req_data r)
                             (req_prefix r) (req_now r) (req_mtime r) in
      save_all rest
  end.

(** The fields of the metadata that no statement of [run] assigns *)
Definition same_identity (m m' : ComponentMetadata) : Prop :=
  component_name m' = component_name m /\
  component_version m' = component_version m /\
  executed_at m' = executed_at m /\
  execution_id m' = execution_id m /\
  debug_mode m' = debug_mode m.

(** The result of a successful execution *)
Definition success_result (self : BaseComponent) (output : model)
    (metadata : ComponentMetadata) (input_envelope : DataEnvelope) : ComponentResult :=
  {| res_data := Some output;
     res_metadata := metadata;
     res_error := None;
     res_warnings := [];
     res_envelope := Some (_create_output_envelope self output metadata input_envelope) |}.

(** The result the handler of [run] builds *)
Definition failure_result (self : BaseComponent) (metadata : ComponentMetadata)
    (cause : string) : ComponentResult :=
  {| res_data := None;
     res_metadata := metadata;
     res_error := Some ("Component " +:+ name self +:+ " failed: " +:+ cause);
     res_warnings := [];
     res_envelope := None |}.

(** The state [run] starts its [try] block in *)
Definition initial_state (self : BaseComponent) (config : option RunConfig)
    (clk : clock) (fs : filesystem) : run_state :=
  {| st_metadata :=
       initial_metadata self
         (match config with Some c => c | None => RunConfig_default end) clk;
     st_files := fs |}.

(** The exception [e] comes out of code the component's author supplies:
    the input adaptation, a schema's validation, or [process]. *)
Definition raised_by_hook (self : BaseComponent) (e : py_exception) : Prop :=
  (exists d, fn_call (prepare_input self) d = Raise e) \/
  (exists d, cls_validate (input_schema self) d = Raise e) \/
  (exists m kwargs, process self m kwargs = Raise e) \/
  (exists d, cls_validate (output_schema self) d = Raise e).

(** Exactly one of the output value and the error string is present. *)
Definition value_xor_error (r : ComponentResult) : Prop :=
  (is_Some (res_data r) /\ res_error r = None) \/
  (res_data r = None /\ is_Some (res_error r)).

(** The execution id the caller's configuration supplies, if any *)
Definition supplied_execution_id (config : option RunConfig) : option string :=
  match config with
  | Some c => cfg_execution_id c
  | None => None
  end.


(** The lineage an input source carries when it is a value (a mapping, a
    typed value, an envelope or a prior result); sources that name a file
    carry whatever the file holds. *)
Definition source_lineage (src : input_source) : option (list lineage_record) :=
  match src with
  | SrcDict _ | SrcModel _ => Some []
  | SrcEnvelope e => Some (lineage e)
  | SrcResult r =>
      match res_envelope r with
      | Some e => Some (lineage e)
      | None => Some (data_lineage (res_metadata r))
      end
  | _ => None
  end.

(** The accepted shapes of an input source: none, a path or a string, an
    envelope, a result, a component, a typed value, a mapping, and a pair of
    a component and a sample name, the name being a string or a path.  An
    object of an unrelated type and every other tuple are not accepted. *)
Definition accepted_shape (src : input_source) : bool :=
  match src with
  | SrcOther _ => false
  | SrcTuple [SrcComponent _; SrcStr _] | SrcTuple [SrcComponent _; SrcPath _] => true
  | SrcTuple _ => false
  | _ => true
  end.

(** What a payload dictionary comes back as after [json.dump] and
    [json.load] *)
Definition roundtrip_dict (d : pydict) : pydict :=
  dict_of_pairs (map (fun kv => (fst kv, of_json (to_json (snd kv)))) d).

(** An envelope as it is loaded from the document [envelope_to_json]
    wrote, [ts] being the datetime the validator read *)
Definition reloaded (ts : datetime) (e : DataEnvelope) : DataEnvelope :=
  {| envelope_version := envelope_version e;
     data_type := data_type e;
     env_component_name := env_component_name e;
     env_component_version := env_component_version e;
     data_tags := data_tags e;
     schema_name := schema_name e;
     schema_version := schema_version e;
     env_execution_id := env_execution_id e;
     timestamp := ts;
     source_info := roundtrip_dict <$> source_info e;
     lineage := map dict_of_pairs (lineage e);
     data := roundtrip_dict (data e) |}.

(** The same envelope with another timestamp *)
Definition with_timestamp (ts : datetime) (e : DataEnvelope) : DataEnvelope :=
  {| envelope_version := envelope_version e;
     data_type := data_type e;
     env_component_name := env_component_name e;
     env_component_version := env_component_version e;
     data_tags := data_tags e;
     schema_name := schema_name e;
     schema_version := schema_version e;
     env_execution_id := env_execution_id e;
     timestamp := ts;
     source_info := source_info e;
     lineage := lineage e;
     data := data e |}.

(** The keyword dictionary [json.load] returns for the document of an
    envelope *)
Definition envelope_kwargs (e : DataEnvelope) : pydict :=
  [ ("envelope_version", PyStr (envelope_version e));
    ("data_type", PyStr (DataType_value (data_type e)));
    ("component_name", of_json (json_opt_str (env_component_name e)));
    ("component_version", of_json (json_opt_str (env_component_version e)));
    ("data_tags", of_json (JArr (map JStr (data_tags e))));
    ("schema_name", of_json (json_opt_str (schema_name e)));
    ("schema_version", of_json (json_opt_str (schema_version e)));
    ("execution_id", of_json (json_opt_str (env_execution_id e)));
    ("timestamp", PyStr (datetime_str (timestamp e)));
    ("source_info", match source_info e with
                    | Some d => of_json (to_json (PyDict d))
                    | None => PyNone
                    end);
    ("lineage", of_json (JArr (map lineage_record_to_json (lineage e))));
    ("data", of_json (to_json (PyDict (data e)))) ].

(** The file holds an envelope that carries the schema name the component
    declares for samples of its kind. *)
Definition schema_tagged (self : BaseComponent) (f : file) : Prop :=
  exists e,
    content f = Some (envelope_to_json e) /\
    ((data_type e = COMPONENT_INPUT /\
      schema_name e = Some (cls_name (input_schema self))) \/
     (data_type e = COMPONENT_OUTPUT /\
      schema_name e = Some (cls_name (output_schema self)))).

(** From store [fs] to store [fs']: every file is kept as it is, and every
    new file is a schema-tagged sample of [self]. *)
Definition only_adds_samples (self : BaseComponent) (fs fs' : filesystem) : Prop :=
  fs ⊆ fs' /\
  forall p f, fs' !! p = Some f ->
              fs !! p = Some f \/ (fs !! p = None /\ schema_tagged self f).

(** From state [s] to state [s']: the store only gains samples, and the
    replay flag of the metadata is what it was. *)
Definition step_invariant (self : BaseComponent) (s s' : run_state) : Prop :=
  only_adds_samples self (st_files s) (st_files s') /\
  is_replay (st_metadata s') = is_replay (st_metadata s).

(** The computation [m] keeps that invariant, however it ends. *)
Definition adds_samples {A : Type} (self : BaseComponent) (m : M A) : Prop :=
  forall s o s', m s = (o, s') -> step_invariant self s s'.

(** The metadata after the replay branch of [resolve_input] *)
Definition replay_metadata (m : ComponentMetadata) : ComponentMetadata :=
  set_input_source_type "latest_saved_input" (set_is_replay true m).

(** The [w] decimal digits of [n], most significant first *)
Fixpoint fixed_digits (w : nat) (n : N) : string :=
  match w with
  | O => ""
  | S w' => fixed_digits w' (n / 10) +:+ String (pretty_N_char (n mod 10)) ""
  end.

(** The field ranges of a Python [datetime] *)
Definition valid_datetime (t : datetime) : bool :=
  N.leb 1 (year t) && N.leb (year t) 9999 &&
  N.leb 1 (month t) && N.leb (month t) 12 &&
  N.leb 1 (day t) && N.leb (day t) 31 &&
  N.ltb (hour t) 24 && N.ltb (minute t) 60 && N.ltb (second t) 60 &&
  N.ltb (microsecond t) 1000000.

(** The stamp of a file name: [YYYYMMDD_HHMMSS_fff], the last field being
    the milliseconds *)
Definition stamp_text (t : datetime) : string :=
  fixed_digits 4 (year t) +:+ fixed_digits 2 (month t) +:+ fixed_digits 2 (day t) +:+
  "_" +:+
  fixed_digits 2 (hour t) +:+ fixed_digits 2 (minute t) +:+ fixed_digits 2 (second t) +:+
  "_" +:+
  fixed_digits 3 (microsecond t / 1000).

(* ===================================================================== *)
(** ** Further notions used in the statements *)
(* ===================================================================== *)
(** The configuration a call of [run] works with *)
Definition effective_config (config : option RunConfig) : RunConfig :=
  match config with Some c => c | None => RunConfig_default end.

(** The two tests [config.save_samples & SampleSaveMode.INPUT] and
    [config.save_samples & SampleSaveMode.OUTPUT] *)
Definition saves_input (config : RunConfig) : bool :=
  SampleSaveMode.truthy (N.land (save_samples config) SampleSaveMode.INPUT).

Definition saves_output (config : RunConfig) : bool :=
  SampleSaveMode.truthy (N.land (save_samples config) SampleSaveMode.OUTPUT).

(** From store [fs] to store [fs']: when [wanted], one sample file was
    written under a candidate name that was free; otherwise nothing
    changed. *)
Definition sample_added (wanted : bool) (self : BaseComponent) (sample_type : DataType)
    (data : pydict) (prefix : option string) (now : datetime) (mtime : N)
    (metadata : ComponentMetadata) (fs fs' : filesystem) : Prop :=
  if wanted then
    exists counter,
      fs !! sample_candidate (sample_data_dir self)
              (sample_base_filename sample_type prefix now) counter = None /\
      fs' = <[sample_candidate (sample_data_dir self)
                (sample_base_filename sample_type prefix now) counter :=
              sample_file self sample_type data metadata mtime]> fs
  else fs' = fs.

(** The number a flag adds to a count *)
Definition flag_count (b : bool) : nat := if b then 1%nat else 0%nat.

(** The metadata of a call of [run] on a mapping, once the input is
    resolved and its lineage is recorded *)
Definition dict_run_metadata (self : BaseComponent) (config : option RunConfig)
    (clk : clock) : ComponentMetadata :=
  set_data_lineage []
    (set_input_source_type "dict" (initial_metadata self (effective_config config) clk)).

(** A loader whose [process] fails with an ordinary exception, as
    [raise RuntimeError("boom")] does *)
Module Failing.

Definition boom : py_exception :=
  {| exc_class := "RuntimeError"; exc_str := "boom"; exc_is_Exception := true |}.

Definition Exploding : BaseComponent :=
  {| comp_class := "demo.Exploding";
     name := "exploding";
     version := "1.0.0";
     input_schema := TextPipeline.TextInput;
     output_schema := TextPipeline.TextInput;
     sample_data_dir := "/w/sample_data/exploding";
     prepare_input_override := None;
     process := fun _ _ => Raise boom |}.

(** Saving inputs, with no prefix *)
Definition saving_inputs : RunConfig :=
  {| cfg_debug_mode := false;
     save_samples := SampleSaveMode.INPUT;
     cfg_execution_id := None;
     cfg_source_info := None;
     skip_compatibility_check := false;
     timeout := None;
     max_retries := 0%Z;
     sample_name_prefix := None;
     compress_samples := false |}.

End Failing.

(** The prefix of the pattern [_get_latest_envelope] globs for *)
Definition glob_prefix (data_type : DataType) : string :=
  if DataType_eqb data_type COMPONENT_INPUT then "input_" else "output_".

(** The envelope [_normalize_to_envelope] wraps a mapping in *)
Definition dict_envelope (d : pydict) (now : datetime) : DataEnvelope :=
  {| envelope_version := "1.0"; data_type := RAW_DATA;
     env_component_name := None; env_component_version := None;
     data_tags := []; schema_name := None;
     schema_version := None; env_execution_id := None;
     timestamp := now; source_info := None; lineage := [];
     data := d |}.

(** A file name that stands for an entry of a directory: not empty, not
    [.] or [..], and without a separator *)
Definition plain_name (n : string) : bool :=
  negb (String.eqb n "") && negb (String.eqb n ".") && negb (String.eqb n "..") &&
  negb (contains_char "/" n).

(** The schema name a value handed to [run] declares: the class of a typed
    value, the [schema_name] of an envelope, that of the envelope of a
    prior result; a mapping declares none. *)
Definition declared_schema (src : input_source) : option string :=
  match src with
  | SrcModel m => Some (model_class m)
  | SrcEnvelope e => schema_name e
  | SrcResult r =>
      match res_envelope r with
      | Some e => schema_name e
      | None => None
      end
  | _ => None
  end.

(** The metadata of a call of [run] on a value, once the input is resolved
    and its lineage is recorded *)
Definition value_run_metadata (self : BaseComponent) (config : option RunConfig)
    (clk : clock) (src : input_source) (l : list lineage_record)
  : ComponentMetadata :=
  set_data_lineage l
    (set_input_source_type (_get_source_type_name src)
       (initial_metadata self (effective_config config) clk)).

(** What [run] records as [input_source_type] once the input is resolved *)
Definition source_label (src : input_source) : string :=
  match src with
  | SrcNone => "latest_saved_input"
  | _ => _get_source_type_name src
  end.

Definition is_replay_source (src : input_source) : bool :=
  match src with
  | SrcNone => true
  | _ => false
  end.

(** Every character of [s] satisfies [p] *)
Fixpoint all_chars (p : ascii -> bool) (s : string) : bool :=
  match s with
  | EmptyString => true
  | String c s' => p c && all_chars p s'
  end.

(** [s.isascii()] *)
Definition isascii (s : string) : bool :=
  all_chars (fun c => N.ltb (N_of_ascii c) 128) s.

(** A lower-case letter, a digit or the space character *)
Definition plain_char (c : ascii) : bool :=
  let n := N_of_ascii c in
  (N.leb 97 n && N.leb n 122) || (N.leb 48 n && N.leb n 57) || N.eqb n 32.

(** The characters of [s] that are not white space, in order *)
Fixpoint nonspace (s : string) : string :=
  match s with
  | EmptyString => EmptyString
  | String c s' =>
      if TextPipeline.isspace c then nonspace s' else String c (nonspace s')
  end.

(** The fields of a [CleanedText] instance *)
Definition CleanedText_fields (text : string) (source : pyval) (changes : list string)
  : pydict :=
  [("text", PyStr text); ("source", source);
   ("changes_made", PyList (map PyStr changes))].

(** The text [TextCleaner.process] returns for [original] *)
Definition cleaned_text (original : string) : string :=
  TextPipeline.remove_special
    (TextPipeline.lower (TextPipeline.join " " (TextPipeline.split original))).

(** The changes [TextCleaner.process] reports for [original], by what
    happened to the text: the two white-space flags together when joining
    the words by single spaces changes the text, and the third flag when
    the returned text is shorter than the text that came in. *)
Definition reported_changes (original : string) : list string :=
  ((if String.eqb (TextPipeline.join " " (TextPipeline.split original)) original
    then []
    else ["removed_extra_whitespace"; "converted_to_lowercase"]) ++
   (if Nat.ltb (String.length (cleaned_text original)) (String.length original)
    then ["removed_special_characters"]
    else []))%list.

(** A sample type that [glob] reads literally: no wildcard, no character
    class, no separator *)
Definition glob_literal (s : string) : bool :=
  negb (contains_char "*" s) && negb (contains_char "?" s) &&
  negb (contains_char "[" s) && negb (contains_char "/" s).

Definition literal_sample_type (sample_type : option string) : bool :=
  match sample_type with
  | Some s => glob_literal s
  | None => true
  end.

(** Whether [run] gets past its compatibility check on [envelope] *)
Definition passes_check (self : BaseComponent) (config : RunConfig)
    (envelope : DataEnvelope) : bool :=
  skip_compatibility_check config || fst (can_process self envelope).

(* ===================================================================== *)
(** * Properties *)
(* ===================================================================== *)

Import Fixtures.

(** ** Strings and decimal numerals *)

#[local] Arguments String.append !s1 s2 : simpl nomatch.

Lemma str_app_assoc (a b c : string) : (a +:+ b) +:+ c = a +:+ (b +:+ c).
Proof. induction a as [|x a IH]; simpl; [reflexivity | now rewrite IH]. Qed.

Lemma str_app_length (a b : string) :
  String.length (a +:+ b) = (String.length a + String.length b)%nat.
Proof. induction a as [|x a IH]; simpl; [reflexivity | now rewrite IH]. Qed.

Lemma str_app_inv_tail (t a b : string) : a +:+ t = b +:+ t -> a = b.
Proof.
  revert b. induction a as [|x a IH]; intros [|y b] H; simpl in H.
  - reflexivity.
  - apply (f_equal String.length) in H. simpl in H.
    rewrite str_app_length in H. lia.
  - apply (f_equal String.length) in H. simpl in H.
    rewrite str_app_length in H. lia.
  - injection H as -> H. f_equal. now apply IH.
Qed.

Lemma digit_value_char (d : N) : d < 10 -> digit_value (pretty_N_char d) = d.
Proof.
  intros H.
  assert (d = 0 \/ d = 1 \/ d = 2 \/ d = 3 \/ d = 4 \/ d = 5 \/ d = 6 \/ d = 7 \/
          d = 8 \/ d = 9) as Hd by lia.
  repeat (destruct Hd as [-> | Hd]; [reflexivity|]). now subst.
Qed.

Lemma decimal_value_go (x : N) :
  forall s, decimal_value_from 0 (pretty_N_go x s) = decimal_value_from x s.
Proof.
  induction (N.lt_wf_0 x) as [x _ IH]. intros s.
  destruct (N.eq_dec x 0) as [-> | Hx].
  - now rewrite pretty_N_go_0.
  - rewrite pretty_N_go_step by lia.
    rewrite IH by (apply N.div_lt; lia).
    simpl. rewrite digit_value_char by (apply N.mod_lt; lia).
    f_equal. rewrite N.mul_comm.
    symmetry. apply N.div_mod. lia.
Qed.

Lemma decimal_value_decimal (n : N) : decimal_value (decimal n) = n.
Proof.
  unfold decimal_value, decimal, pretty, pretty_N.
  destruct (decide (n = 0)) as [-> | Hn]; [reflexivity|].
  now rewrite decimal_value_go.
Qed.

Lemma decimal_value_zeros (k : nat) (s : string) :
  decimal_value_from 0 (replicate_char k "0"%char +:+ s) = decimal_value_from 0 s.
Proof. induction k as [|k IH]; simpl; [reflexivity | exact IH]. Qed.

Lemma decimal_value_padded (w : nat) (n : N) : decimal_value (padded w n) = n.
Proof.
  unfold padded, zfill, decimal_value. rewrite decimal_value_zeros.
  apply decimal_value_decimal.
Qed.

Lemma padded_inj (w : nat) (m n : N) : padded w m = padded w n -> m = n.
Proof.
  intros H. apply (f_equal decimal_value) in H.
  now rewrite !decimal_value_padded in H.
Qed.

(** ** Fixed-width fields *)

Lemma pretty_N_go_app (x : N) :
  forall s, pretty_N_go x s = pretty_N_go x "" +:+ s.
Proof.
  induction (N.lt_wf_0 x) as [x _ IH]. intros s.
  destruct (N.eq_dec x 0) as [-> | Hx].
  - now rewrite !pretty_N_go_0.
  - rewrite (pretty_N_go_step x s), (pretty_N_go_step x "") by lia.
    rewrite (IH (x / 10)) by (apply N.div_lt; lia).
    rewrite (IH (x / 10) ltac:(apply N.div_lt; lia) (String _ "")).
    now rewrite str_app_assoc.
Qed.

Lemma replicate_char_snoc (k : nat) (c : ascii) (s : string) :
  replicate_char k c +:+ String c s = String c (replicate_char k c +:+ s).
Proof. induction k as [|k IH]; simpl; [reflexivity | now rewrite IH]. Qed.

Lemma fixed_digits_length (w : nat) (n : N) : String.length (fixed_digits w n) = w.
Proof.
  revert n. induction w as [|w IH]; intros n; simpl; [reflexivity|].
  rewrite str_app_length, IH. simpl. lia.
Qed.

(** The digits [pretty_N_go] writes, padded to [w] characters, are the
    [w] fixed digits. *)
Lemma zfill_pretty_N_go (w : nat) :
  forall (n : N) (s : string),
    n < 10 ^ N.of_nat w ->
    (String.length (pretty_N_go n "") <= w)%nat /\
    replicate_char (w - String.length (pretty_N_go n "")) "0" +:+ pretty_N_go n s
    = fixed_digits w n +:+ s.
Proof.
  induction w as [|w IH]; intros n s Hn.
  - assert (n = 0) as -> by (simpl in Hn; lia).
    rewrite !pretty_N_go_0. simpl. split; [lia | reflexivity].
  - assert (n / 10 < 10 ^ N.of_nat w) as Hdiv.
    { apply N.Div0.div_lt_upper_bound.
      rewrite Nat2N.inj_succ, N.pow_succ_r' in Hn. lia. }
    destruct (N.eq_dec n 0) as [-> | Hpos].
    + rewrite !pretty_N_go_0. cbn [String.length]. split; [lia|].
      destruct (IH 0 (String "0" s) ltac:(lia)) as [_ E].
      rewrite !pretty_N_go_0 in E. cbn [String.length] in E.
      rewrite Nat.sub_0_r in *. cbn [fixed_digits].
      change (0 / 10) with 0. change (0 mod 10) with 0.
      rewrite str_app_assoc. cbn [String.append].
      change (pretty_N_char 0) with "0"%char.
      rewrite <- E, replicate_char_snoc. reflexivity.
    + destruct (IH (n / 10) (String (pretty_N_char (n mod 10)) s) Hdiv) as [Hlen E].
      rewrite (pretty_N_go_step n "") by lia.
      rewrite (pretty_N_go_app (n / 10) (String _ "")).
      rewrite str_app_length. cbn [String.length]. split; [lia|].
      rewrite (pretty_N_go_step n s) by lia.
      replace (S w - (String.length (pretty_N_go (n / 10) "") + 1))%nat
        with (w - String.length (pretty_N_go (n / 10) ""))%nat by lia.
      rewrite E. cbn [fixed_digits]. now rewrite str_app_assoc.
Qed.

Lemma padded_fixed_digits (w : nat) (n : N) :
  (0 < w)%nat -> n < 10 ^ N.of_nat w -> padded w n = fixed_digits w n.
Proof.
  intros Hw Hn. unfold padded, zfill, decimal, pretty, pretty_N.
  destruct (decide (n = 0)) as [-> | Hpos].
  - destruct w as [|w]; [lia|].
    assert (0 < 10 ^ N.of_nat w) as Hw0 by (apply N.neq_0_lt_0, N.pow_nonzero; lia).
    destruct (zfill_pretty_N_go w 0 "0" Hw0) as [_ E].
    rewrite !pretty_N_go_0 in E. cbn [String.length] in *.
    rewrite Nat.sub_0_r in E. replace (S w - 1)%nat with w by lia.
    rewrite E. reflexivity.
  - destruct (zfill_pretty_N_go w n "" Hn) as [_ E].
    rewrite E. clear. induction (fixed_digits w n) as [|c t IH]; simpl;
      [reflexivity | now rewrite IH].
Qed.

Lemma substring_prefix (a b : string) :
  String.substring 0 (String.length a) (a +:+ b) = a.
Proof.
  induction a as [|c a IH]; simpl.
  - now destruct b.
  - now rewrite IH.
Qed.

Lemma drop_last_app (k : nat) (a c : string) :
  String.length c = k -> drop_last k (a +:+ c) = a.
Proof.
  intros <-. unfold drop_last. rewrite str_app_length.
  replace (String.length a + String.length c - String.length c)%nat
    with (String.length a) by lia.
  apply substring_prefix.
Qed.

Ltac Zify.zify_post_hook ::= Z.to_euclidean_division_equations.

Lemma fixed_digits_split (n : N) :
  fixed_digits 6 n = fixed_digits 3 (n / 1000) +:+ fixed_digits 3 (n mod 1000).
Proof.
  cbn [fixed_digits String.append].
  replace (n / 10 / 10 / 10) with (n / 1000) by lia.
  replace (n mod 1000 / 10 / 10 mod 10) with (n / 10 / 10 mod 10) by lia.
  replace (n mod 1000 / 10 mod 10) with (n / 10 mod 10) by lia.
  replace (n mod 1000 mod 10) with (n mod 10) by lia.
  reflexivity.
Qed.

(** The stamp of a sample's file name is [YYYYMMDD_HHMMSS_fff]. *)
Lemma stamp_form (t : datetime) :
  valid_datetime t = true ->
  drop_last 3 (strftime_stamp t) = stamp_text t /\
  String.length (stamp_text t) = 19%nat.
Proof.
  unfold valid_datetime. intros H.
  repeat (apply andb_true_iff in H as [H ?]).
  repeat match goal with
         | H : N.leb _ _ = true |- _ => apply N.leb_le in H
         | H : N.ltb _ _ = true |- _ => apply N.ltb_lt in H
         end.
  split.
  - unfold strftime_stamp, stamp_text.
    rewrite !padded_fixed_digits by (simpl; lia).
    rewrite fixed_digits_split.
    rewrite <- !str_app_assoc. apply drop_last_app. apply fixed_digits_length.
  - unfold stamp_text. rewrite !str_app_length, !fixed_digits_length. reflexivity.
Qed.

Ltac Zify.zify_post_hook ::= idtac.

(** ** The collision loop *)

Lemma is_absolute_app (base rest : string) :
  is_absolute rest = false -> is_absolute (base +:+ rest) = is_absolute base.
Proof. destruct base; simpl; [intros ->; reflexivity | reflexivity]. Qed.

Lemma sample_filename_suffix (base : string) (counter : N) :
  sample_filename base counter = base +:+ sample_suffix counter.
Proof. unfold sample_filename, sample_suffix. now destruct (N.eqb counter 0). Qed.

Lemma sample_path_stem (dir base : string) (counter : N) :
  path_join dir (sample_filename base counter) =
  sample_stem dir base +:+ sample_suffix counter.
Proof.
  rewrite sample_filename_suffix. unfold path_join, sample_stem.
  rewrite is_absolute_app.
  - destruct (is_absolute base); [reflexivity|].
    cbv iota. now rewrite !str_app_assoc.
  - unfold sample_suffix. now destruct (N.eqb counter 0).
Qed.

Lemma sample_suffix_inj (j k : N) : sample_suffix j = sample_suffix k -> j = k.
Proof.
  unfold sample_suffix.
  destruct (N.eqb_spec j 0) as [-> | Hj], (N.eqb_spec k 0) as [-> | Hk];
    try reflexivity; try discriminate.
  intros H. simpl in H. injection H as H.
  apply str_app_inv_tail in H. now apply padded_inj in H.
Qed.

Lemma sample_path_inj (dir base : string) (j k : N) :
  path_join dir (sample_filename base j) = path_join dir (sample_filename base k) ->
  j = k.
Proof.
  rewrite !sample_path_stem. intros H.
  apply String.app_inj in H. now apply sample_suffix_inj.
Qed.

Section CollisionLoop.

Variables (dir base : string) (fs : filesystem).

Let candidate : N -> string := sample_candidate dir base.

Lemma find_free_path_some (fuel : nat) (counter : N) (p : string) :
  find_free_path fuel dir base counter fs = Some p ->
  fs !! p = None /\
  exists k, counter <= k /\ p = candidate k /\
            forall j, counter <= j < k -> is_Some (fs !! candidate j).
Proof.
  revert counter. induction fuel as [|fuel IH]; intros counter; simpl; [discriminate|].
  destruct (fs !! path_join dir (sample_filename base counter)) as [f|] eqn:E.
  - intros H. destruct (IH _ H) as (Hfree & k & Hk & -> & Hbelow).
    split; [exact Hfree|]. exists k. split; [lia|]. split; [reflexivity|].
    intros j Hj. destruct (N.eq_dec j counter) as [-> | Hne].
    + unfold candidate, sample_candidate. rewrite E. eauto.
    + apply Hbelow. lia.
  - intros [= <-]. split; [exact E|]. exists counter.
    split; [lia|]. split; [reflexivity|]. intros j Hj. lia.
Qed.

Lemma find_free_path_none (fuel : nat) (counter : N) :
  find_free_path fuel dir base counter fs = None ->
  forall j, counter <= j < counter + N.of_nat fuel -> is_Some (fs !! candidate j).
Proof.
  revert counter. induction fuel as [|fuel IH]; intros counter; simpl.
  - intros _ j Hj. lia.
  - destruct (fs !! path_join dir (sample_filename base counter)) as [f|] eqn:E;
      [|discriminate].
    intros H j Hj. destruct (N.eq_dec j counter) as [-> | Hne].
    + unfold candidate, sample_candidate. rewrite E. eauto.
    + apply (IH _ H). lia.
Qed.

(** The loop always ends: the candidates are pairwise distinct, so the
    files of the store cannot cover one more of them than there are
    files. *)
Lemma find_free_path_total :
  exists p, find_free_path (S (size fs)) dir base 0 fs = Some p.
Proof.
  destruct (find_free_path (S (size fs)) dir base 0 fs) as [p|] eqn:E; [eauto|].
  exfalso.
  pose proof (find_free_path_none _ _ E) as Hall.
  set (l := (fun i => candidate (N.of_nat i)) <$> seq 0 (S (size fs))).
  assert (NoDup l) as Hnd.
  { apply NoDup_fmap_2; [|apply NoDup_seq].
    intros i j Hij. unfold candidate, sample_candidate in Hij.
    apply sample_path_inj in Hij. lia. }
  assert (list_to_set l ⊆ (dom fs : gset string)) as Hsub.
  { intros p Hp. apply elem_of_list_to_set in Hp.
    apply list_elem_of_fmap in Hp as (i & -> & Hi).
    apply elem_of_seq in Hi. apply elem_of_dom. apply Hall. lia. }
  apply subseteq_size in Hsub.
  rewrite size_list_to_set in Hsub by exact Hnd.
  rewrite size_dom in Hsub.
  subst l. rewrite length_fmap, length_seq in Hsub. lia.
Qed.

End CollisionLoop.

(** ** The monad *)

Lemma bind_ok {A B : Type} (m : M A) (k : A -> M B) (s s' : run_state) (b : B) :
  bind m k s = (Ok b, s') <->
  exists a s1, m s = (Ok a, s1) /\ k a s1 = (Ok b, s').
Proof.
  unfold bind. split.
  - destruct (m s) as [[a|e] s1]; [eauto | discriminate].
  - intros (a & s1 & -> & H). exact H.
Qed.

Lemma bind_raise {A B : Type} (m : M A) (k : A -> M B) (s s' : run_state)
    (e : py_exception) :
  bind m k s = (Raise e, s') <->
  m s = (Raise e, s') \/ exists a s1, m s = (Ok a, s1) /\ k a s1 = (Raise e, s').
Proof.
  unfold bind. split.
  - destruct (m s) as [[a|e1] s1]; [eauto | intros [= -> ->]; eauto].
  - intros [-> | (a & s1 & -> & H)]; [reflexivity | exact H].
Qed.

Lemma bind_eq {A B : Type} (m : M A) (k : A -> M B) (s s1 : run_state) (a : A) :
  m s = (Ok a, s1) -> bind m k s = k a s1.
Proof. unfold bind. now intros ->. Qed.

(** ** Saving a sample *)

Lemma sample_base_filename_form (sample_type : DataType) (prefix : option string)
    (now : datetime) :
  sample_base_filename sample_type prefix now =
  name_prefix prefix +:+ kind_name sample_type +:+ "_" +:+
  drop_last 3 (strftime_stamp now).
Proof.
  unfold sample_base_filename, name_prefix, kind_name.
  destruct (truthy_str prefix); [|reflexivity].
  now rewrite str_app_assoc.
Qed.

Lemma sample_filename_form (base : string) (counter : N) :
  sample_filename base counter = base +:+ counter_suffix counter +:+ ".json".
Proof.
  unfold sample_filename, counter_suffix.
  destruct (N.eqb counter 0); [reflexivity|].
  now rewrite !str_app_assoc.
Qed.

(** What one save does: it ends, raises nothing, and adds exactly one file
    under the first free candidate name. *)
Lemma _save_sample_spec (self : BaseComponent) (sample_type : DataType)
    (data : pydict) (prefix : option string) (now : datetime) (mtime : N)
    (s : run_state) :
  exists counter,
    let filepath :=
      sample_candidate (sample_data_dir self)
                       (sample_base_filename sample_type prefix now) counter in
    st_files s !! filepath = None /\
    (forall j, j < counter ->
       is_Some (st_files s !! sample_candidate (sample_data_dir self)
                  (sample_base_filename sample_type prefix now) j)) /\
    _save_sample self sample_type data prefix now mtime s =
      (Ok tt,
       {| st_metadata := st_metadata s;
          st_files := <[filepath :=
                         sample_file self sample_type data (st_metadata s) mtime]>
                        (st_files s) |}).
Proof.
  destruct (find_free_path_total (sample_data_dir self)
              (sample_base_filename sample_type prefix now) (st_files s))
    as [p Hp].
  destruct (find_free_path_some _ _ _ _ _ _ Hp) as (Hfree & k & _ & -> & Hbelow).
  exists k. cbv zeta. split; [exact Hfree|]. split.
  - intros j Hj. apply Hbelow. lia.
  - unfold _save_sample, bind, get_metadata, get_files, put_files.
    cbv beta iota zeta. rewrite Hp. reflexivity.
Qed.

Lemma sample_candidate_form (dir : string) (sample_type : DataType)
    (prefix : option string) (now : datetime) (counter : N) :
  sample_candidate dir (sample_base_filename sample_type prefix now) counter =
  path_join dir
    (name_prefix prefix +:+ kind_name sample_type +:+ "_" +:+
     drop_last 3 (strftime_stamp now) +:+ counter_suffix counter +:+ ".json").
Proof.
  unfold sample_candidate.
  rewrite sample_filename_form, sample_base_filename_form.
  now rewrite !str_app_assoc.
Qed.

Lemma save_all_spec (requests : list save_request) (s : run_state) :
  exists s', save_all requests s = (Ok tt, s') /\
             st_files s ⊆ st_files s' /\
             size (st_files s') = (size (st_files s) + length requests)%nat.
Proof.
  revert s. induction requests as [|r rest IH]; intros s.
  - exists s. simpl. split; [reflexivity|]. split; [reflexivity | lia].
  - destruct (_save_sample_spec (req_component r) (req_type r) (req_data r)
                (req_prefix r) (req_now r) (req_mtime r) s)
      as (k & Hfree & _ & Hsave).
    cbv zeta in Hfree, Hsave.
    destruct (IH {| st_metadata := st_metadata s;
                    st_files := <[sample_candidate (sample_data_dir (req_component r))
                                    (sample_base_filename (req_type r) (req_prefix r)
                                       (req_now r)) k :=
                                  sample_file (req_component r) (req_type r) (req_data r)
                                    (st_metadata s) (req_mtime r)]> (st_files s) |})
      as (s' & Hrest & Hsub & Hsize).
    exists s'. split; [|split].
    + cbn [save_all]. rewrite (bind_eq _ _ _ _ _ Hsave). exact Hrest.
    + etrans; [|exact Hsub]. cbn [st_files]. now apply insert_subseteq.
    + rewrite Hsize. cbn [st_files length].
      rewrite map_size_insert_None by exact Hfree. lia.
Qed.

(** C7.  A save never overwrites a file.  The prefixes are those without
    separator, for which the file lies in the component's directory and the
    write completes.  For every sequence of save operations run one after
    the other, all of them complete, every file that existed before is
    still there with the same contents, and the store has grown by one file
    per save.  A single save lands in the file
    [[<prefix>_]<input|output>_<stamp>[_<NNN>].json] of the component's
    directory, where the stamp is the clock reading formatted by
    [strftime] without its last three digits and [NNN] is the zero-padded
    counter.  The counter is the first one whose file does not exist: the
    name carries no suffix when the base name is free, and otherwise the
    files of all smaller counters, the base name first, are there.  A
    second save of the same kind under the same clock reading gets, by the
    same rule, another counter and another file, and the first file keeps
    its contents.  For a clock reading in the range of [datetime], the
    stamp is the 19 characters [YYYYMMDD_HHMMSS_fff], with the milliseconds
    last. *)
Theorem save_sample_never_overwrites :
  forall (requests : list save_request) (s : run_state),
    (Forall (fun r => plain_prefix (req_prefix r) = true) requests ->
     exists s', save_all requests s = (Ok tt, s') /\
                st_files s ⊆ st_files s' /\
                size (st_files s') = (size (st_files s) + length requests)%nat) /\
    (forall self sample_type data prefix now mtime,
      plain_prefix prefix = true ->
      let filepath_of := fun counter : N =>
        path_join (sample_data_dir self)
          (name_prefix prefix +:+ kind_name sample_type +:+ "_" +:+
           drop_last 3 (strftime_stamp now) +:+ counter_suffix counter +:+ ".json") in
      exists counter s1,
        _save_sample self sample_type data prefix now mtime s = (Ok tt, s1) /\
        st_files s !! filepath_of counter = None /\
        (forall j, j < counter -> is_Some (st_files s !! filepath_of j)) /\
        counter_suffix 0 = "" /\
        st_files s1 =
          <[filepath_of counter := sample_file self sample_type data (st_metadata s) mtime]>
            (st_files s) /\
        forall data2 mtime2,
          exists counter2 s2,
            _save_sample self sample_type data2 prefix now mtime2 s1 = (Ok tt, s2) /\
            counter2 <> counter /\
            filepath_of counter2 <> filepath_of counter /\
            st_files s1 !! filepath_of counter2 = None /\
            (forall j, j < counter2 -> is_Some (st_files s1 !! filepath_of j)) /\
            st_files s2 !! filepath_of counter =
              Some (sample_file self sample_type data (st_metadata s) mtime) /\
            st_files s2 !! filepath_of counter2 =
              Some (sample_file self sample_type data2 (st_metadata s1) mtime2)) /\
    (forall now,
       valid_datetime now = true ->
       drop_last 3 (strftime_stamp now) = stamp_text now /\
       String.length (stamp_text now) = 19%nat).
Proof.
  intros requests s. split; [intros _; apply save_all_spec|].
  split; [|exact stamp_form].
  intros self sample_type data prefix now mtime _ filepath_of.
  assert (forall j, sample_candidate (sample_data_dir self)
                      (sample_base_filename sample_type prefix now) j = filepath_of j)
    as Hform.
  { intros j. apply sample_candidate_form. }
  destruct (_save_sample_spec self sample_type data prefix now mtime s)
    as (k & Hfree & Hfirst & Hsave).
  cbv zeta in Hfree, Hsave. rewrite Hform in Hfree, Hsave.
  match type of Hsave with _ = (_, ?st) => set (s1 := st) in * end.
  exists k, s1. split; [exact Hsave|]. split; [exact Hfree|].
  split; [intros j Hj; rewrite <- Hform; now apply Hfirst|].
  split; [reflexivity|]. split; [reflexivity|].
  intros data2 mtime2.
  destruct (_save_sample_spec self sample_type data2 prefix now mtime2 s1)
    as (k2 & Hfree2 & Hfirst2 & Hsave2).
  cbv zeta in Hfree2, Hsave2. rewrite Hform in Hfree2, Hsave2.
  eexists k2, _. split; [exact Hsave2|].
  assert (k2 <> k) as Hk.
  { intros ->. subst s1. cbn [st_files] in Hfree2.
    rewrite lookup_insert_eq in Hfree2. discriminate. }
  assert (filepath_of k2 <> filepath_of k) as Hp.
  { rewrite <- !Hform. unfold sample_candidate.
    intros H. apply sample_path_inj in H. contradiction. }
  split; [exact Hk|]. split; [exact Hp|]. split; [exact Hfree2|].
  split; [intros j Hj; rewrite <- Hform; now apply Hfirst2|].
  cbn [st_files]. split.
  - rewrite lookup_insert_ne by exact Hp. subst s1. cbn [st_files].
    apply lookup_insert_eq.
  - apply lookup_insert_eq.
Qed.

Lemma save_sample_never_overwrites_witness :
  exists counter s1,
    _save_sample (TextPipeline.TextLoader "/w") COMPONENT_INPUT hello (Some "exp") t0 5
      {| st_metadata := metadata0; st_files := ∅ |} = (Ok tt, s1) /\
    (∅ : filesystem) !!
      path_join "/w/sample_data/text_loader"
        ("exp_input_20240309_140507_123" +:+ counter_suffix counter +:+ ".json") = None /\
    forall j, j < counter ->
      is_Some ((∅ : filesystem) !!
                 path_join "/w/sample_data/text_loader"
                   ("exp_input_20240309_140507_123" +:+ counter_suffix j +:+ ".json")).
Proof.
  destruct (proj1 (proj2 (save_sample_never_overwrites []
                            {| st_metadata := metadata0; st_files := ∅ |}))
              (TextPipeline.TextLoader "/w") COMPONENT_INPUT hello (Some "exp") t0 5
              eq_refl)
    as (counter & s1 & Hsave & Hfree & Hfirst & _).
  exists counter, s1. split; [exact Hsave|]. split; [exact Hfree | exact Hfirst].
Defined.

(** ** How [run] uses its state *)

Section RunFacts.

Variable pydantic_datetime : pyval -> option datetime.

(** Loading reads the store and changes nothing. *)
Lemma load_sample_state (self : BaseComponent) (filename : string) (now : datetime)
    (s s' : run_state) (o : outcome DataEnvelope) :
  load_sample pydantic_datetime self filename now s = (o, s') -> s' = s.
Proof.
  unfold load_sample, bind, get_files, raise, lift. cbv beta iota zeta.
  destruct (st_files s !! _) as [f|]; [|now intros [= _ <-]].
  destruct (content f) as [doc|]; [|now intros [= _ <-]].
  destruct (of_json doc); now intros [= _ <-].
Qed.

Lemma _get_latest_envelope_state (self : BaseComponent) (data_type : DataType)
    (now : datetime) (s s' : run_state) (o : outcome (option DataEnvelope)) :
  _get_latest_envelope pydantic_datetime self data_type now s = (o, s') -> s' = s.
Proof.
  unfold _get_latest_envelope, bind, get_files, ret. cbv beta iota zeta.
  destruct (glob _ _ _) as [|first rest]; [now intros [= _ <-]|].
  destruct (load_sample _ _ _ _ s) as [[e|e] s1] eqn:E;
    apply load_sample_state in E; subst s1; now intros [= _ <-].
Qed.

Lemma _normalize_to_envelope_state (self : BaseComponent) (src : input_source)
    (now : datetime) (s s' : run_state) (o : outcome DataEnvelope) :
  _normalize_to_envelope pydantic_datetime self src now s = (o, s') -> s' = s.
Proof.
  destruct src as [|f|f|e|r|c|m|d|items|t]; cbn [_normalize_to_envelope];
    try (now intros [= _ <-]); try (now apply load_sample_state).
  - destruct (res_envelope r); now intros [= _ <-].
  - unfold bind.
    destruct (_get_latest_envelope _ _ _ _ s) as [[[e|]|e] s1] eqn:E;
      apply _get_latest_envelope_state in E; subst s1; now intros [= _ <-].
  - destruct items as [|x [|y [|z rest]]]; try (now intros [= _ <-]).
    destruct x; try (now intros [= _ <-]).
    destruct (as_filename y); [now apply load_sample_state | now intros [= _ <-]].
Qed.

Lemma same_identity_refl (m : ComponentMetadata) : same_identity m m.
Proof. repeat split. Qed.

Lemma resolve_input_state (self : BaseComponent) (src : input_source) (clk : clock)
    (s s' : run_state) (o : outcome DataEnvelope) :
  resolve_input pydantic_datetime self src clk s = (o, s') ->
  st_files s' = st_files s /\ same_identity (st_metadata s) (st_metadata s').
Proof.
  assert (forall t : string,
    (let* envelope := _normalize_to_envelope pydantic_datetime self src
                        (now_envelope clk) in
     let* _ := update_metadata (set_input_source_type t) in
     ret envelope) s = (o, s') ->
    st_files s' = st_files s /\ same_identity (st_metadata s) (st_metadata s'))
    as Hnorm.
  { intros t. unfold bind.
    destruct (_normalize_to_envelope _ _ _ _ s) as [[e|e] s1] eqn:E;
      apply _normalize_to_envelope_state in E; subst s1.
    - intros [= _ <-]. split; [reflexivity | repeat split].
    - intros [= _ <-]. split; [reflexivity | apply same_identity_refl]. }
  destruct src; try exact (Hnorm _).
  cbn [resolve_input]. unfold bind.
  destruct (_get_latest_envelope _ _ _ _ s) as [[[e|]|e] s1] eqn:E;
    apply _get_latest_envelope_state in E; subst s1; intros [= _ <-];
    (split; [reflexivity | repeat split]).
Qed.

(** A save leaves the metadata alone and only adds a file. *)
Lemma maybe_save_state (b : bool) (self : BaseComponent) (sample_type : DataType)
    (data : pydict) (prefix : option string) (now : datetime) (mtime : N)
    (s : run_state) :
  exists s',
    (if b then _save_sample self sample_type data prefix now mtime else ret tt) s
      = (Ok tt, s') /\
    st_metadata s' = st_metadata s /\
    st_files s ⊆ st_files s'.
Proof.
  destruct b.
  - destruct (_save_sample_spec self sample_type data prefix now mtime s)
      as (k & Hfree & _ & ->).
    eexists. split; [reflexivity|]. split; [reflexivity|].
    cbn [st_files]. now apply insert_subseteq.
  - exists s. repeat split; reflexivity.
Qed.

End RunFacts.

Section ExecuteFacts.

Variable pydantic_datetime : pyval -> option datetime.

(** A successful execution returns the output, no error, and the output
    envelope built from the input envelope. *)
Lemma execute_ok (self : BaseComponent) (config : RunConfig) (kwargs : pydict)
    (clk : clock) (envelope : DataEnvelope) (s s' : run_state)
    (r : ComponentResult) :
  execute self config kwargs clk envelope s = (Ok r, s') ->
  exists output,
    r = success_result self output
          (set_data_lineage (lineage envelope) (st_metadata s)) envelope /\
    st_metadata s' = set_data_lineage (lineage envelope) (st_metadata s) /\
    st_files s ⊆ st_files s'.
Proof.
  unfold execute. intros H.
  apply bind_ok in H as (? & s1 & Hset & H). injection Hset as <-.
  apply bind_ok in H as (? & s2 & Hcheck & H).
  assert (s2 = s1) as ->.
  { destruct (negb (skip_compatibility_check config)).
    - destruct (can_process self envelope) as [ok reason].
      destruct (negb ok); [discriminate | now injection Hcheck as <-].
    - now injection Hcheck as <-. }
  clear Hcheck.
  apply bind_ok in H as (transformed & s3 & Hprep & H).
  unfold lift in Hprep. injection Hprep as Hprep <-.
  apply bind_ok in H as (validated & s4 & Hval & H).
  unfold lift in Hval. injection Hval as Hval <-.
  apply bind_ok in H as (? & s5 & Hsave1 & H).
  apply bind_ok in H as (raw & s6 & Hproc & H).
  unfold lift in Hproc. injection Hproc as Hproc <-.
  apply bind_ok in H as (output & s7 & Hout & H).
  assert (s7 = s5) as ->.
  { unfold validate_output in Hout.
    destruct raw as [m|t]; [|discriminate].
    destruct (isinstance_model m (output_schema self)).
    - now injection Hout as _ <-.
    - unfold lift in Hout. now injection Hout as _ <-. }
  apply bind_ok in H as (metadata & s8 & Hget & H). injection Hget as <- <-.
  apply bind_ok in H as (? & s9 & Hsave2 & H).
  injection H as <- <-.
  match type of Hsave1 with
  | (if ?b then _ else _) ?st = _ =>
      destruct (maybe_save_state b self COMPONENT_INPUT transformed
                  (sample_name_prefix config) (now_input_sample clk)
                  (mtime_input_sample clk) st) as (s5' & E1 & Hmd1 & Hfs1)
  end.
  rewrite E1 in Hsave1. injection Hsave1 as _ <-.
  match type of Hsave2 with
  | (if ?b then _ else _) ?st = _ =>
      destruct (maybe_save_state b self COMPONENT_OUTPUT (model_dump output)
                  (sample_name_prefix config) (now_output_sample clk)
                  (mtime_output_sample clk) st) as (s9' & E2 & Hmd2 & Hfs2)
  end.
  rewrite E2 in Hsave2. injection Hsave2 as _ <-.
  subst s1. cbn [st_metadata st_files] in *.
  exists output. rewrite Hmd1.
  split; [reflexivity|]. split; [congruence|].
  etrans; eassumption.
Qed.

(** The engine's own failures are all of class [Exception]. *)
Lemma DataEnvelope_init_raise (now : datetime) (kwargs : pydict) (e : py_exception) :
  DataEnvelope_init pydantic_datetime now kwargs = Raise e ->
  exc_is_Exception e = true.
Proof.
  unfold DataEnvelope_init.
  repeat match goal with
         | |- context [match ?x with Some _ => _ | None => _ end] =>
             destruct x
         end; try discriminate; now intros [= <-].
Qed.

Lemma load_sample_raise (self : BaseComponent) (filename : string) (now : datetime)
    (s s' : run_state) (e : py_exception) :
  load_sample pydantic_datetime self filename now s = (Raise e, s') ->
  exc_is_Exception e = true.
Proof.
  unfold load_sample, bind, get_files, raise, lift. cbv beta iota zeta.
  destruct (st_files s !! _) as [f|]; [|now intros [= <- _]].
  destruct (content f) as [doc|]; [|now intros [= <- _]].
  destruct (of_json doc); try (now intros [= <- _]).
  intros [= H _]. now apply DataEnvelope_init_raise in H.
Qed.

Lemma _get_latest_envelope_raise (self : BaseComponent) (data_type : DataType)
    (now : datetime) (s s' : run_state) (e : py_exception) :
  _get_latest_envelope pydantic_datetime self data_type now s = (Raise e, s') ->
  exc_is_Exception e = true.
Proof.
  unfold _get_latest_envelope, bind, get_files, ret. cbv beta iota zeta.
  destruct (glob _ _ _) as [|first rest]; [discriminate|].
  destruct (load_sample _ _ _ _ s) as [[x|x] s1] eqn:E; [discriminate|].
  intros [= <- _]. now apply load_sample_raise in E.
Qed.

Lemma _normalize_to_envelope_raise (self : BaseComponent) (src : input_source)
    (now : datetime) (s s' : run_state) (e : py_exception) :
  _normalize_to_envelope pydantic_datetime self src now s = (Raise e, s') ->
  exc_is_Exception e = true.
Proof.
  destruct src as [|f|f|x|r|c|m|d|items|t]; cbn [_normalize_to_envelope];
    try discriminate; try (now intros [= <- _]);
    try (now apply load_sample_raise).
  - destruct (res_envelope r); discriminate.
  - unfold bind.
    destruct (_get_latest_envelope _ _ _ _ s) as [[[x|]|x] s1] eqn:E;
      try discriminate; [now intros [= <- _]|].
    intros [= <- _]. now apply _get_latest_envelope_raise in E.
  - destruct items as [|x [|y [|z rest]]]; try (now intros [= <- _]).
    destruct x; try (now intros [= <- _]).
    destruct (as_filename y); [now apply load_sample_raise | now intros [= <- _]].
Qed.

Lemma resolve_input_raise (self : BaseComponent) (src : input_source) (clk : clock)
    (s s' : run_state) (e : py_exception) :
  resolve_input pydantic_datetime self src clk s = (Raise e, s') ->
  exc_is_Exception e = true.
Proof.
  assert (forall t : string,
    (let* envelope := _normalize_to_envelope pydantic_datetime self src
                        (now_envelope clk) in
     let* _ := update_metadata (set_input_source_type t) in
     ret envelope) s = (Raise e, s') -> exc_is_Exception e = true) as Hnorm.
  { intros t. unfold bind.
    destruct (_normalize_to_envelope _ _ _ _ s) as [[x|x] s1] eqn:E;
      [discriminate|].
    intros [= <- _]. now apply _normalize_to_envelope_raise in E. }
  destruct src; try exact (Hnorm _).
  cbn [resolve_input]. unfold bind.
  destruct (_get_latest_envelope _ _ _ _ s) as [[[x|]|x] s1] eqn:E;
    try discriminate; [now intros [= <- _]|].
  intros [= <- _]. now apply _get_latest_envelope_raise in E.
Qed.

(** An exception that leaves [execute] and is not of class [Exception]
    was raised by a hook. *)
Lemma execute_raise (self : BaseComponent) (config : RunConfig) (kwargs : pydict)
    (clk : clock) (envelope : DataEnvelope) (s s' : run_state) (e : py_exception) :
  execute self config kwargs clk envelope s = (Raise e, s') ->
  exc_is_Exception e = true \/ raised_by_hook self e.
Proof.
  unfold execute. intros H.
  apply bind_raise in H as [H | (? & s1 & _ & H)]; [discriminate|].
  apply bind_raise in H as [H | (? & s2 & _ & H)].
  { left. destruct (negb (skip_compatibility_check config)); [|discriminate].
    destruct (can_process self envelope) as [ok reason].
    destruct (negb ok); [now injection H as <- | discriminate]. }
  apply bind_raise in H as [H | (transformed & s3 & _ & H)].
  { right. left. unfold lift in H. injection H as H _. eauto. }
  apply bind_raise in H as [H | (validated & s4 & _ & H)].
  { right. right. left. unfold lift in H. injection H as H _. eauto. }
  apply bind_raise in H as [H | (? & s5 & _ & H)].
  { match type of H with
    | (if ?b then _ else _) ?st = _ =>
        destruct (maybe_save_state b self COMPONENT_INPUT transformed
                    (sample_name_prefix config) (now_input_sample clk)
                    (mtime_input_sample clk) st) as (? & E & _)
    end.
    rewrite E in H. discriminate. }
  apply bind_raise in H as [H | (raw & s6 & _ & H)].
  { right. right. right. left. unfold lift in H. injection H as H _. eauto. }
  apply bind_raise in H as [H | (output & s7 & _ & H)].
  { unfold validate_output in H. destruct raw as [m|t].
    - destruct (isinstance_model m (output_schema self)); [discriminate|].
      right. right. right. right. unfold lift in H. injection H as H _. eauto.
    - left. now injection H as <-. }
  apply bind_raise in H as [H | (metadata & s8 & _ & H)]; [discriminate|].
  apply bind_raise in H as [H | (? & s9 & _ & H)]; [|discriminate].
  match type of H with
  | (if ?b then _ else _) ?st = _ =>
      destruct (maybe_save_state b self COMPONENT_OUTPUT (model_dump output)
                  (sample_name_prefix config) (now_output_sample clk)
                  (mtime_output_sample clk) st) as (? & E & _)
  end.
  rewrite E in H. discriminate.
Qed.

(** The three ways a call of [run] can end. *)
Lemma run_cases (self : BaseComponent) (src : input_source)
    (config : option RunConfig) (kwargs : pydict) (clk : clock) (fs : filesystem) :
  let s0 := initial_state self config clk fs in
  match run pydantic_datetime self src config kwargs clk fs with
  | (Returned r, fs') =>
      (exists envelope s1 output,
         resolve_input pydantic_datetime self src clk s0 = (Ok envelope, s1) /\
         r = success_result self output
               (set_data_lineage (lineage envelope) (st_metadata s1)) envelope /\
         fs ⊆ fs') \/
      (exists e metadata,
         exc_is_Exception e = true /\ r = failure_result self metadata (exc_str e))
  | (Propagated e, _) => exc_is_Exception e = false /\ raised_by_hook self e
  end.
Proof.
  intros s0. unfold run. fold (initial_state self config clk fs). fold s0.
  unfold run_try.
  destruct (bind _ _ s0) as [[r|e] s'] eqn:E.
  - left. apply bind_ok in E as (envelope & s1 & Hres & Hexec).
    apply execute_ok in Hexec as (output & -> & _ & Hfs).
    exists envelope, s1, output. split; [exact Hres|]. split; [reflexivity|].
    apply resolve_input_state in Hres as [Hfs1 _].
    rewrite Hfs1 in Hfs. exact Hfs.
  - destruct (exc_is_Exception e) eqn:He.
    + right. exists e, (st_metadata s'). split; [exact He | reflexivity].
    + split; [exact He|].
      apply bind_raise in E as [E | (envelope & s1 & _ & E)].
      * apply resolve_input_raise in E. congruence.
      * apply execute_raise in E as [E | E]; [congruence | exact E].
Qed.

End ExecuteFacts.

(** ** The error boundary of [run] *)

(** C1, as the code has it.  For every input source, configuration, keyword
    arguments, clock and store, a call of [run] ends in one of two ways.
    Either it returns a result, and then exactly one of the output value
    and the error string is present: a success carries the value and the
    output envelope and no error, a failure carries no value, no envelope
    and the message ["Component <name> failed: <cause>"].  Or an exception
    leaves [run]; this happens only for an exception that is not of class
    [Exception] and that a hook of the component raised (the input
    adaptation, a schema validation or [process]).  Every exception of
    class [Exception] is captured. *)
Theorem run_error_boundary :
  forall (pydantic_datetime : pyval -> option datetime) (self : BaseComponent)
         (src : input_source) (config : option RunConfig) (kwargs : pydict)
         (clk : clock) (fs : filesystem),
    match fst (run pydantic_datetime self src config kwargs clk fs) with
    | Returned r =>
        value_xor_error r /\
        ((is_Some (res_data r) /\ res_error r = None /\ is_Some (res_envelope r)) \/
         (res_data r = None /\ res_envelope r = None /\
          exists cause,
            res_error r = Some ("Component " +:+ name self +:+ " failed: " +:+ cause)))
    | Propagated e => exc_is_Exception e = false /\ raised_by_hook self e
    end.
Proof.
  intros pd self src config kwargs clk fs.
  pose proof (run_cases pd self src config kwargs clk fs) as H. cbv zeta in H.
  destruct (run pd self src config kwargs clk fs) as [[r|e] fs']; cbn [fst].
  - destruct H as [(envelope & s1 & output & _ & -> & _) | (e & md & _ & ->)].
    + split; [left | left]; cbn; eauto.
    + split; [right | right]; cbn; eauto.
  - exact H.
Qed.

(** C1 as it is stated fails: when [process] is cancelled, the exception
    is not of class [Exception], the handler of [run] does not catch it,
    and no result is returned. *)
Lemma run_lets_cancellation_escape :
  fst (run any_datetime Cancelled (SrcDict hello) None [] clk0 ∅)
    = Propagated CancelledError /\
  ~ (forall (pydantic_datetime : pyval -> option datetime) (self : BaseComponent)
            (src : input_source) (config : option RunConfig) (kwargs : pydict)
            (clk : clock) (fs : filesystem),
       exists r, fst (run pydantic_datetime self src config kwargs clk fs) = Returned r /\
                 value_xor_error r).
Proof.
  assert (fst (run any_datetime Cancelled (SrcDict hello) None [] clk0 ∅)
            = Propagated CancelledError) as H by reflexivity.
  split; [exact H|].
  intros Hall.
  destruct (Hall any_datetime Cancelled (SrcDict hello) None [] clk0 ∅) as (r & Hr & _).
  rewrite H in Hr. discriminate.
Qed.

(** ** The compatibility check *)

(** What [can_process] computes, case by case.  The adaptation test looks
    at the name of the method object, not at whether the class overrides
    the method. *)
Lemma can_process_cases (self : BaseComponent) (envelope : DataEnvelope) :
  can_process self envelope =
  match schema_name envelope with
  | None => (true, None)
  | Some declared =>
      if String.eqb declared "" then (true, None)
      else if String.eqb declared (cls_name (input_schema self)) then (true, None)
      else if String.eqb (fn_name (prepare_input self)) "prepare_input"
      then (false, Some ("Schema mismatch: expects " +:+ cls_name (input_schema self) +:+
                         ", got " +:+ declared))
      else (true, Some "Will transform using prepare_input()")
  end.
Proof.
  unfold can_process, truthy_str, or_str.
  destruct (schema_name envelope) as [declared|]; [|reflexivity].
  destruct (String.eqb declared ""); [reflexivity|]. cbn [negb andb].
  destruct (String.eqb declared (cls_name (input_schema self))); [reflexivity|].
  cbn [negb]. change (fn_name BaseComponent_prepare_input) with "prepare_input".
  now destruct (String.eqb (fn_name (prepare_input self)) "prepare_input").
Qed.

(** An override written as a method named [prepare_input] is not seen. *)
Lemma can_process_ignores_override (self : BaseComponent) (envelope : DataEnvelope)
    (f : py_function) (declared : string) :
  prepare_input_override self = Some f ->
  fn_name f = "prepare_input" ->
  schema_name envelope = Some declared ->
  declared <> "" ->
  declared <> cls_name (input_schema self) ->
  can_process self envelope =
    (false, Some ("Schema mismatch: expects " +:+ cls_name (input_schema self) +:+
                  ", got " +:+ declared)).
Proof.
  intros Hov Hname Hschema Hne Hdiff.
  rewrite can_process_cases, Hschema.
  apply String.eqb_neq in Hne, Hdiff. rewrite Hne, Hdiff.
  unfold prepare_input. rewrite Hov, Hname. reflexivity.
Qed.

(** C2, on the code.  [AdaptingCleaner] overrides [prepare_input] with an
    ordinary method of that name and is handed an envelope that declares
    the schema [CleanedText] while it expects [TextInput].  The check
    fails with the two-name explanation, where the claim says it passes:
    the two [__name__] attributes that the test compares are both
    ["prepare_input"]. *)
Theorem can_process_rejects_overriding_component :
  prepare_input_override AdaptingCleaner = Some adapt /\
  fn_name (prepare_input AdaptingCleaner) = fn_name BaseComponent_prepare_input /\
  can_process AdaptingCleaner cleaned_envelope =
    (false, Some "Schema mismatch: expects TextInput, got CleanedText").
Proof. repeat split. Qed.

(** ** The text cleaner *)

(** C3, on the code.  The cleaner run on [{"text": "Hello   World",
    "source": "t1"}] returns the text ["hello world"] and the source
    ["t1"], but [changes_made] has a third entry,
    ["removed_special_characters"], although the substitution removed
    nothing: the length of the result (11) is compared with the length of
    the original text (13). *)
Theorem text_cleaner_hello_world :
  forall (pydantic_datetime : pyval -> option datetime) (cwd : string) (clk : clock)
         (fs : filesystem),
    TextPipeline.remove_special "hello world" = "hello world" /\
    exists r,
      fst (run pydantic_datetime (TextPipeline.TextCleaner cwd) (SrcDict hello)
               None [] clk fs) = Returned r /\
      res_error r = None /\
      model_dump <$> res_data r =
        Some [("text", PyStr "hello world");
              ("source", PyStr "t1");
              ("changes_made",
               PyList [PyStr "removed_extra_whitespace";
                       PyStr "converted_to_lowercase";
                       PyStr "removed_special_characters"])].
Proof.
  intros pd cwd clk fs. split; [reflexivity|].
  eexists. split; [reflexivity|]. split; reflexivity.
Qed.

(** ** Lineage *)

Section LineageFacts.

Variable pydantic_datetime : pyval -> option datetime.

(** A returned success, taken apart. *)
Lemma run_success (self : BaseComponent) (src : input_source)
    (config : option RunConfig) (kwargs : pydict) (clk : clock) (fs : filesystem)
    (r : ComponentResult) (out : DataEnvelope) :
  fst (run pydantic_datetime self src config kwargs clk fs) = Returned r ->
  res_envelope r = Some out ->
  exists envelope s1 output metadata,
    resolve_input pydantic_datetime self src clk (initial_state self config clk fs)
      = (Ok envelope, s1) /\
    same_identity (initial_metadata self
                     (match config with Some c => c | None => RunConfig_default end)
                     clk) metadata /\
    data_lineage metadata = lineage envelope /\
    r = success_result self output metadata envelope /\
    out = _create_output_envelope self output metadata envelope.
Proof.
  intros Hrun Hout.
  pose proof (run_cases pydantic_datetime self src config kwargs clk fs) as H.
  cbv zeta in H.
  destruct (run pydantic_datetime self src config kwargs clk fs) as [[r'|e] fs'];
    cbn [fst] in Hrun; [|discriminate].
  injection Hrun as ->.
  destruct H as [(envelope & s1 & output & Hres & -> & _) | (e & md & _ & ->)];
    [|discriminate].
  exists envelope, s1, output, (set_data_lineage (lineage envelope) (st_metadata s1)).
  split; [exact Hres|].
  apply resolve_input_state in Hres as [_ Hid].
  split; [|split; [reflexivity|split; [reflexivity|]]].
  - destruct Hid as (? & ? & ? & ? & ?). repeat split; assumption.
  - cbn [success_result res_envelope] in Hout. now injection Hout as <-.
Qed.

End LineageFacts.

(** C4, as the code has it.  When the configuration supplies no execution
    id, the metadata of the call gets the id ["local_run"], and the record
    a successful [run] appends to the lineage is the tuple of the
    component's name, its version, the ISO-8601 form of the execution time
    and that id ["local_run"]. *)
Theorem lineage_record_of_anonymous_run :
  forall (pydantic_datetime : pyval -> option datetime) (self : BaseComponent)
         (src : input_source) (config : option RunConfig) (kwargs : pydict)
         (clk : clock) (fs : filesystem) (r : ComponentResult) (out : DataEnvelope),
    supplied_execution_id config = None ->
    fst (run pydantic_datetime self src config kwargs clk fs) = Returned r ->
    res_envelope r = Some out ->
    last (lineage out) =
      Some [("component", name self);
            ("version", version self);
            ("timestamp", isoformat (now_metadata clk));
            ("execution_id", "local_run")].
Proof.
  intros pd self src config kwargs clk fs r out Hid Hrun Hout.
  destruct (run_success pd self src config kwargs clk fs r out Hrun Hout)
    as (envelope & s1 & output & md & _ & Hsame & _ & _ & ->).
  cbn [_create_output_envelope lineage]. rewrite last_snoc.
  unfold new_lineage_record.
  destruct Hsame as (_ & _ & -> & -> & _).
  cbn [initial_metadata executed_at execution_id].
  replace (cfg_execution_id match config with Some c => c | None => RunConfig_default end)
    with (@None string); [reflexivity|].
  destruct config as [c|]; [exact (eq_sym Hid) | reflexivity].
Qed.

Lemma lineage_record_of_anonymous_run_witness :
  exists r out,
    fst (run any_datetime (TextPipeline.TextLoader "/w") (SrcDict hello) None [] clk0 ∅)
      = Returned r /\
    res_envelope r = Some out /\
    last (lineage out) =
      Some [("component", "text_loader");
            ("version", "1.0.0");
            ("timestamp", "2024-03-09T14:05:07.123456+00:00");
            ("execution_id", "local_run")].
Proof.
  eexists _, _. split; [reflexivity|]. split; [reflexivity|].
  exact (lineage_record_of_anonymous_run any_datetime (TextPipeline.TextLoader "/w")
           (SrcDict hello) None [] clk0 ∅ _ _ eq_refl eq_refl eq_refl).
Defined.

(** C4 as it is stated fails: a successful run under the default
    configuration, which supplies no execution id, appends a record whose
    execution id is ["local_run"], not the empty string. *)
Lemma anonymous_run_is_local_run :
  exists r out record,
    supplied_execution_id None = None /\
    fst (run any_datetime (TextPipeline.TextLoader "/w") (SrcDict hello) None [] clk0 ∅)
      = Returned r /\
    res_error r = None /\
    res_envelope r = Some out /\
    last (lineage out) = Some record /\
    dict_get "execution_id" record = Some "local_run" /\
    dict_get "execution_id" record <> Some "".
Proof.
  eexists _, _, _. split; [reflexivity|]. split; [reflexivity|].
  split; [reflexivity|]. split; [reflexivity|]. split; [reflexivity|].
  split; [reflexivity | discriminate].
Qed.

Section ChainFacts.

Variable pydantic_datetime : pyval -> option datetime.








End ChainFacts.





(** ** Unsupported input *)

(** C6, as the code has it.  For every input source of none of the accepted
    shapes, [run] returns a failure result and raises nothing: no value, no
    envelope, the store untouched, and the error string
    ["Component <name> failed: <cause>"].  The cause is
    ["Unsupported input source type: <type>"]; or, for a pair whose first
    element is not a component, ["First element of tuple must be a
    BaseComponent, got <type>"]; or, for a pair of a component and
    something that is neither a string nor a path, the text of the
    [TypeError] that [Path] raises for it in [load_sample]. *)
Theorem unsupported_input_is_reported :
  forall (pydantic_datetime : pyval -> option datetime) (self : BaseComponent)
         (src : input_source) (config : option RunConfig) (kwargs : pydict)
         (clk : clock) (fs : filesystem),
    accepted_shape src = false ->
    exists cause,
      run pydantic_datetime self src config kwargs clk fs =
        (Returned (failure_result self
                     (initial_metadata self
                        (match config with Some c => c | None => RunConfig_default end)
                        clk)
                     cause),
         fs) /\
      (cause = "Unsupported input source type: " +:+ type_repr src \/
       (exists first second,
         src = SrcTuple [first; second] /\
         (forall other, first <> SrcComponent other) /\
         cause = "First element of tuple must be a BaseComponent, got " +:+
                 type_repr first) \/
       (exists other second,
         src = SrcTuple [SrcComponent other; second] /\
         as_filename second = None /\
         cause = path_type_error second)).
Proof.
  intros pd self src config kwargs clk fs Hshape.
  destruct src as [|f|f|e|r|c|m|d|items|t]; try discriminate.
  - destruct items as [|x [|y [|z rest]]];
      try (eexists; split; [reflexivity | left; reflexivity]).
    destruct x;
      try (eexists; split;
           [reflexivity
           | right; left; eexists _, _; split; [reflexivity|];
             split; [intros other; discriminate | reflexivity]]).
    destruct y; try discriminate;
      (eexists; split;
       [reflexivity
       | right; right; eexists _, _; split; [reflexivity|]; split; reflexivity]).
  - eexists. split; [reflexivity | left; reflexivity].
Qed.

Lemma unsupported_input_is_reported_witness :
  exists cause,
    run any_datetime (TextPipeline.TextCleaner "/w") (SrcOther "int") None [] clk0 ∅ =
      (Returned (failure_result (TextPipeline.TextCleaner "/w")
                   (initial_metadata (TextPipeline.TextCleaner "/w") RunConfig_default clk0)
                   cause),
       ∅) /\
    (cause = "Unsupported input source type: <class 'int'>" \/
     (exists first second,
       SrcOther "int" = SrcTuple [first; second] /\
       (forall other, first <> SrcComponent other) /\
       cause = "First element of tuple must be a BaseComponent, got " +:+
               type_repr first) \/
     (exists other second,
       SrcOther "int" = SrcTuple [SrcComponent other; second] /\
       as_filename second = None /\
       cause = path_type_error second)).
Proof.
  exact (unsupported_input_is_reported any_datetime (TextPipeline.TextCleaner "/w")
           (SrcOther "int") None [] clk0 ∅ eq_refl).
Defined.

(** C6 as it is stated fails: a pair of a component and the integer [42] is
    none of the listed shapes, [run] returns a failure for it and raises
    nothing, but the error is the text of the [TypeError] that [Path(42)]
    raises, not a report of an unsupported input source.  The same holds
    with [None] in the place of the sample name. *)
Lemma pair_with_a_number_is_a_type_error :
  let loader := TextPipeline.TextLoader "/w" in
  let cleaner := TextPipeline.TextCleaner "/w" in
  let md := initial_metadata cleaner RunConfig_default clk0 in
  accepted_shape (SrcTuple [SrcComponent loader; SrcOther "int"]) = false /\
  accepted_shape (SrcTuple [SrcComponent loader; SrcNone]) = false /\
  run any_datetime cleaner (SrcTuple [SrcComponent loader; SrcOther "int"]) None [] clk0 ∅
  = (Returned (failure_result cleaner md
                 "expected str, bytes or os.PathLike object, not int"), ∅) /\
  run any_datetime cleaner (SrcTuple [SrcComponent loader; SrcNone]) None [] clk0 ∅
  = (Returned (failure_result cleaner md
                 "expected str, bytes or os.PathLike object, not NoneType"), ∅) /\
  res_error (failure_result cleaner md
               "expected str, bytes or os.PathLike object, not int")
  = Some "Component text_cleaner failed: expected str, bytes or os.PathLike object, not int" /\
  "expected str, bytes or os.PathLike object, not int" <>
    "Unsupported input source type: " +:+
    type_repr (SrcTuple [SrcComponent loader; SrcOther "int"]).
Proof.
  cbv zeta. split; [reflexivity|]. split; [reflexivity|].
  split; [reflexivity|]. split; [reflexivity|]. split; [reflexivity|]. discriminate.
Qed.

(** ** JSON round trip *)

Lemma dict_set_fresh {V : Type} (k : string) (v : V) (d : list (string * V)) :
  dict_get k d = None -> dict_set k v d = (d ++ [(k, v)])%list.
Proof.
  induction d as [|[k0 v0] d IH]; simpl; [reflexivity|].
  destruct (String.eqb k0 k); [discriminate|].
  intros H. now rewrite IH.
Qed.

Lemma dict_get_app_none {V : Type} (k : string) (d1 d2 : list (string * V)) :
  dict_get k (d1 ++ d2)%list = None <-> dict_get k d1 = None /\ dict_get k d2 = None.
Proof.
  induction d1 as [|[k0 v0] d1 IH]; simpl.
  - tauto.
  - destruct (String.eqb k0 k); [|exact IH].
    split; [discriminate | intros [H _]; discriminate].
Qed.

(** Building a dict from pairs with distinct keys keeps the pairs. *)
Lemma dict_of_pairs_nodup {V : Type} (l : list (string * V)) :
  nodup_keys l = true -> dict_of_pairs l = l.
Proof.
  unfold dict_of_pairs.
  assert (forall acc : list (string * V),
            nodup_keys l = true ->
            (forall kv, In kv l -> dict_get (fst kv) acc = None) ->
            fold_left (fun d kv => dict_set (fst kv) (snd kv) d) l acc
              = (acc ++ l)%list) as H.
  { induction l as [|[k v] l IH]; intros acc Hnd Hacc; simpl.
    - now rewrite app_nil_r.
    - simpl in Hnd. destruct (dict_get k l) eqn:Ek; [discriminate|].
      rewrite dict_set_fresh by (apply (Hacc (k, v)); now left).
      rewrite IH; [now rewrite <- app_assoc | exact Hnd |].
      intros [k' v'] Hin. apply dict_get_app_none. split.
      + apply (Hacc (k', v')). now right.
      + simpl. destruct (String.eqb_spec k k') as [-> | Hne]; [|reflexivity].
        exfalso. clear -Ek Hin. induction l as [|[k0 v0] l IHl]; [contradiction|].
        simpl in Ek. destruct (String.eqb_spec k0 k') as [-> | Hne]; [discriminate|].
        destruct Hin as [[= -> _] | Hin]; [congruence | now apply IHl]. }
  intros Hnd. apply (H [] Hnd). reflexivity.
Qed.

(** A value without tuples, NaN and repeated keys survives the round trip
    through JSON. *)
Lemma of_json_to_json : forall v, json_native v = true -> of_json (to_json v) = v.
Proof.
  fix IH 1. intros [| b | z | x | s | l | l | d]; simpl; intros H;
    try reflexivity; try discriminate.
  - f_equal. induction l as [|x l IHl]; simpl; [reflexivity|].
    simpl in H. apply andb_true_iff in H as [Hx Hl].
    rewrite (IH x Hx). f_equal. exact (IHl Hl).
  - apply andb_true_iff in H as [Hnd Hall]. f_equal.
    rewrite map_map. simpl.
    assert (map (fun kv : string * pyval => (fst kv, of_json (to_json (snd kv)))) d = d)
      as ->.
    { clear Hnd. induction d as [|[k x] d IHd]; simpl; [reflexivity|].
      simpl in Hall. apply andb_true_iff in Hall as [Hx Hd].
      rewrite (IH x Hx). f_equal. exact (IHd Hd). }
    now apply dict_of_pairs_nodup.
Qed.

Lemma roundtrip_dict_native (d : pydict) :
  json_native_dict d = true -> roundtrip_dict d = d.
Proof.
  intros H. pose proof (of_json_to_json (PyDict d) H) as E.
  simpl in E. rewrite map_map in E. simpl in E. now injection E.
Qed.

(** ** Loading what was saved *)

Lemma validate_opt_str_json (o : option string) :
  validate_opt_str (Some (of_json (json_opt_str o))) = Some o.
Proof. now destruct o. Qed.

Lemma validate_DataType_value (t : DataType) :
  validate_DataType (Some (PyStr (DataType_value t))) = Some t.
Proof. now destruct t. Qed.

Lemma validate_str_list_json (l : list string) :
  validate_str_list (Some (of_json (JArr (map JStr l)))) = Some l.
Proof.
  simpl. induction l as [|x l IH]; simpl; [reflexivity|].
  simpl in IH. now rewrite IH.
Qed.

Lemma dict_set_map {V W : Type} (f : V -> W) (k : string) (v : V)
    (d : list (string * V)) :
  dict_set k (f v) (map (fun kv => (fst kv, f (snd kv))) d)
  = map (fun kv => (fst kv, f (snd kv))) (dict_set k v d).
Proof.
  induction d as [|[k0 v0] d IH]; simpl; [reflexivity|].
  destruct (String.eqb k0 k); simpl; [reflexivity | now rewrite IH].
Qed.

Lemma dict_of_pairs_map {V W : Type} (f : V -> W) (l : list (string * V)) :
  dict_of_pairs (map (fun kv => (fst kv, f (snd kv))) l)
  = map (fun kv => (fst kv, f (snd kv))) (dict_of_pairs l).
Proof.
  unfold dict_of_pairs.
  change (@nil (string * W)) with (map (fun kv : string * V => (fst kv, f (snd kv))) [])
    at 1.
  generalize (@nil (string * V)) as acc.
  induction l as [|[k v] l IH]; intros acc; simpl; [reflexivity|].
  rewrite dict_set_map. apply IH.
Qed.

Lemma as_str_dict_json (r : lineage_record) :
  as_str_dict (of_json (lineage_record_to_json r)) = Some (dict_of_pairs r).
Proof.
  unfold lineage_record_to_json. simpl. rewrite map_map. simpl.
  rewrite (dict_of_pairs_map PyStr r).
  induction (dict_of_pairs r) as [|[k v] d IH]; simpl; [reflexivity|].
  simpl in IH. now rewrite IH.
Qed.

Lemma mapM_as_str_dict_json (l : list lineage_record) :
  mapM as_str_dict (map (fun r => of_json (lineage_record_to_json r)) l)
  = Some (map dict_of_pairs l).
Proof.
  induction l as [|r l IH]; [reflexivity|].
  cbn [map mapM]. rewrite as_str_dict_json, IH. reflexivity.
Qed.

Lemma validate_lineage_json (l : list lineage_record) :
  validate_lineage (Some (of_json (JArr (map lineage_record_to_json l))))
  = Some (map dict_of_pairs l).
Proof.
  cbn [of_json validate_lineage]. rewrite map_map. apply mapM_as_str_dict_json.
Qed.

Lemma of_json_dict (d : pydict) :
  of_json (to_json (PyDict d)) = PyDict (roundtrip_dict d).
Proof. unfold roundtrip_dict. simpl. now rewrite map_map. Qed.

Section LoadFacts.

Variable pydantic_datetime : pyval -> option datetime.

(** The constructor applied to the document of an envelope gives the
    envelope back, up to the datetime that the validator reads and the
    JSON images of its dictionaries. *)
Lemma of_json_envelope (e : DataEnvelope) :
  of_json (envelope_to_json e) = PyDict (envelope_kwargs e).
Proof.
  unfold envelope_kwargs, envelope_to_json. cbn [of_json map fst snd].
  unfold dict_of_pairs.
  cbn [fold_left dict_set fst snd String.eqb Ascii.eqb Bool.eqb].
  destruct (source_info e); reflexivity.
Qed.

Lemma DataEnvelope_init_saved (now ts : datetime) (e : DataEnvelope) :
  pydantic_datetime (PyStr (datetime_str (timestamp e))) = Some ts ->
  DataEnvelope_init pydantic_datetime now (envelope_kwargs e) = Ok (reloaded ts e).
Proof.
  intros Hts.
  unfold DataEnvelope_init, envelope_kwargs.
  cbn [dict_get String.eqb Ascii.eqb Bool.eqb fst snd].
  rewrite !validate_opt_str_json, validate_DataType_value.
  rewrite validate_str_list_json, validate_lineage_json.
  cbn [validate_str validate_timestamp of_json]. rewrite Hts.
  rewrite of_json_dict. cbn [validate_dict]. unfold reloaded.
  destruct (source_info e) as [d|]; [rewrite of_json_dict|]; reflexivity.
Qed.

End LoadFacts.

Lemma path_join_absolute (dir filename : string) :
  (if is_absolute filename then filename else path_join dir filename)
  = path_join dir filename.
Proof. unfold path_join. now destruct (is_absolute filename). Qed.

Section LoadSavedFacts.

Variable pydantic_datetime : pyval -> option datetime.

(** Loading a file that holds the document of an envelope *)
Lemma load_sample_saved (self : BaseComponent) (filename : string) (now ts : datetime)
    (s : run_state) (e : DataEnvelope) (f : file) :
  st_files s !! path_join (sample_data_dir self) filename = Some f ->
  content f = Some (envelope_to_json e) ->
  pydantic_datetime (PyStr (datetime_str (timestamp e))) = Some ts ->
  load_sample pydantic_datetime self filename now s = (Ok (reloaded ts e), s).
Proof.
  intros Hf Hdoc Hts.
  unfold load_sample, bind, get_files. cbv beta iota zeta.
  rewrite path_join_absolute, Hf, Hdoc, of_json_envelope.
  unfold lift. now rewrite (DataEnvelope_init_saved _ now ts e Hts).
Qed.

Lemma map_dict_of_pairs_nodup (l : list lineage_record) :
  forallb nodup_keys l = true -> map dict_of_pairs l = l.
Proof.
  induction l as [|r l IH]; simpl; [reflexivity|].
  intros H. apply andb_true_iff in H as [Hr Hl].
  now rewrite dict_of_pairs_nodup, IH.
Qed.

(** A sample whose payload is JSON-native is reloaded as it was. *)
Lemma reloaded_sample (self : BaseComponent) (sample_type : DataType)
    (payload : pydict) (metadata : ComponentMetadata) (ts : datetime) :
  json_native_dict payload = true ->
  forallb nodup_keys (data_lineage metadata) = true ->
  reloaded ts (sample_envelope self sample_type payload metadata)
  = with_timestamp ts (sample_envelope self sample_type payload metadata).
Proof.
  intros Hdata Hlin. unfold reloaded, with_timestamp.
  cbn [sample_envelope data lineage source_info fmap option_fmap option_map].
  now rewrite roundtrip_dict_native, map_dict_of_pairs_nodup.
Qed.

End LoadSavedFacts.

(** C8, as the code has it.  A sample whose payload is made of values that
    JSON has (none, booleans, integers, floats other than NaN, strings,
    lists and string-keyed dictionaries of such values, so no tuple), saved
    under a prefix without separator, is written and then loaded back by
    its file name as an envelope equal to the saved one in every field, the
    timestamp being the datetime that the validator reads from the text
    [str] wrote for it. *)
Theorem saved_sample_loads_back :
  forall (pydantic_datetime : pyval -> option datetime) (self : BaseComponent)
         (sample_type : DataType) (data : pydict) (prefix : option string)
         (now : datetime) (mtime : N) (s : run_state) (ts now' : datetime),
    plain_prefix prefix = true ->
    json_native_dict data = true ->
    forallb nodup_keys (data_lineage (st_metadata s)) = true ->
    pydantic_datetime (PyStr (datetime_str (executed_at (st_metadata s)))) = Some ts ->
    exists counter s',
      _save_sample self sample_type data prefix now mtime s = (Ok tt, s') /\
      load_sample pydantic_datetime self
        (sample_filename (sample_base_filename sample_type prefix now) counter) now' s'
      = (Ok (with_timestamp ts (sample_envelope self sample_type data (st_metadata s))),
         s').
Proof.
  intros pd self sample_type data prefix now mtime s ts now' _ Hdata Hlin Hts.
  destruct (_save_sample_spec self sample_type data prefix now mtime s)
    as (k & _ & _ & Hsave).
  cbv zeta in Hsave. eexists k, _. split; [exact Hsave|].
  rewrite <- (reloaded_sample self sample_type data (st_metadata s) ts Hdata Hlin).
  eapply load_sample_saved.
  - cbn [st_files]. unfold sample_candidate. apply lookup_insert_eq.
  - reflexivity.
  - exact Hts.
Qed.

Lemma saved_sample_loads_back_witness :
  exists counter s',
    _save_sample (TextPipeline.TextLoader "/w") COMPONENT_INPUT hello None t0 5
      {| st_metadata := metadata0; st_files := ∅ |} = (Ok tt, s') /\
    load_sample any_datetime (TextPipeline.TextLoader "/w")
      (sample_filename (sample_base_filename COMPONENT_INPUT None t0) counter) t0 s'
    = (Ok (with_timestamp t0
             (sample_envelope (TextPipeline.TextLoader "/w") COMPONENT_INPUT hello
                metadata0)),
       s').
Proof.
  exact (saved_sample_loads_back any_datetime (TextPipeline.TextLoader "/w")
           COMPONENT_INPUT hello None t0 5
           {| st_metadata := metadata0; st_files := ∅ |} t0 t0
           eq_refl eq_refl eq_refl eq_refl).
Defined.

(** C8 as it is stated fails: the output of the word counter holds pairs,
    [json.dump] writes a pair as an array, and the sample loaded back holds
    lists where the saved payload held tuples.  The float of that payload
    comes back as it was. *)
Lemma tuple_payload_comes_back_as_list :
  exists s' loaded,
    _save_sample (TextPipeline.TextLoader "/w") COMPONENT_OUTPUT word_stats None t0 5
      {| st_metadata := metadata0; st_files := ∅ |} = (Ok tt, s') /\
    load_sample any_datetime (TextPipeline.TextLoader "/w")
      "output_20240309_140507_123.json" t0 s' = (Ok loaded, s') /\
    dict_get "most_common_words" word_stats
      = Some (PyList [PyTuple [PyStr "the"; PyInt 2]]) /\
    dict_get "most_common_words" (data loaded)
      = Some (PyList [PyList [PyStr "the"; PyInt 2]]) /\
    dict_get "average_word_length" (data loaded)
      = dict_get "average_word_length" word_stats /\
    data loaded <>
      data (sample_envelope (TextPipeline.TextLoader "/w") COMPONENT_OUTPUT word_stats
              metadata0).
Proof.
  eexists _, _. split; [vm_compute; reflexivity|].
  split; [vm_compute; reflexivity|].
  split; [reflexivity|]. split; [reflexivity|]. split; [reflexivity|]. discriminate.
Qed.

(** ** The schema name of persisted samples *)

Lemma only_adds_samples_refl (self : BaseComponent) (fs : filesystem) :
  only_adds_samples self fs fs.
Proof. split; [reflexivity | intros p f H; now left]. Qed.

Lemma only_adds_samples_trans (self : BaseComponent) (fs1 fs2 fs3 : filesystem) :
  only_adds_samples self fs1 fs2 -> only_adds_samples self fs2 fs3 ->
  only_adds_samples self fs1 fs3.
Proof.
  intros [Hsub12 H12] [Hsub23 H23]. split; [etrans; eassumption|].
  intros p f Hp. destruct (H23 p f Hp) as [H2 | [Hnone Htag]].
  - exact (H12 p f H2).
  - right. split; [|exact Htag].
    destruct (fs1 !! p) as [f1|] eqn:E1; [|reflexivity].
    pose proof (lookup_weaken _ _ _ _ E1 Hsub12) as E2. congruence.
Qed.

Lemma step_invariant_refl (self : BaseComponent) (s : run_state) :
  step_invariant self s s.
Proof. split; [apply only_adds_samples_refl | reflexivity]. Qed.

Lemma step_invariant_trans (self : BaseComponent) (s1 s2 s3 : run_state) :
  step_invariant self s1 s2 -> step_invariant self s2 s3 -> step_invariant self s1 s3.
Proof.
  intros [Hfs12 Hr12] [Hfs23 Hr23].
  split; [eapply only_adds_samples_trans; eassumption | congruence].
Qed.

Lemma adds_samples_bind {A B : Type} (self : BaseComponent) (m : M A) (k : A -> M B) :
  adds_samples self m -> (forall a, adds_samples self (k a)) ->
  adds_samples self (bind m k).
Proof.
  intros Hm Hk s o s'. unfold bind.
  destruct (m s) as [[a|e] s1] eqn:E.
  - intros H. eapply step_invariant_trans; [exact (Hm _ _ _ E) | exact (Hk _ _ _ _ H)].
  - intros [= <- <-]. exact (Hm _ _ _ E).
Qed.

Lemma adds_samples_same_state {A : Type} (self : BaseComponent) (m : M A) :
  (forall s o s', m s = (o, s') -> s' = s) ->
  adds_samples self m.
Proof.
  intros H s o s' E. rewrite (H _ _ _ E). apply step_invariant_refl.
Qed.

Lemma adds_samples_save (self : BaseComponent) (sample_type : DataType)
    (payload : pydict) (prefix : option string) (now : datetime) (mtime : N) :
  sample_type <> RAW_DATA ->
  adds_samples self (_save_sample self sample_type payload prefix now mtime).
Proof.
  intros Hkind s o s' E.
  destruct (_save_sample_spec self sample_type payload prefix now mtime s)
    as (k & Hfree & _ & Hsave).
  cbv zeta in Hfree, Hsave. rewrite Hsave in E. injection E as _ <-.
  split; [|reflexivity].
  cbn [st_files]. split; [now apply insert_subseteq|].
  intros p f Hp.
  destruct (decide (p = sample_candidate (sample_data_dir self)
                          (sample_base_filename sample_type prefix now) k))
    as [-> | Hne].
  - right. split; [exact Hfree|].
    rewrite lookup_insert_eq in Hp. injection Hp as <-.
    exists (sample_envelope self sample_type payload (st_metadata s)).
    split; [reflexivity|].
    destruct sample_type; [left | right | congruence]; split; reflexivity.
  - left. now rewrite lookup_insert_ne in Hp by congruence.
Qed.

Section SchemaFacts.

Variable pydantic_datetime : pyval -> option datetime.

Lemma adds_samples_execute (self : BaseComponent) (config : RunConfig)
    (kwargs : pydict) (clk : clock) (envelope : DataEnvelope) :
  adds_samples self (execute self config kwargs clk envelope).
Proof.
  unfold execute.
  assert (forall (A : Type) (o : outcome A), adds_samples self (lift o)) as Hlift.
  { intros A o. apply adds_samples_same_state. now intros s o' s' [= _ <-]. }
  assert (forall (A : Type) (a : A), adds_samples self (ret a)) as Hret.
  { intros A a. apply adds_samples_same_state. now intros s o' s' [= _ <-]. }
  assert (forall (A : Type) (e : py_exception), adds_samples self (@raise A e)) as Hraise.
  { intros A e. apply adds_samples_same_state. now intros s o' s' [= _ <-]. }
  apply adds_samples_bind.
  { intros s o s' [= _ <-]. split; [apply only_adds_samples_refl | reflexivity]. }
  intros _. apply adds_samples_bind.
  { destruct (negb (skip_compatibility_check config)); [|apply Hret].
    destruct (can_process self envelope) as [ok reason].
    destruct (negb ok); [apply Hraise | apply Hret]. }
  intros _. apply adds_samples_bind; [apply Hlift | intros transformed].
  apply adds_samples_bind; [apply Hlift | intros validated].
  apply adds_samples_bind.
  { destruct (SampleSaveMode.truthy _); [|apply Hret].
    apply adds_samples_save. discriminate. }
  intros _. apply adds_samples_bind; [apply Hlift | intros raw].
  apply adds_samples_bind.
  { unfold validate_output. destruct raw as [m|t]; [|apply Hraise].
    destruct (isinstance_model m (output_schema self)); [apply Hret | apply Hlift]. }
  intros output. apply adds_samples_bind.
  { apply adds_samples_same_state. now intros s o' s' [= _ <-]. }
  intros metadata. apply adds_samples_bind; [|intros _; apply Hret].
  destruct (SampleSaveMode.truthy _); [|apply Hret].
  apply adds_samples_save. discriminate.
Qed.

Lemma adds_samples_run (self : BaseComponent) (src : input_source)
    (config : option RunConfig) (kwargs : pydict) (clk : clock) (fs : filesystem) :
  only_adds_samples self fs (snd (run pydantic_datetime self src config kwargs clk fs)).
Proof.
  unfold run. fold (initial_state self config clk fs).
  destruct (run_try _ _ _ _ _ _ _) as [o s'] eqn:E.
  assert (only_adds_samples self fs (st_files s')) as H.
  { unfold run_try, bind in E.
    destruct (resolve_input _ _ _ _ _) as [[envelope|e] s1] eqn:Eres;
      apply resolve_input_state in Eres as [Hfs _].
    - apply adds_samples_execute in E as [E _]. now rewrite Hfs in E.
    - injection E as _ <-. rewrite Hfs. apply only_adds_samples_refl. }
  destruct o as [r|e]; [exact H|].
  destruct (exc_is_Exception e); exact H.
Qed.

(** An input sample of the component loads as an envelope that the
    component's compatibility check lets through. *)
Lemma own_input_sample_passes (self : BaseComponent) (filename : string)
    (now ts : datetime) (s : run_state) (f : file) (payload : pydict)
    (metadata : ComponentMetadata) :
  st_files s !! path_join (sample_data_dir self) filename = Some f ->
  content f = Some (envelope_to_json
                      (sample_envelope self COMPONENT_INPUT payload metadata)) ->
  pydantic_datetime (PyStr (datetime_str (executed_at metadata))) = Some ts ->
  exists e,
    load_sample pydantic_datetime self filename now s = (Ok e, s) /\
    schema_name e = Some (cls_name (input_schema self)) /\
    can_process self e = (true, None).
Proof.
  intros Hf Hdoc Hts.
  eexists. split; [exact (load_sample_saved _ self filename now ts s _ f Hf Hdoc Hts)|].
  split; [reflexivity|].
  rewrite can_process_cases. cbn [reloaded sample_envelope schema_name DataType_eqb].
  rewrite String.eqb_refl. now destruct (String.eqb _ "").
Qed.

End SchemaFacts.

(** C10.  Whatever [run] is called with and however it ends, every file it
    leaves in the store that was not there before holds an envelope whose
    schema name is the declared input-schema name for an input sample and
    the declared output-schema name for an output sample; the files that
    were there are unchanged.  And an input sample of a component, loaded
    back by that component, carries its declared input-schema name and
    passes its [can_process]. *)
Theorem persisted_samples_carry_declared_schema :
  forall (pydantic_datetime : pyval -> option datetime) (self : BaseComponent),
    (forall src config kwargs clk fs p f,
       snd (run pydantic_datetime self src config kwargs clk fs) !! p = Some f ->
       fs !! p = Some f \/
       (fs !! p = None /\
        exists e,
          content f = Some (envelope_to_json e) /\
          ((data_type e = COMPONENT_INPUT /\
            schema_name e = Some (cls_name (input_schema self))) \/
           (data_type e = COMPONENT_OUTPUT /\
            schema_name e = Some (cls_name (output_schema self)))))) /\
    (forall filename now ts s f payload metadata,
       st_files s !! path_join (sample_data_dir self) filename = Some f ->
       content f = Some (envelope_to_json
                           (sample_envelope self COMPONENT_INPUT payload metadata)) ->
       pydantic_datetime (PyStr (datetime_str (executed_at metadata))) = Some ts ->
       exists e,
         load_sample pydantic_datetime self filename now s = (Ok e, s) /\
         schema_name e = Some (cls_name (input_schema self)) /\
         can_process self e = (true, None)).
Proof.
  intros pd self. split.
  - intros src config kwargs clk fs p f Hp.
    destruct (adds_samples_run pd self src config kwargs clk fs) as [_ H].
    exact (H p f Hp).
  - intros filename now ts s f payload metadata.
    apply own_input_sample_passes.
Qed.

Lemma persisted_samples_carry_declared_schema_witness :
  exists e,
    load_sample any_datetime (TextPipeline.TextCleaner "/w")
      "input_20240309_140507_123.json" t0
      {| st_metadata := metadata0;
         st_files :=
           snd (run any_datetime (TextPipeline.TextCleaner "/w") (SrcDict hello)
                    (Some (RunConfigPresets.debug true)) [] clk0 ∅) |}
    = (Ok e,
       {| st_metadata := metadata0;
          st_files :=
            snd (run any_datetime (TextPipeline.TextCleaner "/w") (SrcDict hello)
                     (Some (RunConfigPresets.debug true)) [] clk0 ∅) |}) /\
    schema_name e = Some "TextInput" /\
    can_process (TextPipeline.TextCleaner "/w") e = (true, None).
Proof.
  exact (proj2 (persisted_samples_carry_declared_schema any_datetime
                  (TextPipeline.TextCleaner "/w"))
           "input_20240309_140507_123.json" t0 t0
           {| st_metadata := metadata0;
              st_files :=
                snd (run any_datetime (TextPipeline.TextCleaner "/w") (SrcDict hello)
                         (Some (RunConfigPresets.debug true)) [] clk0 ∅) |}
           (sample_file (TextPipeline.TextCleaner "/w") COMPONENT_INPUT hello
              (set_data_lineage []
                 (set_input_source_type "dict"
                    (initial_metadata (TextPipeline.TextCleaner "/w")
                       (RunConfigPresets.debug true) clk0)))
              10)
           hello _ eq_refl eq_refl eq_refl).
Defined.

(** ** Replay *)

Lemma strip_prefix_some (p s r : string) : strip_prefix p s = Some r -> s = p +:+ r.
Proof.
  revert s. induction p as [|a p IH]; intros [|b s]; simpl; try discriminate.
  - now intros [= <-].
  - now intros [= <-].
  - destruct (Ascii.eqb_spec a b) as [-> | Hne]; [|discriminate].
    intros H. now rewrite (IH _ H).
Qed.

Lemma name_in_dir_some (dir path n : string) :
  name_in_dir dir path = Some n -> path = path_join dir n.
Proof.
  unfold name_in_dir.
  destruct (strip_prefix (dir +:+ "/") path) as [r|] eqn:E; [|discriminate].
  destruct (String.eqb r "" || contains_char "/" r) eqn:Eok; [discriminate|].
  intros [= <-]. apply strip_prefix_some in E. subst path.
  unfold path_join.
  assert (is_absolute r = false) as ->.
  { apply orb_false_iff in Eok as [_ Hslash].
    destruct r as [|c r]; [reflexivity|].
    unfold is_absolute. cbn [startswith]. cbn [contains_char] in Hslash.
    destruct (Ascii.eqb_spec c "/") as [-> | Hne]; [discriminate Hslash|].
    destruct (Ascii.eqb_spec "/" c) as [<- | _]; [congruence | reflexivity]. }
  now rewrite str_app_assoc.
Qed.

(** Every entry of a directory listing is a file of the store. *)
Lemma glob_lookup (dir prefix : string) (fs : filesystem) (n : string) (f : file) :
  (n, f) ∈ glob dir prefix fs ->
  fs !! path_join dir n = Some f /\ matches_pattern prefix n = true.
Proof.
  unfold glob. intros H. apply list_elem_of_omap in H as ([p f'] & Hin & Hsome).
  apply elem_of_map_to_list in Hin. cbn [fst snd] in Hsome.
  destruct (name_in_dir dir p) as [n'|] eqn:En; [|discriminate].
  destruct (matches_pattern prefix n') eqn:Em; [|discriminate].
  injection Hsome as -> ->.
  apply name_in_dir_some in En. subst p. split; [exact Hin | exact Em].
Qed.

(** [max] returns an entry of the list, and none is newer. *)
Lemma max_by_mtime_spec (rest : list (string * file)) :
  forall best,
    max_by_mtime best rest ∈ best :: rest /\
    forall x, x ∈ best :: rest ->
              st_mtime (snd x) <= st_mtime (snd (max_by_mtime best rest)).
Proof.
  induction rest as [|y rest IH]; intros best; simpl.
  - split; [left|]. intros x Hx. apply list_elem_of_singleton in Hx as ->. lia.
  - destruct (N.ltb_spec (st_mtime (snd best)) (st_mtime (snd y))) as [Hlt | Hge].
    + destruct (IH y) as [Hin Hmax]. split; [now right|].
      intros x Hx. apply elem_of_cons in Hx as [-> | Hx].
      * pose proof (Hmax y ltac:(left)). lia.
      * now apply Hmax.
    + destruct (IH best) as [Hin Hmax]. split.
      * apply elem_of_cons in Hin as [-> | Hin]; [left | right; now right].
      * intros x Hx. apply elem_of_cons in Hx as [-> | Hx]; [apply Hmax; left|].
        apply elem_of_cons in Hx as [-> | Hx].
        -- pose proof (Hmax best ltac:(left)). lia.
        -- apply Hmax. now right.
Qed.

Section ReplayFacts.

Variable pydantic_datetime : pyval -> option datetime.

(** Without an input source and without a file [input_*.json] in the
    component's directory, [run] returns the no-saved-input failure. *)
Lemma replay_without_saved_input (self : BaseComponent) (config : option RunConfig)
    (kwargs : pydict) (clk : clock) (fs : filesystem) :
  glob (sample_data_dir self) "input_" fs = [] ->
  run pydantic_datetime self SrcNone config kwargs clk fs =
    (Returned (failure_result self
                 (initial_metadata self
                    (match config with Some c => c | None => RunConfig_default end) clk)
                 ("No saved inputs found for " +:+ name self)),
     fs).
Proof.
  intros Hglob.
  unfold run, run_try, bind, resolve_input, _get_latest_envelope, bind, get_files.
  cbn [DataType_eqb st_files]. now rewrite Hglob.
Qed.

(** With such files, the one [max] picks by modification time is loaded,
    the metadata is marked as a replay, and whatever [run] returns then
    carries the mark. *)
Lemma replay_latest_saved_input (self : BaseComponent) (config : option RunConfig)
    (kwargs : pydict) (clk : clock) (fs : filesystem)
    (first : string * file) (rest : list (string * file))
    (e : DataEnvelope) (ts : datetime) :
  glob (sample_data_dir self) "input_" fs = first :: rest ->
  content (snd (max_by_mtime first rest)) = Some (envelope_to_json e) ->
  pydantic_datetime (PyStr (datetime_str (timestamp e))) = Some ts ->
  resolve_input pydantic_datetime self SrcNone clk (initial_state self config clk fs)
    = (Ok (reloaded ts e),
       {| st_metadata := replay_metadata (st_metadata (initial_state self config clk fs));
          st_files := fs |}) /\
  forall r,
    fst (run pydantic_datetime self SrcNone config kwargs clk fs) = Returned r ->
    is_replay (res_metadata r) = true.
Proof.
  intros Hglob Hdoc Hts.
  assert (resolve_input pydantic_datetime self SrcNone clk
            (initial_state self config clk fs)
          = (Ok (reloaded ts e),
             {| st_metadata :=
                  replay_metadata (st_metadata (initial_state self config clk fs));
                st_files := fs |})) as Hres.
  { destruct (max_by_mtime_spec rest first) as [Hin _].
    rewrite <- Hglob in Hin.
    destruct (max_by_mtime first rest) as [n f] eqn:Emax.
    apply glob_lookup in Hin as [Hf _].
    unfold resolve_input, _get_latest_envelope, bind, get_files.
    cbn [DataType_eqb].
    change (st_files (initial_state self config clk fs)) with fs.
    rewrite Hglob, Emax. cbn [fst].
    rewrite (load_sample_saved pydantic_datetime self n (now_envelope clk) ts
               (initial_state self config clk fs) e f Hf Hdoc Hts).
    reflexivity. }
  split; [exact Hres|].
  intros r Hrun. unfold run in Hrun. fold (initial_state self config clk fs) in Hrun.
  unfold run_try, bind in Hrun. rewrite Hres in Hrun.
  destruct (execute _ _ _ _ _ _) as [[r'|ex] s'] eqn:Eexec; cbn [fst] in Hrun.
  - injection Hrun as <-.
    apply execute_ok in Eexec as (output & -> & _). reflexivity.
  - apply adds_samples_execute in Eexec as [_ Hflag].
    destruct (exc_is_Exception ex); [|discriminate].
    injection Hrun as <-. cbn [failure_result res_metadata]. rewrite Hflag. reflexivity.
Qed.

End ReplayFacts.

(** C9, on the code.  The text cleaner is run with input saving on and the
    caller prefix ["exp"]: the input sample is persisted under the name
    [exp_input_<stamp>.json].  The next call, without input source, looks
    for [input_*.json], does not find the sample, and returns the
    no-saved-input failure although an input sample exists; the failure's
    metadata is not marked as a replay. *)
Theorem replay_misses_prefixed_sample :
  exists fs f r,
    run any_datetime (TextPipeline.TextCleaner "/w") (SrcDict hello) (Some prefixed)
        [] clk0 ∅ = (Returned r, fs) /\
    res_error r = None /\
    fs !! "/w/sample_data/text_cleaner/exp_input_20240309_140507_123.json" = Some f /\
    (exists metadata,
       content f = Some (envelope_to_json
                           (sample_envelope (TextPipeline.TextCleaner "/w")
                              COMPONENT_INPUT hello metadata))) /\
    glob "/w/sample_data/text_cleaner" "input_" fs = [] /\
    run any_datetime (TextPipeline.TextCleaner "/w") SrcNone None [] clk0 fs =
      (Returned (failure_result (TextPipeline.TextCleaner "/w")
                   (initial_metadata (TextPipeline.TextCleaner "/w") RunConfig_default
                      clk0)
                   "No saved inputs found for text_cleaner"),
       fs).
Proof.
  set (first_call := run any_datetime (TextPipeline.TextCleaner "/w") (SrcDict hello)
                       (Some prefixed) [] clk0 ∅).
  assert (exists r, fst first_call = Returned r /\ res_error r = None)
    as (r & Hr & Herr).
  { eexists. split; vm_compute; reflexivity. }
  assert (glob "/w/sample_data/text_cleaner" "input_" (snd first_call) = []) as Hglob.
  { vm_compute. reflexivity. }
  exists (snd first_call),
         (sample_file (TextPipeline.TextCleaner "/w") COMPONENT_INPUT hello
            (set_data_lineage []
               (set_input_source_type "dict"
                  (initial_metadata (TextPipeline.TextCleaner "/w") prefixed clk0)))
            10),
         r.
  split; [rewrite <- Hr; apply surjective_pairing|].
  split; [exact Herr|].
  split; [vm_compute; reflexivity|].
  split; [eexists; reflexivity|].
  split; [exact Hglob|].
  exact (replay_without_saved_input any_datetime (TextPipeline.TextCleaner "/w")
           None [] clk0 (snd first_call) Hglob).
Qed.

(** The same two calls without the prefix: the second one replays the
    saved input. *)
Example replay_finds_unprefixed_sample :
  exists fs r1 r2,
    run any_datetime (TextPipeline.TextCleaner "/w") (SrcDict hello)
        (Some (RunConfigPresets.debug true)) [] clk0 ∅ = (Returned r1, fs) /\
    fst (run any_datetime (TextPipeline.TextCleaner "/w") SrcNone None [] clk0 fs)
      = Returned r2 /\
    is_replay (res_metadata r2) = true /\
    input_source_type (res_metadata r2) = Some "latest_saved_input" /\
    res_data r2 = res_data r1.
Proof.
  set (first_call := run any_datetime (TextPipeline.TextCleaner "/w") (SrcDict hello)
                       (Some (RunConfigPresets.debug true)) [] clk0 ∅).
  assert (exists r1 r2,
            fst first_call = Returned r1 /\
            fst (run any_datetime (TextPipeline.TextCleaner "/w") SrcNone None []
                     clk0 (snd first_call)) = Returned r2 /\
            is_replay (res_metadata r2) = true /\
            input_source_type (res_metadata r2) = Some "latest_saved_input" /\
            res_data r2 = res_data r1) as (r1 & r2 & Hr1 & Hrest).
  { eexists _, _. split; [vm_compute; reflexivity|].
    split; [vm_compute; reflexivity|]. repeat split. }
  exists (snd first_call), r1, r2.
  split; [rewrite <- Hr1; apply surjective_pairing | exact Hrest].
Qed.

(** Chaining through the sample store is another matter: the output
    sample is written with the lineage of the producer's input
    ([lineage=metadata.data_lineage]), so a consumer that is handed the
    producing component starts from a lineage without the producer's
    record. *)
Example chain_through_store :
  exists fs r1 out1 r2 out2,
    run any_datetime (TextPipeline.TextLoader "/w") (SrcDict hello)
        (Some (RunConfigPresets.testing true)) [] clk0 ∅ = (Returned r1, fs) /\
    res_envelope r1 = Some out1 /\
    map (dict_get "component") (lineage out1) = [Some "text_loader"] /\
    fst (run any_datetime (TextPipeline.TextCleaner "/w")
             (SrcComponent (TextPipeline.TextLoader "/w")) None [] clk0 fs)
      = Returned r2 /\
    res_envelope r2 = Some out2 /\
    map (dict_get "component") (lineage out2) = [Some "text_cleaner"].
Proof.
  set (first_call := run any_datetime (TextPipeline.TextLoader "/w") (SrcDict hello)
                       (Some (RunConfigPresets.testing true)) [] clk0 ∅).
  assert (exists r1 out1 r2 out2,
            fst first_call = Returned r1 /\
            res_envelope r1 = Some out1 /\
            map (dict_get "component") (lineage out1) = [Some "text_loader"] /\
            fst (run any_datetime (TextPipeline.TextCleaner "/w")
                     (SrcComponent (TextPipeline.TextLoader "/w")) None [] clk0
                     (snd first_call))
              = Returned r2 /\
            res_envelope r2 = Some out2 /\
            map (dict_get "component") (lineage out2) = [Some "text_cleaner"])
    as (r1 & out1 & r2 & out2 & Hr1 & Hrest).
  { eexists _, _, _, _. split; [vm_compute; reflexivity|].
    split; [reflexivity|]. split; [reflexivity|].
    split; [vm_compute; reflexivity|]. split; reflexivity. }
  exists (snd first_call), r1, out1, r2, out2.
  split; [rewrite <- Hr1; apply surjective_pairing | exact Hrest].
Qed.

(** ** The registry *)

Lemma dict_get_set_eq {V : Type} (k : string) (v : V) (d : list (string * V)) :
  dict_get k (dict_set k v d) = Some v.
Proof.
  induction d as [|[k0 v0] d IH]; simpl.
  - now rewrite String.eqb_refl.
  - destruct (String.eqb_spec k0 k) as [-> | Hne]; simpl.
    + now rewrite String.eqb_refl.
    + destruct (String.eqb_spec k0 k); [congruence | exact IH].
Qed.

Lemma dict_get_set_ne {V : Type} (k k' : string) (v : V) (d : list (string * V)) :
  k' <> k -> dict_get k' (dict_set k v d) = dict_get k' d.
Proof.
  intros Hne. induction d as [|[k0 v0] d IH]; simpl.
  - destruct (String.eqb_spec k k'); [congruence | reflexivity].
  - destruct (String.eqb_spec k0 k) as [-> | Hk0]; simpl.
    + destruct (String.eqb_spec k k'); [congruence | reflexivity].
    + destruct (String.eqb_spec k0 k'); [reflexivity | exact IH].
Qed.

Lemma dict_get_none_keys {V : Type} (k : string) (d : list (string * V)) :
  dict_get k d = None <-> k ∉ map fst d.
Proof.
  induction d as [|[k0 v0] d IH]; simpl.
  - split; [intros _ H; inversion H | reflexivity].
  - rewrite not_elem_of_cons. destruct (String.eqb_spec k0 k) as [-> | Hne].
    + split; [discriminate | intros [H _]; congruence].
    + rewrite IH. split; [intros H; split; [congruence | exact H] | intros [_ H]; exact H].
Qed.

Lemma dict_set_keys {V : Type} (k : string) (v : V) (d : list (string * V)) :
  map fst (dict_set k v d) =
  match dict_get k d with
  | Some _ => map fst d
  | None => (map fst d ++ [k])%list
  end.
Proof.
  induction d as [|[k0 v0] d IH]; simpl; [reflexivity|].
  destruct (String.eqb k0 k); simpl; [reflexivity|].
  rewrite IH. now destruct (dict_get k d).
Qed.

(** X1.  [can_connect] answers yes exactly when both names are registered
    and the output schema recorded for the first equals the input schema
    recorded for the second; a yes carries no reason, a no always carries
    one. *)
Theorem can_connect_iff :
  forall (a b : string) (reg : Registry.ComponentRegistry),
    (fst (Registry.can_connect a b reg) = true <->
     exists ia ib,
       dict_get a reg = Some ia /\ dict_get b reg = Some ib /\
       Registry.reg_output_schema ia = Registry.reg_input_schema ib) /\
    (fst (Registry.can_connect a b reg) = true ->
     snd (Registry.can_connect a b reg) = None) /\
    (fst (Registry.can_connect a b reg) = false ->
     is_Some (snd (Registry.can_connect a b reg))).
Proof.
  intros a b reg. unfold Registry.can_connect.
  destruct (dict_get a reg) as [ia|]; [destruct (dict_get b reg) as [ib|]|].
  - destruct (String.eqb_spec (Registry.reg_output_schema ia)
                (Registry.reg_input_schema ib)) as [E | Hne]; cbn [fst snd].
    + split; [split; [eauto | reflexivity] | split; [reflexivity | discriminate]].
    + split; [split; [discriminate | intros (? & ? & [= <-] & [= <-] & ?); congruence]|].
      split; [discriminate | eauto].
  - cbn [fst snd]. split; [split; [discriminate | intros (? & ? & _ & ? & _); discriminate]|].
    split; [discriminate | eauto].
  - cbn [fst snd]. split; [split; [discriminate | intros (? & ? & ? & _); discriminate]|].
    split; [discriminate | eauto].
Qed.

Lemma can_connect_iff_witness :
  fst (Registry.can_connect "text_loader" "text_cleaner"
         (Registry.register_component (TextPipeline.TextCleaner "/w")
            (Registry.register_component (TextPipeline.TextLoader "/w")
               Registry.empty))) = true /\
  snd (Registry.can_connect "text_loader" "text_cleaner"
         (Registry.register_component (TextPipeline.TextCleaner "/w")
            (Registry.register_component (TextPipeline.TextLoader "/w")
               Registry.empty))) = None.
Proof.
  split; [reflexivity|].
  exact (proj1 (proj2 (can_connect_iff "text_loader" "text_cleaner"
                         (Registry.register_component (TextPipeline.TextCleaner "/w")
                            (Registry.register_component (TextPipeline.TextLoader "/w")
                               Registry.empty)))) eq_refl).
Defined.

(** X2.  The sender is looked up first: when it is not registered the
    answer names the sender, whether or not the receiver is registered;
    when only the receiver is missing the answer names the receiver; when
    both are there and the schemas differ the answer names both components
    and both schemas. *)
Theorem can_connect_reasons :
  forall (a b : string) (reg : Registry.ComponentRegistry),
    (dict_get a reg = None ->
     Registry.can_connect a b reg =
       (false, Some ("Component '" +:+ a +:+ "' not registered"))) /\
    (forall ia, dict_get a reg = Some ia -> dict_get b reg = None ->
     Registry.can_connect a b reg =
       (false, Some ("Component '" +:+ b +:+ "' not registered"))) /\
    (forall ia ib,
       dict_get a reg = Some ia -> dict_get b reg = Some ib ->
       Registry.reg_output_schema ia <> Registry.reg_input_schema ib ->
       Registry.can_connect a b reg =
         (false, Some ("Schema mismatch: " +:+ a +:+ " outputs " +:+
                       Registry.reg_output_schema ia +:+ ", " +:+ b +:+
                       " expects " +:+ Registry.reg_input_schema ib))).
Proof.
  intros a b reg. unfold Registry.can_connect. split; [|split].
  - now intros ->.
  - now intros ia -> ->.
  - intros ia ib -> -> Hne. apply String.eqb_neq in Hne. now rewrite Hne.
Qed.

Lemma can_connect_reasons_witness :
  Registry.can_connect "ghost" "also_missing"
    (Registry.register_component (TextPipeline.TextLoader "/w") Registry.empty)
  = (false, Some "Component 'ghost' not registered").
Proof.
  exact (proj1 (can_connect_reasons "ghost" "also_missing"
                  (Registry.register_component (TextPipeline.TextLoader "/w")
                     Registry.empty)) eq_refl).
Defined.

Lemma register_as_dict_set (n : string) (i : Registry.info)
    (reg : Registry.ComponentRegistry) :
  Registry.register n (Registry.reg_version i) (Registry.reg_input_schema i)
    (Registry.reg_output_schema i) reg = dict_set n i reg.
Proof. now destruct i. Qed.

Lemma dict_get_app {V : Type} (k : string) (d1 d2 : list (string * V)) :
  dict_get k (d1 ++ d2)%list =
  match dict_get k d1 with Some v => Some v | None => dict_get k d2 end.
Proof.
  induction d1 as [|[k0 v0] d1 IH]; simpl; [reflexivity|].
  now destruct (String.eqb k0 k).
Qed.

Lemma register_all_lookup (calls : list (string * Registry.info)) :
  forall (reg : Registry.ComponentRegistry) (n : string),
    dict_get n (Registry.register_all calls reg) =
    match dict_get n (rev calls) with
    | Some i => Some i
    | None => dict_get n reg
    end.
Proof.
  induction calls as [|[k i] calls IH]; intros reg n; simpl; [reflexivity|].
  rewrite IH, register_as_dict_set, dict_get_app. simpl.
  destruct (dict_get n (rev calls)); [reflexivity|].
  destruct (String.eqb_spec k n) as [-> | Hne].
  - apply dict_get_set_eq.
  - apply dict_get_set_ne. congruence.
Qed.

Lemma dict_set_nodup {V : Type} (k : string) (v : V) (d : list (string * V)) :
  NoDup (map fst d) -> NoDup (map fst (dict_set k v d)).
Proof.
  intros Hd. rewrite dict_set_keys.
  destruct (dict_get k d) eqn:E; [exact Hd|].
  apply dict_get_none_keys in E.
  apply NoDup_app. split; [exact Hd|]. split.
  - intros x Hx Hk. apply list_elem_of_singleton in Hk as ->. contradiction.
  - apply NoDup_singleton.
Qed.

Lemma register_all_nodup (calls : list (string * Registry.info)) :
  forall reg : Registry.ComponentRegistry,
    NoDup (map fst reg) -> NoDup (map fst (Registry.register_all calls reg)).
Proof.
  induction calls as [|[k i] calls IH]; intros reg Hreg; simpl; [exact Hreg|].
  apply IH. rewrite register_as_dict_set. now apply dict_set_nodup.
Qed.

Lemma dict_get_some_keys {V : Type} (k : string) (d : list (string * V)) :
  is_Some (dict_get k d) <-> k ∈ map fst d.
Proof.
  destruct (decide (k ∈ map fst d)) as [H | H].
  - split; [intros _; exact H | intros _].
    destruct (dict_get k d) eqn:E; [eauto|].
    apply dict_get_none_keys in E. contradiction.
  - apply dict_get_none_keys in H as E. rewrite E.
    split; [intros [? [=]] | contradiction].
Qed.

(** X3.  Registration is an insert, and lookup finds the last one: right
    after [register] the name maps to exactly the version and schemas just
    given, whatever was recorded for it before, and every other name maps to
    what it did; in a registry built by a sequence of [register] calls each
    name carries the data of its last call. *)
Theorem register_last_wins :
  forall (n version input_schema output_schema : string)
         (reg : Registry.ComponentRegistry),
    dict_get n (Registry.register n version input_schema output_schema reg) =
      Some {| Registry.reg_version := version;
              Registry.reg_input_schema := input_schema;
              Registry.reg_output_schema := output_schema |} /\
    (forall n', n' <> n ->
       dict_get n' (Registry.register n version input_schema output_schema reg) =
       dict_get n' reg) /\
    (forall calls n',
       dict_get n' (Registry.register_all calls Registry.empty) =
       dict_get n' (rev calls)).
Proof.
  intros n version input_schema output_schema reg. unfold Registry.register.
  split; [apply dict_get_set_eq|]. split.
  - intros n' Hne. now apply dict_get_set_ne.
  - intros calls n'. rewrite register_all_lookup.
    now destruct (dict_get n' (rev calls)).
Qed.

Lemma register_last_wins_witness :
  dict_get "text_loader"
    (Registry.register "text_cleaner" "2.0.0" "TextInput" "CleanedText"
       (Registry.register_component (TextPipeline.TextLoader "/w") Registry.empty)) =
  dict_get "text_loader"
    (Registry.register_component (TextPipeline.TextLoader "/w") Registry.empty).
Proof.
  apply (proj1 (proj2 (register_last_wins "text_cleaner" "2.0.0" "TextInput"
                         "CleanedText"
                         (Registry.register_component (TextPipeline.TextLoader "/w")
                            Registry.empty)))).
  discriminate.
Defined.

(** X4.  [list_components] of a registry built by [register] calls lists
    every registered name once, in the order of first registration:
    registering a name again leaves the list as it is, registering a new
    name puts it last, and the list holds exactly the names of the calls. *)
Theorem list_components_of_registrations :
  forall (calls : list (string * Registry.info)),
    let reg := Registry.register_all calls Registry.empty in
    NoDup (Registry.list_components reg) /\
    (forall n, n ∈ Registry.list_components reg <-> n ∈ map fst calls) /\
    (forall n version input_schema output_schema,
       Registry.list_components
         (Registry.register n version input_schema output_schema reg) =
       if bool_decide (n ∈ Registry.list_components reg)
       then Registry.list_components reg
       else (Registry.list_components reg ++ [n])%list).
Proof.
  intros calls reg. unfold Registry.list_components. split; [|split].
  - apply register_all_nodup. apply NoDup_nil_2.
  - intros n. subst reg.
    rewrite <- (dict_get_some_keys n (Registry.register_all calls Registry.empty)).
    rewrite register_all_lookup.
    assert (n ∈ map fst calls <-> is_Some (dict_get n (rev calls))) as ->.
    { rewrite dict_get_some_keys, map_rev, !list_elem_of_In. apply in_rev. }
    destruct (dict_get n (rev calls)); [reflexivity|].
    split; intros [? [=]].
  - intros n version input_schema output_schema. unfold Registry.register.
    rewrite dict_set_keys.
    destruct (dict_get n reg) eqn:E.
    + rewrite bool_decide_eq_true_2; [reflexivity|].
      destruct (decide (n ∈ map fst reg)) as [H | H]; [exact H|].
      apply dict_get_none_keys in H. congruence.
    + rewrite bool_decide_eq_false_2; [reflexivity|].
      now apply dict_get_none_keys.
Qed.

(** X5.  Registering a component changes the answer of [can_connect] only
    for pairs that mention its name: for every other pair the verdict and
    the reason are what they were. *)
Theorem can_connect_after_unrelated_register :
  forall (n version input_schema output_schema a b : string)
         (reg : Registry.ComponentRegistry),
    a <> n -> b <> n ->
    Registry.can_connect a b
      (Registry.register n version input_schema output_schema reg) =
    Registry.can_connect a b reg.
Proof.
  intros n version input_schema output_schema a b reg Ha Hb.
  unfold Registry.can_connect, Registry.register.
  now rewrite !dict_get_set_ne.
Qed.

Lemma can_connect_after_unrelated_register_witness :
  Registry.can_connect "text_loader" "text_cleaner"
    (Registry.register "word_counter" "1.0.0" "CleanedText" "WordStats"
       (Registry.register_component (TextPipeline.TextCleaner "/w")
          (Registry.register_component (TextPipeline.TextLoader "/w")
             Registry.empty))) =
  Registry.can_connect "text_loader" "text_cleaner"
    (Registry.register_component (TextPipeline.TextCleaner "/w")
       (Registry.register_component (TextPipeline.TextLoader "/w")
          Registry.empty)).
Proof.
  apply can_connect_after_unrelated_register; discriminate.
Defined.

(** X6.  The registry's check and the engine's check agree.  When the
    registry records for the sender the name of its output schema and for
    the receiver the name of its input schema, as the constructors of the
    example components register them, and the receiver's [prepare_input]
    carries that name, [can_connect] says yes exactly when the receiver's
    [can_process] accepts an output envelope of the sender. *)
Theorem can_connect_agrees_with_can_process :
  forall (sender receiver : BaseComponent) (reg : Registry.ComponentRegistry)
         (from_info to_info : Registry.info)
         (output : model) (metadata : ComponentMetadata) (input : DataEnvelope),
    dict_get (name sender) reg = Some from_info ->
    dict_get (name receiver) reg = Some to_info ->
    Registry.reg_output_schema from_info = cls_name (output_schema sender) ->
    Registry.reg_input_schema to_info = cls_name (input_schema receiver) ->
    cls_name (output_schema sender) <> "" ->
    fn_name (prepare_input receiver) = "prepare_input" ->
    fst (Registry.can_connect (name sender) (name receiver) reg) =
    fst (can_process receiver
           (_create_output_envelope sender output metadata input)).
Proof.
  intros sender receiver reg from_info to_info output metadata input
         Hfrom Hto Hout Hin Hne Hhook.
  unfold Registry.can_connect, can_process. rewrite Hfrom, Hto, Hout, Hin, Hhook.
  cbn [_create_output_envelope schema_name truthy_str or_str fn_name
       BaseComponent_prepare_input].
  destruct (cls_name (output_schema sender)) as [|c out] eqn:E; [congruence|].
  change (String.eqb (String c out) "") with false. cbv iota.
  destruct (String.eqb (String c out) (cls_name (input_schema receiver)));
    reflexivity.
Qed.

Lemma can_connect_agrees_with_can_process_witness :
  fst (Registry.can_connect "text_cleaner" "text_loader"
         (Registry.register_component (TextPipeline.TextCleaner "/w")
            (Registry.register_component (TextPipeline.TextLoader "/w")
               Registry.empty))) =
  fst (can_process (TextPipeline.TextLoader "/w")
         (_create_output_envelope (TextPipeline.TextCleaner "/w")
            {| model_module := "components"; model_class := "CleanedText";
               model_fields := data cleaned_envelope |}
            metadata0 cleaned_envelope)).
Proof.
  apply (can_connect_agrees_with_can_process
           (TextPipeline.TextCleaner "/w") (TextPipeline.TextLoader "/w")
           (Registry.register_component (TextPipeline.TextCleaner "/w")
              (Registry.register_component (TextPipeline.TextLoader "/w")
                 Registry.empty))
           {| Registry.reg_version := "1.0.0";
              Registry.reg_input_schema := "TextInput";
              Registry.reg_output_schema := "CleanedText" |}
           {| Registry.reg_version := "1.0.0";
              Registry.reg_input_schema := "TextInput";
              Registry.reg_output_schema := "TextInput" |});
    try reflexivity; discriminate.
Defined.

(** ** What [run] writes *)

Lemma maybe_save_added (b : bool) (self : BaseComponent) (sample_type : DataType)
    (payload : pydict) (prefix : option string) (now : datetime) (mtime : N)
    (s : run_state) :
  exists s',
    (if b then _save_sample self sample_type payload prefix now mtime else ret tt) s
      = (Ok tt, s') /\
    st_metadata s' = st_metadata s /\
    sample_added b self sample_type payload prefix now mtime (st_metadata s)
                 (st_files s) (st_files s').
Proof.
  destruct b.
  - destruct (_save_sample_spec self sample_type payload prefix now mtime s)
      as (k & Hfree & _ & ->).
    eexists. split; [reflexivity|]. split; [reflexivity|].
    exists k. split; [exact Hfree | reflexivity].
  - exists s. repeat split; reflexivity.
Qed.

Lemma sample_added_size (b : bool) (self : BaseComponent) (sample_type : DataType)
    (payload : pydict) (prefix : option string) (now : datetime) (mtime : N)
    (metadata : ComponentMetadata) (fs fs' : filesystem) :
  sample_added b self sample_type payload prefix now mtime metadata fs fs' ->
  size fs' = (size fs + flag_count b)%nat.
Proof.
  destruct b; cbn [sample_added flag_count].
  - intros (k & Hfree & ->). rewrite map_size_insert_None by exact Hfree. lia.
  - intros ->. lia.
Qed.

Section StoreFacts.

Variable pydantic_datetime : pyval -> option datetime.

(** A successful execution went through both save points. *)
Lemma execute_ok_store (self : BaseComponent) (config : RunConfig) (kwargs : pydict)
    (clk : clock) (envelope : DataEnvelope) (s s' : run_state)
    (r : ComponentResult) :
  execute self config kwargs clk envelope s = (Ok r, s') ->
  exists transformed validated output fs1,
    fn_call (prepare_input self) (data envelope) = Ok transformed /\
    cls_validate (input_schema self) transformed = Ok validated /\
    res_data r = Some output /\
    sample_added (saves_input config) self COMPONENT_INPUT transformed
      (sample_name_prefix config) (now_input_sample clk) (mtime_input_sample clk)
      (set_data_lineage (lineage envelope) (st_metadata s)) (st_files s) fs1 /\
    sample_added (saves_output config) self COMPONENT_OUTPUT (model_dump output)
      (sample_name_prefix config) (now_output_sample clk) (mtime_output_sample clk)
      (set_data_lineage (lineage envelope) (st_metadata s)) fs1 (st_files s').
Proof.
  unfold execute. intros H.
  apply bind_ok in H as (? & s1 & Hset & H). injection Hset as <-.
  apply bind_ok in H as (? & s2 & Hcheck & H).
  assert (s2 = s1) as ->.
  { destruct (negb (skip_compatibility_check config)).
    - destruct (can_process self envelope) as [ok reason].
      destruct (negb ok); [discriminate | now injection Hcheck as <-].
    - now injection Hcheck as <-. }
  clear Hcheck.
  apply bind_ok in H as (transformed & s3 & Hprep & H).
  unfold lift in Hprep. injection Hprep as Hprep <-.
  apply bind_ok in H as (validated & s4 & Hval & H).
  unfold lift in Hval. injection Hval as Hval <-.
  apply bind_ok in H as (? & s5 & Hsave1 & H).
  apply bind_ok in H as (raw & s6 & Hproc & H).
  unfold lift in Hproc. injection Hproc as Hproc <-.
  apply bind_ok in H as (output & s7 & Hout & H).
  assert (s7 = s5) as ->.
  { unfold validate_output in Hout.
    destruct raw as [m|t]; [|discriminate].
    destruct (isinstance_model m (output_schema self)).
    - now injection Hout as _ <-.
    - unfold lift in Hout. now injection Hout as _ <-. }
  apply bind_ok in H as (metadata & s8 & Hget & H). injection Hget as <- <-.
  apply bind_ok in H as (? & s9 & Hsave2 & H).
  injection H as <- <-.
  destruct (maybe_save_added (saves_input config) self COMPONENT_INPUT transformed
              (sample_name_prefix config) (now_input_sample clk)
              (mtime_input_sample clk) s1) as (s5' & E1 & Hmd1 & Hadd1).
  unfold saves_input in E1 at 1. rewrite E1 in Hsave1. injection Hsave1 as _ <-.
  destruct (maybe_save_added (saves_output config) self COMPONENT_OUTPUT
              (model_dump output) (sample_name_prefix config)
              (now_output_sample clk) (mtime_output_sample clk) s5')
    as (s9' & E2 & Hmd2 & Hadd2).
  unfold saves_output in E2 at 1. rewrite E2 in Hsave2. injection Hsave2 as _ <-.
  subst s1. cbn [st_metadata st_files] in *.
  exists transformed, validated, output, (st_files s5').
  split; [exact Hprep|]. split; [exact Hval|]. split; [reflexivity|].
  split; [exact Hadd1|]. rewrite Hmd1 in Hadd2. exact Hadd2.
Qed.

(** A failed execution stopped before the first save point, or between
    the two. *)
Lemma execute_raise_store (self : BaseComponent) (config : RunConfig) (kwargs : pydict)
    (clk : clock) (envelope : DataEnvelope) (s s' : run_state) (e : py_exception) :
  execute self config kwargs clk envelope s = (Raise e, s') ->
  st_files s' = st_files s \/
  exists transformed validated,
    fn_call (prepare_input self) (data envelope) = Ok transformed /\
    cls_validate (input_schema self) transformed = Ok validated /\
    sample_added (saves_input config) self COMPONENT_INPUT transformed
      (sample_name_prefix config) (now_input_sample clk) (mtime_input_sample clk)
      (set_data_lineage (lineage envelope) (st_metadata s)) (st_files s)
      (st_files s').
Proof.
  unfold execute. intros H.
  apply bind_raise in H as [H | (? & s1 & Hset & H)]; [discriminate|].
  injection Hset as _ <-.
  apply bind_raise in H as [H | (? & s2 & Hcheck & H)].
  { left. destruct (negb (skip_compatibility_check config)); [|discriminate].
    destruct (can_process self envelope) as [ok reason].
    destruct (negb ok); [now injection H as _ <- | discriminate]. }
  match type of Hcheck with
  | _ ?st = _ => assert (s2 = st) as ->
  end.
  { destruct (negb (skip_compatibility_check config)).
    - destruct (can_process self envelope) as [ok reason].
      destruct (negb ok); [discriminate | now injection Hcheck as <-].
    - now injection Hcheck as <-. }
  clear Hcheck.
  apply bind_raise in H as [H | (transformed & s3 & Hprep & H)].
  { left. unfold lift in H. now injection H as _ <-. }
  unfold lift in Hprep. injection Hprep as Hprep <-.
  apply bind_raise in H as [H | (validated & s4 & Hval & H)].
  { left. unfold lift in H. now injection H as _ <-. }
  unfold lift in Hval. injection Hval as Hval <-.
  destruct (maybe_save_added (saves_input config) self COMPONENT_INPUT transformed
              (sample_name_prefix config) (now_input_sample clk)
              (mtime_input_sample clk)
              {| st_metadata := set_data_lineage (lineage envelope) (st_metadata s);
                 st_files := st_files s |}) as (s5' & E1 & Hmd1 & Hadd1).
  unfold saves_input in E1 at 1.
  apply bind_raise in H as [H | (? & s5 & Hsave1 & H)];
    [rewrite E1 in H; discriminate|].
  rewrite E1 in Hsave1. injection Hsave1 as _ <-.
  assert (st_files s' = st_files s5') as ->.
  { apply bind_raise in H as [H | (raw & s6 & Hproc & H)].
    { unfold lift in H. now injection H as _ <-. }
    unfold lift in Hproc. injection Hproc as Hproc <-.
    apply bind_raise in H as [H | (output & s7 & Hout & H)].
    { unfold validate_output in H. destruct raw as [m|t].
      - destruct (isinstance_model m (output_schema self)); [discriminate|].
        unfold lift in H. now injection H as _ <-.
      - now injection H as _ <-. }
    apply bind_raise in H as [H | (metadata & s8 & _ & H)]; [discriminate|].
    apply bind_raise in H as [H | (? & s9 & _ & H)]; [|discriminate].
    destruct (maybe_save_added (saves_output config) self COMPONENT_OUTPUT
                (model_dump output) (sample_name_prefix config)
                (now_output_sample clk) (mtime_output_sample clk) s8)
      as (? & E2 & _).
    unfold saves_output in E2 at 1. rewrite E2 in H. discriminate. }
  right. exists transformed, validated.
  split; [exact Hprep|]. split; [exact Hval|]. exact Hadd1.
Qed.

(** The store after a call of [run]: both save points were passed and the
    call returned a success, or the call failed and the store is as it was
    or holds the input sample in addition. *)
Lemma run_store (self : BaseComponent) (src : input_source)
    (config : option RunConfig) (kwargs : pydict) (clk : clock) (fs : filesystem) :
  let c := effective_config config in
  let out := run pydantic_datetime self src config kwargs clk fs in
  (exists r transformed output metadata envelope fs1,
     fst out = Returned r /\
     r = success_result self output metadata envelope /\
     data_lineage metadata = lineage envelope /\
     same_identity (initial_metadata self c clk) metadata /\
     sample_added (saves_input c) self COMPONENT_INPUT transformed
       (sample_name_prefix c) (now_input_sample clk) (mtime_input_sample clk)
       metadata fs fs1 /\
     sample_added (saves_output c) self COMPONENT_OUTPUT (model_dump output)
       (sample_name_prefix c) (now_output_sample clk) (mtime_output_sample clk)
       metadata fs1 (snd out)) \/
  ((forall r, fst out = Returned r -> is_Some (res_error r)) /\
   (snd out = fs \/
    exists transformed metadata,
      same_identity (initial_metadata self c clk) metadata /\
      sample_added (saves_input c) self COMPONENT_INPUT transformed
        (sample_name_prefix c) (now_input_sample clk) (mtime_input_sample clk)
        metadata fs (snd out))).
Proof.
  intros c out. subst out. unfold run. fold (effective_config config). fold c.
  unfold run_try, bind.
  destruct (resolve_input _ _ _ _ _) as [[envelope|e] s1] eqn:Eres.
  - apply resolve_input_state in Eres as [Hfs Hid]. cbn [st_files] in Hfs.
    destruct (execute _ _ _ _ _ _) as [[r|e] s'] eqn:Eexec.
    + left. pose proof Eexec as Hok. apply execute_ok in Hok as (o & -> & _).
      apply execute_ok_store in Eexec
        as (transformed & validated & output & fs1 & _ & _ & Hdata & H1 & H2).
      cbn [success_result res_data] in Hdata. injection Hdata as ->.
      rewrite Hfs in H1.
      exists (success_result self output
                (set_data_lineage (lineage envelope) (st_metadata s1)) envelope),
             transformed, output,
             (set_data_lineage (lineage envelope) (st_metadata s1)), envelope, fs1.
      cbn [fst snd]. split; [reflexivity|]. split; [reflexivity|].
      split; [reflexivity|]. split; [|split; assumption].
      destruct Hid as (? & ? & ? & ? & ?). repeat split; assumption.
    + right.
      assert (st_files s' = fs \/
              exists transformed metadata,
                same_identity (initial_metadata self c clk) metadata /\
                sample_added (saves_input c) self COMPONENT_INPUT transformed
                  (sample_name_prefix c) (now_input_sample clk)
                  (mtime_input_sample clk) metadata fs (st_files s')) as Hstore.
      { apply execute_raise_store in Eexec
          as [Hsame | (transformed & validated & _ & _ & Hadd)].
        - left. congruence.
        - right. rewrite Hfs in Hadd.
          exists transformed,
                 (set_data_lineage (lineage envelope) (st_metadata s1)).
          split; [|exact Hadd].
          destruct Hid as (? & ? & ? & ? & ?). repeat split; assumption. }
      destruct (exc_is_Exception e); cbn [fst snd].
      * split; [|exact Hstore]. intros r [= <-]. cbn. eauto.
      * split; [|exact Hstore]. intros r [=].
  - right. apply resolve_input_state in Eres as [Hfs _]. cbn [st_files] in Hfs.
    destruct (exc_is_Exception e); cbn [fst snd].
    + split; [|left; exact Hfs]. intros r [= <-]. cbn. eauto.
    + split; [|left; exact Hfs]. intros r [=].
Qed.

End StoreFacts.

(** X7.  Sample saving is opt-in: when the configuration's [save_samples]
    is [NONE], and in particular when [run] is called without a
    configuration, the store after the call is the store before it,
    whatever the input source is and however the call ends. *)
Theorem run_without_saving_keeps_store :
  forall (pydantic_datetime : pyval -> option datetime) (self : BaseComponent)
         (src : input_source) (config : option RunConfig) (kwargs : pydict)
         (clk : clock) (fs : filesystem),
    save_samples (effective_config config) = SampleSaveMode.NONE ->
    snd (run pydantic_datetime self src config kwargs clk fs) = fs.
Proof.
  intros pd self src config kwargs clk fs Hnone.
  pose proof (run_store pd self src config kwargs clk fs) as H. cbv zeta in H.
  unfold saves_input, saves_output in H. rewrite Hnone in H.
  cbn [sample_added SampleSaveMode.truthy SampleSaveMode.NONE N.land N.eqb negb] in H.
  destruct H as [(r & t & o & md & env & fs1 & _ & _ & _ & _ & -> & ->)
                | [_ [H | (t & md & _ & ->)]]];
    try reflexivity; exact H.
Qed.

Lemma run_without_saving_keeps_store_witness :
  snd (run any_datetime (TextPipeline.TextCleaner "/w") (SrcDict hello) None [] clk0
           ∅) = ∅.
Proof.
  apply run_without_saving_keeps_store. reflexivity.
Defined.


(** X9.  The input sample is written before [process] runs, so a failing
    [process] leaves it behind.  When [run] is given a mapping that the
    input adaptation and the input schema accept, input saving is on with a
    sample name prefix that has no separator (so that the sample's file lies
    in the component's directory and the write completes), and [process]
    raises an exception of class [Exception], the call returns the failure
    with that exception's text, and the store has gained exactly one file:
    the input sample, under a name that was free, holding the adapted
    payload (not the mapping as it was passed). *)
Theorem failing_process_leaves_input_sample :
  forall (pydantic_datetime : pyval -> option datetime) (self : BaseComponent)
         (d : pydict) (config : option RunConfig) (kwargs : pydict)
         (clk : clock) (fs : filesystem)
         (transformed : pydict) (validated : model) (e : py_exception),
    let c := effective_config config in
    fn_call (prepare_input self) d = Ok transformed ->
    cls_validate (input_schema self) transformed = Ok validated ->
    process self validated kwargs = Raise e ->
    exc_is_Exception e = true ->
    saves_input c = true ->
    plain_prefix (sample_name_prefix c) = true ->
    exists counter,
      let filepath :=
        sample_candidate (sample_data_dir self)
          (sample_base_filename COMPONENT_INPUT (sample_name_prefix c)
             (now_input_sample clk)) counter in
      fs !! filepath = None /\
      run pydantic_datetime self (SrcDict d) config kwargs clk fs =
        (Returned (failure_result self (dict_run_metadata self config clk) (exc_str e)),
         <[filepath := sample_file self COMPONENT_INPUT transformed
                         (dict_run_metadata self config clk)
                         (mtime_input_sample clk)]> fs).
Proof.
  intros pd self d config kwargs clk fs transformed validated e c
         Hprep Hval Hproc Hexc Hsave _.
  destruct (_save_sample_spec self COMPONENT_INPUT transformed (sample_name_prefix c)
              (now_input_sample clk) (mtime_input_sample clk)
              {| st_metadata := dict_run_metadata self config clk; st_files := fs |})
    as (counter & Hfree & _ & Hspec).
  cbv zeta in Hfree, Hspec. cbn [st_files st_metadata] in Hfree, Hspec.
  exists counter. cbv zeta. split; [exact Hfree|].
  unfold run. fold (effective_config config). fold c.
  unfold run_try, resolve_input, _normalize_to_envelope, execute, bind, ret, lift,
    update_metadata.
  cbn [st_metadata st_files lineage data can_process schema_name truthy_str andb
       _get_source_type_name].
  unfold dict_run_metadata in Hspec |- *. fold c in Hspec |- *.
  unfold saves_input in Hsave.
  destruct (skip_compatibility_check c); cbn [negb];
    cbv beta iota; rewrite Hprep, Hval, Hsave; cbv beta iota;
    rewrite Hspec, Hproc; cbv beta iota; rewrite Hexc; reflexivity.
Qed.


Lemma failing_process_leaves_input_sample_witness :
  exists counter,
    (∅ : filesystem) !!
      sample_candidate "/w/sample_data/exploding"
        (sample_base_filename COMPONENT_INPUT None t0) counter = None /\
    run any_datetime Failing.Exploding (SrcDict hello) (Some Failing.saving_inputs)
        [] clk0 ∅ =
      (Returned (failure_result Failing.Exploding
                   (dict_run_metadata Failing.Exploding (Some Failing.saving_inputs)
                      clk0) "boom"),
       <[sample_candidate "/w/sample_data/exploding"
           (sample_base_filename COMPONENT_INPUT None t0) counter :=
         sample_file Failing.Exploding COMPONENT_INPUT hello
           (dict_run_metadata Failing.Exploding (Some Failing.saving_inputs) clk0)
           10]> ∅).
Proof.
  exact (failing_process_leaves_input_sample any_datetime Failing.Exploding hello
           (Some Failing.saving_inputs) [] clk0 ∅ hello
           {| model_module := "components"; model_class := "TextInput";
              model_fields := hello |}
           Failing.boom eq_refl eq_refl eq_refl eq_refl eq_refl eq_refl).
Defined.

(** ** File names of samples *)

Lemma contains_char_app (c : ascii) (a b : string) :
  contains_char c (a +:+ b) = contains_char c a || contains_char c b.
Proof.
  induction a as [|x a IH]; simpl; [reflexivity|].
  destruct (Ascii.eqb x c); [reflexivity | exact IH].
Qed.

Lemma contains_char_substring (c : ascii) (s : string) :
  forall k, contains_char c s = false ->
            contains_char c (String.substring 0 k s) = false.
Proof.
  induction s as [|x s IH]; intros [|k] H; simpl in *; try reflexivity.
  destruct (Ascii.eqb x c); [discriminate | now apply IH].
Qed.

Lemma pretty_N_char_no_slash (x : N) : Ascii.eqb (pretty_N_char x) "/" = false.
Proof. unfold pretty_N_char. now repeat case_match. Qed.

Lemma pretty_N_go_no_slash (x : N) :
  forall s, contains_char "/" (pretty_N_go x s) = contains_char "/" s.
Proof.
  induction (N.lt_wf_0 x) as [x _ IH]. intros s.
  destruct (N.eq_dec x 0) as [-> | Hx].
  - now rewrite pretty_N_go_0.
  - rewrite pretty_N_go_step by lia.
    rewrite IH by (apply N.div_lt; lia).
    cbn [contains_char]. now rewrite pretty_N_char_no_slash.
Qed.

Lemma padded_no_slash (w : nat) (n : N) : contains_char "/" (padded w n) = false.
Proof.
  unfold padded, zfill, decimal, pretty, pretty_N.
  rewrite contains_char_app.
  assert (contains_char "/" (replicate_char (w - String.length
            (if decide (n = 0) then "0" else pretty_N_go n "")) "0") = false) as ->.
  { induction (w - _)%nat as [|k IH]; [reflexivity | exact IH]. }
  destruct (decide (n = 0)); [reflexivity|].
  now rewrite pretty_N_go_no_slash.
Qed.

Lemma stamp_no_slash (t : datetime) :
  contains_char "/" (drop_last 3 (strftime_stamp t)) = false.
Proof.
  unfold drop_last. apply contains_char_substring.
  unfold strftime_stamp.
  rewrite !contains_char_app, !padded_no_slash. reflexivity.
Qed.

Lemma strip_prefix_app (p r : string) : strip_prefix p (p +:+ r) = Some r.
Proof.
  induction p as [|a p IH]; simpl; [now destruct r|].
  now rewrite Ascii.eqb_refl.
Qed.

Lemma startswith_app (p r : string) : startswith p (p +:+ r) = true.
Proof.
  induction p as [|a p IH]; simpl; [now destruct r|].
  now rewrite Ascii.eqb_refl.
Qed.

Lemma rev_app_app (a b acc : string) :
  String.rev_app (a +:+ b) acc = String.rev_app b (String.rev_app a acc).
Proof. revert acc. induction a as [|x a IH]; intros acc; simpl; [reflexivity | apply IH]. Qed.

Lemma rev_app_acc (a acc : string) :
  String.rev_app a acc = String.rev_app a "" +:+ acc.
Proof.
  revert acc. induction a as [|x a IH]; intros acc; simpl; [reflexivity|].
  rewrite (IH (String x acc)), (IH (String x "")).
  now rewrite str_app_assoc.
Qed.

Lemma endswith_app (a p : string) : endswith p (a +:+ p) = true.
Proof.
  unfold endswith, String.rev.
  rewrite rev_app_app, (rev_app_acc p (String.rev_app a "")).
  apply startswith_app.
Qed.

Lemma name_in_dir_join (dir n : string) :
  n <> "" -> contains_char "/" n = false ->
  path_join dir n = dir +:+ "/" +:+ n /\
  name_in_dir dir (path_join dir n) = Some n.
Proof.
  intros Hne Hslash.
  assert (path_join dir n = dir +:+ "/" +:+ n) as E.
  { unfold path_join, is_absolute. destruct n as [|c n]; [congruence|].
    cbn [startswith]. cbn [contains_char] in Hslash.
    destruct (Ascii.eqb_spec c "/") as [-> | Hc]; [discriminate|].
    destruct (Ascii.eqb_spec "/" c) as [<- | _]; [congruence | reflexivity]. }
  split; [exact E|]. rewrite E. unfold name_in_dir.
  rewrite <- str_app_assoc, strip_prefix_app, Hslash.
  destruct n; [congruence | reflexivity].
Qed.

(** The name [_save_sample] gives a sample when the caller passes no
    prefix is one the lookups of the store recognise. *)
Lemma unprefixed_sample_name (sample_type : DataType) (prefix : option string)
    (now : datetime) (counter : N) :
  truthy_str prefix = false ->
  let n := sample_filename (sample_base_filename sample_type prefix now) counter in
  n <> "" /\ contains_char "/" n = false /\
  matches_pattern (glob_prefix sample_type) n = true.
Proof.
  intros Hprefix n. subst n.
  rewrite sample_filename_form, sample_base_filename_form.
  unfold name_prefix. rewrite Hprefix. cbn [String.append].
  assert (contains_char "/" (counter_suffix counter) = false) as Hsuffix.
  { unfold counter_suffix. destruct (N.eqb counter 0); [reflexivity|].
    cbn [String.append contains_char Ascii.eqb Bool.eqb]. apply padded_no_slash. }
  assert (forall kind : string,
            contains_char "/" kind = false ->
            contains_char "/"
              ((kind +:+ "_" +:+ drop_last 3 (strftime_stamp now)) +:+
               counter_suffix counter +:+ ".json") = false) as Hno.
  { intros kind Hkind.
    now rewrite !contains_char_app, Hkind, stamp_no_slash, Hsuffix. }
  unfold matches_pattern, glob_prefix, kind_name.
  destruct (DataType_eqb sample_type COMPONENT_INPUT).
  - split; [discriminate|]. split; [now apply Hno|].
    apply andb_true_iff. split; [apply andb_true_iff; split|].
    + reflexivity.
    + rewrite <- !str_app_assoc. apply endswith_app.
    + apply Nat.leb_le. rewrite !str_app_length. cbn [String.length]. lia.
  - split; [discriminate|]. split; [now apply Hno|].
    apply andb_true_iff. split; [apply andb_true_iff; split|].
    + reflexivity.
    + rewrite <- !str_app_assoc. apply endswith_app.
    + apply Nat.leb_le. rewrite !str_app_length. cbn [String.length]. lia.
Qed.

(** ** Saving, then looking up *)

Lemma glob_elem_iff (dir prefix : string) (fs : filesystem) (n : string) (f : file) :
  (n, f) ∈ glob dir prefix fs <->
  exists p, fs !! p = Some f /\ name_in_dir dir p = Some n /\
            matches_pattern prefix n = true.
Proof.
  unfold glob. rewrite list_elem_of_omap. split.
  - intros ([p f'] & Hin & Hsome). apply elem_of_map_to_list in Hin.
    cbn [fst snd] in Hsome.
    destruct (name_in_dir dir p) as [n'|] eqn:En; [|discriminate].
    destruct (matches_pattern prefix n') eqn:Em; [|discriminate].
    injection Hsome as -> ->. eauto.
  - intros (p & Hp & Hn & Hm). exists (p, f). split.
    + now apply elem_of_map_to_list.
    + cbn [fst snd]. now rewrite Hn, Hm.
Qed.

(** A file that is newer than every listed one is the latest once it is
    written. *)
Lemma latest_after_insert (dir prefix : string) (fs : filesystem) (n : string)
    (f : file) :
  name_in_dir dir (path_join dir n) = Some n ->
  matches_pattern prefix n = true ->
  (forall n' f', (n', f') ∈ glob dir prefix fs -> st_mtime f' < st_mtime f) ->
  exists first rest,
    glob dir prefix (<[path_join dir n := f]> fs) = first :: rest /\
    max_by_mtime first rest = (n, f).
Proof.
  intros Hname Hmatch Hnewer.
  assert ((n, f) ∈ glob dir prefix (<[path_join dir n := f]> fs)) as Hin.
  { apply glob_elem_iff. exists (path_join dir n).
    split; [apply lookup_insert_eq|]. split; assumption. }
  destruct (glob dir prefix (<[path_join dir n := f]> fs)) as [|first rest] eqn:E.
  { inversion Hin. }
  exists first, rest. split; [reflexivity|].
  destruct (max_by_mtime_spec rest first) as [Hmem Hmax].
  destruct (max_by_mtime first rest) as [n' f'].
  specialize (Hmax (n, f) Hin). cbn [snd] in Hmax.
  rewrite <- E in Hmem. apply glob_elem_iff in Hmem as (p & Hp & Hn' & Hm').
  destruct (decide (p = path_join dir n)) as [-> | Hne].
  - rewrite lookup_insert_eq in Hp. injection Hp as <-.
    rewrite Hname in Hn'. now injection Hn' as <-.
  - rewrite lookup_insert_ne in Hp by congruence.
    assert ((n', f') ∈ glob dir prefix fs) as Hold.
    { apply glob_elem_iff. eauto. }
    apply Hnewer in Hold. lia.
Qed.

Section SaveThenLookup.

Variable pydantic_datetime : pyval -> option datetime.

Lemma latest_after_save (self : BaseComponent) (sample_type : DataType)
    (payload : pydict) (prefix : option string) (now now' : datetime) (mtime : N)
    (s : run_state) (ts : datetime) :
  truthy_str prefix = false ->
  (forall n f,
     (n, f) ∈ glob (sample_data_dir self) (glob_prefix sample_type) (st_files s) ->
     st_mtime f < mtime) ->
  pydantic_datetime (PyStr (datetime_str (executed_at (st_metadata s)))) = Some ts ->
  exists s',
    _save_sample self sample_type payload prefix now mtime s = (Ok tt, s') /\
    _get_latest_envelope pydantic_datetime self sample_type now' s' =
      (Ok (Some (reloaded ts (sample_envelope self sample_type payload
                                (st_metadata s)))),
       s').
Proof.
  intros Hprefix Hnewer Hts.
  destruct (_save_sample_spec self sample_type payload prefix now mtime s)
    as (k & _ & _ & Hsave).
  cbv zeta in Hsave. eexists. split; [exact Hsave|].
  destruct (unprefixed_sample_name sample_type prefix now k Hprefix)
    as (Hne & Hslash & Hmatch).
  destruct (name_in_dir_join (sample_data_dir self) _ Hne Hslash) as [_ Hname].
  destruct (latest_after_insert (sample_data_dir self) (glob_prefix sample_type)
              (st_files s) _
              (sample_file self sample_type payload (st_metadata s) mtime)
              Hname Hmatch Hnewer) as (first & rest & Hglob & Hmax).
  unfold _get_latest_envelope, bind, get_files. cbn [st_files].
  fold (glob_prefix sample_type). unfold sample_candidate.
  rewrite Hglob, Hmax. cbn [fst].
  erewrite load_sample_saved.
  - reflexivity.
  - cbn [st_files]. apply lookup_insert_eq.
  - reflexivity.
  - exact Hts.
Qed.

End SaveThenLookup.

(** Once the input is adapted and validated, the input save point is
    passed whatever [process] does. *)
Lemma execute_past_validation (self : BaseComponent) (config : RunConfig)
    (kwargs : pydict) (clk : clock) (envelope : DataEnvelope) (s s' : run_state)
    (o : outcome ComponentResult) (transformed : pydict) (validated : model) :
  skip_compatibility_check config || fst (can_process self envelope) = true ->
  fn_call (prepare_input self) (data envelope) = Ok transformed ->
  cls_validate (input_schema self) transformed = Ok validated ->
  execute self config kwargs clk envelope s = (o, s') ->
  exists fs1,
    sample_added (saves_input config) self COMPONENT_INPUT transformed
      (sample_name_prefix config) (now_input_sample clk) (mtime_input_sample clk)
      (set_data_lineage (lineage envelope) (st_metadata s)) (st_files s) fs1 /\
    (st_files s' = fs1 \/
     exists output,
       sample_added (saves_output config) self COMPONENT_OUTPUT (model_dump output)
         (sample_name_prefix config) (now_output_sample clk) (mtime_output_sample clk)
         (set_data_lineage (lineage envelope) (st_metadata s)) fs1 (st_files s')).
Proof.
  intros Hcheck Hprep Hval. unfold execute, bind, lift, update_metadata.
  assert ((if negb (skip_compatibility_check config)
           then let '(ok, reason) := can_process self envelope in
                if negb ok
                then raise (ValueError
                       ("Component " +:+ name self +:+
                        " cannot process this data: " +:+
                        match reason with Some r => r | None => "None" end))
                else ret tt
           else ret tt)
          = @ret unit tt) as ->.
  { destruct (skip_compatibility_check config); [reflexivity|].
    cbn [orb negb] in Hcheck |- *.
    destruct (can_process self envelope) as [ok reason].
    cbn [fst] in Hcheck. now rewrite Hcheck. }
  unfold ret at 1. cbv beta iota. rewrite Hprep, Hval.
  destruct (maybe_save_added (saves_input config) self COMPONENT_INPUT
              transformed (sample_name_prefix config) (now_input_sample clk)
              (mtime_input_sample clk)
              {| st_metadata := set_data_lineage (lineage envelope) (st_metadata s);
                 st_files := st_files s |}) as (s5 & E1 & Hmd1 & Hadd1).
  unfold saves_input in E1 at 1. rewrite E1.
  cbn [st_metadata st_files] in Hmd1, Hadd1.
  intros H. exists (st_files s5). split; [exact Hadd1|].
  destruct (process self validated kwargs) as [raw|e1];
    [|left; now injection H as _ <-].
  destruct (validate_output self raw s5) as [[output|e2] s7] eqn:Eout.
  - assert (s7 = s5) as ->.
    { unfold validate_output in Eout. destruct raw as [m|t]; [|discriminate].
      destruct (isinstance_model m (output_schema self)).
      - now injection Eout as _ <-.
      - unfold lift in Eout. now injection Eout as _ <-. }
    unfold get_metadata in H. cbv beta iota in H.
    destruct (maybe_save_added (saves_output config) self COMPONENT_OUTPUT
                (model_dump output) (sample_name_prefix config)
                (now_output_sample clk) (mtime_output_sample clk) s5)
      as (s9 & E2 & Hmd2 & Hadd2).
    unfold saves_output in E2 at 1. rewrite E2 in H.
    unfold ret in H. injection H as _ <-.
    right. exists output. rewrite Hmd1 in Hadd2. exact Hadd2.
  - assert (s7 = s5) as ->.
    { unfold validate_output in Eout. destruct raw as [m|t].
      - destruct (isinstance_model m (output_schema self)); [discriminate|].
        unfold lift in Eout. now injection Eout as _ <-.
      - now injection Eout as _ <-. }
    left. now injection H as _ <-.
Qed.

Lemma latest_in_store (dir prefix : string) (fs : filesystem) (n : string) (f : file) :
  fs !! path_join dir n = Some f ->
  name_in_dir dir (path_join dir n) = Some n ->
  matches_pattern prefix n = true ->
  (forall p n' f',
     fs !! p = Some f' -> name_in_dir dir p = Some n' ->
     matches_pattern prefix n' = true ->
     p = path_join dir n \/ st_mtime f' < st_mtime f) ->
  exists first rest,
    glob dir prefix fs = first :: rest /\ max_by_mtime first rest = (n, f).
Proof.
  intros Hf Hname Hmatch Hnewer.
  assert ((n, f) ∈ glob dir prefix fs) as Hin.
  { apply glob_elem_iff. eauto. }
  destruct (glob dir prefix fs) as [|first rest] eqn:E.
  { inversion Hin. }
  exists first, rest. split; [reflexivity|].
  destruct (max_by_mtime_spec rest first) as [Hmem Hmax].
  destruct (max_by_mtime first rest) as [n' f'].
  specialize (Hmax (n, f) Hin). cbn [snd] in Hmax.
  rewrite <- E in Hmem. apply glob_elem_iff in Hmem as (p & Hp & Hn' & Hm').
  destruct (Hnewer p n' f' Hp Hn' Hm') as [-> | Hlt]; [|lia].
  rewrite Hf in Hp. injection Hp as <-.
  rewrite Hname in Hn'. now injection Hn' as <-.
Qed.

Lemma run_dict_store (pydantic_datetime : pyval -> option datetime)
    (self : BaseComponent) (d : pydict) (config : option RunConfig)
    (kwargs : pydict) (clk : clock) (fs : filesystem)
    (transformed : pydict) (validated : model) :
  let c := effective_config config in
  fn_call (prepare_input self) d = Ok transformed ->
  cls_validate (input_schema self) transformed = Ok validated ->
  exists fs1,
    sample_added (saves_input c) self COMPONENT_INPUT transformed
      (sample_name_prefix c) (now_input_sample clk) (mtime_input_sample clk)
      (dict_run_metadata self config clk) fs fs1 /\
    (snd (run pydantic_datetime self (SrcDict d) config kwargs clk fs) = fs1 \/
     exists output,
       sample_added (saves_output c) self COMPONENT_OUTPUT (model_dump output)
         (sample_name_prefix c) (now_output_sample clk) (mtime_output_sample clk)
         (dict_run_metadata self config clk) fs1
         (snd (run pydantic_datetime self (SrcDict d) config kwargs clk fs))).
Proof.
  intros c Hprep Hval. unfold run. fold (effective_config config). fold c.
  change (run_try pydantic_datetime self (SrcDict d) c kwargs clk
            {| st_metadata := initial_metadata self c clk; st_files := fs |})
    with (execute self c kwargs clk (dict_envelope d (now_envelope clk))
            {| st_metadata := set_input_source_type "dict" (initial_metadata self c clk);
               st_files := fs |}).
  destruct (execute self c kwargs clk _ _) as [o s'] eqn:Eexec.
  apply (execute_past_validation self c kwargs clk _ _ s' o transformed validated)
    in Eexec as (fs1 & H1 & H2);
    [|cbn; apply orb_true_r | exact Hprep | exact Hval].
  cbn [lineage dict_envelope st_metadata st_files] in H1, H2.
  exists fs1. split; [exact H1|].
  destruct o as [r|e]; [exact H2|].
  destruct (exc_is_Exception e); exact H2.
Qed.

(** X10.  What is saved as an input can be replayed.  [run] is given a
    mapping that the input adaptation and the input schema accept, with
    input saving on and no name prefix, at a time when the new file is newer
    than every input sample of the component.  Then, however that call ends
    (a success, a failure of [process], an exception that escapes), a later
    call without input source finds the sample: it works on the envelope
    that was saved, as it is read back from its file, which holds the
    adapted payload, and every result it returns is marked as a replay. *)
Theorem saved_input_is_replayed :
  forall (pydantic_datetime : pyval -> option datetime) (self : BaseComponent)
         (d : pydict) (config : option RunConfig) (kwargs : pydict) (clk : clock)
         (fs : filesystem) (transformed : pydict) (validated : model)
         (ts : datetime) (config' : option RunConfig) (kwargs' : pydict)
         (clk' : clock),
    let c := effective_config config in
    let fs' := snd (run pydantic_datetime self (SrcDict d) config kwargs clk fs) in
    fn_call (prepare_input self) d = Ok transformed ->
    cls_validate (input_schema self) transformed = Ok validated ->
    saves_input c = true ->
    truthy_str (sample_name_prefix c) = false ->
    (forall n f, (n, f) ∈ glob (sample_data_dir self) "input_" fs ->
                 st_mtime f < mtime_input_sample clk) ->
    pydantic_datetime (PyStr (datetime_str (now_metadata clk))) = Some ts ->
    resolve_input pydantic_datetime self SrcNone clk'
        (initial_state self config' clk' fs') =
      (Ok (reloaded ts (sample_envelope self COMPONENT_INPUT transformed
                          (dict_run_metadata self config clk))),
       {| st_metadata :=
            replay_metadata (st_metadata (initial_state self config' clk' fs'));
          st_files := fs' |}) /\
    forall r,
      fst (run pydantic_datetime self SrcNone config' kwargs' clk' fs') = Returned r ->
      is_replay (res_metadata r) = true.
Proof.
  intros pd self d config kwargs clk fs transformed validated ts config' kwargs' clk'
         c fs' Hprep Hval Hsave Hprefix Hnewer Hts.
  destruct (run_dict_store pd self d config kwargs clk fs transformed validated
              Hprep Hval) as (fs1 & H1 & H2).
  fold c in H1, H2. fold fs' in H2. rewrite Hsave in H1.
  destruct H1 as (k & Hfree & Hfs1).
  set (base := sample_base_filename COMPONENT_INPUT (sample_name_prefix c)
                 (now_input_sample clk)) in *.
  set (sample := sample_file self COMPONENT_INPUT transformed
                   (dict_run_metadata self config clk) (mtime_input_sample clk)) in *.
  destruct (unprefixed_sample_name COMPONENT_INPUT (sample_name_prefix c)
              (now_input_sample clk) k Hprefix) as (Hne & Hslash & Hmatch).
  fold base in Hne, Hslash, Hmatch.
  destruct (name_in_dir_join (sample_data_dir self) _ Hne Hslash) as [_ Hname].
  unfold sample_candidate in Hfree, Hfs1.
  set (n := sample_filename base k) in *.
  (* the store after the first call holds the sample, and every other
     input sample is older *)
  assert (fs' !! path_join (sample_data_dir self) n = Some sample /\
          forall p n' f',
            fs' !! p = Some f' -> name_in_dir (sample_data_dir self) p = Some n' ->
            matches_pattern "input_" n' = true ->
            p = path_join (sample_data_dir self) n \/
            st_mtime f' < st_mtime sample) as [Hthere Holder].
  { assert (forall p n' f',
              fs1 !! p = Some f' -> name_in_dir (sample_data_dir self) p = Some n' ->
              matches_pattern "input_" n' = true ->
              p = path_join (sample_data_dir self) n \/
              st_mtime f' < st_mtime sample) as Holder1.
    { intros p n' f' Hp Hn' Hm'. subst fs1.
      destruct (decide (p = path_join (sample_data_dir self) n)) as [-> | Hp'];
        [now left | right].
      rewrite lookup_insert_ne in Hp by congruence.
      apply (Hnewer n' f'). apply glob_elem_iff. eauto. }
    destruct H2 as [-> | (output & H2)].
    { split; [subst fs1; apply lookup_insert_eq | exact Holder1]. }
    destruct (saves_output c); cbn [sample_added] in H2;
      [|rewrite H2; split; [subst fs1; apply lookup_insert_eq | exact Holder1]].
    destruct H2 as (k2 & Hfree2 & ->).
    destruct (unprefixed_sample_name COMPONENT_OUTPUT (sample_name_prefix c)
                (now_output_sample clk) k2 Hprefix) as (Hne2 & Hslash2 & Hmatch2).
    destruct (name_in_dir_join (sample_data_dir self) _ Hne2 Hslash2) as [_ Hname2].
    unfold sample_candidate in Hfree2 |- *.
    set (n2 := sample_filename
                 (sample_base_filename COMPONENT_OUTPUT (sample_name_prefix c)
                    (now_output_sample clk)) k2) in *.
    assert (path_join (sample_data_dir self) n2 <> path_join (sample_data_dir self) n)
      as Hdiff.
    { intros E. rewrite E in Hfree2. subst fs1.
      rewrite lookup_insert_eq in Hfree2. discriminate. }
    split.
    - rewrite lookup_insert_ne by exact Hdiff. subst fs1. apply lookup_insert_eq.
    - intros p n' f' Hp Hn' Hm'.
      destruct (decide (p = path_join (sample_data_dir self) n2)) as [-> | Hp'].
      + exfalso. rewrite Hname2 in Hn'. injection Hn' as <-.
        unfold matches_pattern in Hm', Hmatch2.
        apply andb_true_iff in Hm' as [Hm' _]. apply andb_true_iff in Hm' as [Hm' _].
        apply andb_true_iff in Hmatch2 as [Hm2 _].
        apply andb_true_iff in Hm2 as [Hm2 _].
        cbn [glob_prefix DataType_eqb] in Hm2.
        destruct n2 as [|ch rest]; [discriminate|].
        cbn [startswith] in Hm', Hm2.
        destruct (Ascii.eqb_spec "i" ch) as [<- | _]; [discriminate Hm2 | discriminate Hm']. 
      + rewrite lookup_insert_ne in Hp by congruence.
        exact (Holder1 p n' f' Hp Hn' Hm'). }
  destruct (latest_in_store (sample_data_dir self) "input_" fs' n sample
              Hthere Hname Hmatch Holder) as (first & rest & Hglob & Hmax).
  apply (replay_latest_saved_input pd self config' kwargs' clk' fs' first rest
           (sample_envelope self COMPONENT_INPUT transformed
              (dict_run_metadata self config clk)) ts Hglob).
  - rewrite Hmax. reflexivity.
  - exact Hts.
Qed.

Lemma saved_input_is_replayed_witness :
  resolve_input any_datetime (TextPipeline.TextCleaner "/w") SrcNone clk0
    (initial_state (TextPipeline.TextCleaner "/w") None clk0
       (snd (run any_datetime (TextPipeline.TextCleaner "/w") (SrcDict hello)
                 (Some Failing.saving_inputs) [] clk0 ∅))) =
  (Ok (reloaded t0
         (sample_envelope (TextPipeline.TextCleaner "/w") COMPONENT_INPUT hello
            (dict_run_metadata (TextPipeline.TextCleaner "/w")
               (Some Failing.saving_inputs) clk0))),
   {| st_metadata :=
        replay_metadata
          (initial_metadata (TextPipeline.TextCleaner "/w") RunConfig_default clk0);
      st_files :=
        snd (run any_datetime (TextPipeline.TextCleaner "/w") (SrcDict hello)
                 (Some Failing.saving_inputs) [] clk0 ∅) |}).
Proof.
  refine (proj1 (saved_input_is_replayed any_datetime (TextPipeline.TextCleaner "/w")
                   hello (Some Failing.saving_inputs) [] clk0 ∅ hello
                   {| model_module := "components"; model_class := "TextInput";
                      model_fields := hello |}
                   t0 None [] clk0 eq_refl eq_refl eq_refl eq_refl _ eq_refl)).
  intros n f H. unfold glob in H. rewrite map_to_list_empty in H. inversion H.
Defined.

Lemma input_name_is_no_output (n : string) :
  matches_pattern "input_" n = true -> matches_pattern "output_" n = true -> False.
Proof.
  unfold matches_pattern. intros H1 H2.
  apply andb_true_iff in H1 as [H1 _]. apply andb_true_iff in H1 as [H1 _].
  apply andb_true_iff in H2 as [H2 _]. apply andb_true_iff in H2 as [H2 _].
  destruct n as [|ch rest]; [discriminate|].
  cbn [startswith] in H1, H2.
  destruct (Ascii.eqb_spec "i" ch) as [<- | _]; [discriminate H2 | discriminate H1].
Qed.

(** X11.  Handing a component to [run] reads that component's latest
    output sample, and the sample does not carry the producer's own lineage
    record.  After a successful call of the producer with output saving on
    and no name prefix, whose output file is newer than every output sample
    it had, normalising the producer as an input source yields the saved
    output envelope as read back from its file; the lineage of that envelope
    is the lineage of the producer's input, while the envelope of the
    returned result has one more record, the producer's. *)
Theorem saved_output_feeds_next_component :
  forall (pydantic_datetime : pyval -> option datetime)
         (producer consumer : BaseComponent) (src : input_source)
         (config : option RunConfig) (kwargs : pydict) (clk : clock)
         (fs fs' : filesystem) (r : ComponentResult) (ts now : datetime)
         (s : run_state),
    let c := effective_config config in
    run pydantic_datetime producer src config kwargs clk fs = (Returned r, fs') ->
    res_error r = None ->
    saves_output c = true ->
    truthy_str (sample_name_prefix c) = false ->
    (forall n f, (n, f) ∈ glob (sample_data_dir producer) "output_" fs ->
                 st_mtime f < mtime_output_sample clk) ->
    pydantic_datetime (PyStr (datetime_str (now_metadata clk))) = Some ts ->
    st_files s = fs' ->
    exists output out,
      res_data r = Some output /\
      res_envelope r = Some out /\
      lineage out =
        (data_lineage (res_metadata r) ++
         [new_lineage_record producer (res_metadata r)])%list /\
      _normalize_to_envelope pydantic_datetime consumer (SrcComponent producer) now s =
        (Ok (reloaded ts (sample_envelope producer COMPONENT_OUTPUT (model_dump output)
                            (res_metadata r))),
         s) /\
      lineage (reloaded ts (sample_envelope producer COMPONENT_OUTPUT
                              (model_dump output) (res_metadata r))) =
        map dict_of_pairs (data_lineage (res_metadata r)).
Proof.
  intros pd producer consumer src config kwargs clk fs fs' r ts now s c
         Hrun Herr Hsave Hprefix Hnewer Hts Hs.
  pose proof (run_store pd producer src config kwargs clk fs) as H. cbv zeta in H.
  fold c in H. rewrite Hrun in H. cbn [fst snd] in H.
  destruct H as [(r0 & t & output & md & env & fs1 & [= <-] & -> & Hlin & Hid & H1 & H2)
                | [Hfail _]];
    [|destruct (Hfail r eq_refl) as [x Hx]; congruence].
  destruct Hid as (_ & _ & Hat & _). cbn [initial_metadata executed_at] in Hat.
  rewrite Hsave in H2. destruct H2 as (k2 & Hfree2 & Hfs').
  cbn [success_result res_data res_envelope res_metadata].
  exists output, (_create_output_envelope producer output md env).
  split; [reflexivity|]. split; [reflexivity|].
  split; [cbn [_create_output_envelope lineage]; now rewrite Hlin|].
  split; [|reflexivity].
  set (sample := sample_file producer COMPONENT_OUTPUT (model_dump output) md
                   (mtime_output_sample clk)) in *.
  destruct (unprefixed_sample_name COMPONENT_OUTPUT (sample_name_prefix c)
              (now_output_sample clk) k2 Hprefix) as (Hne2 & Hslash2 & Hmatch2).
  destruct (name_in_dir_join (sample_data_dir producer) _ Hne2 Hslash2) as [_ Hname2].
  unfold sample_candidate in Hfree2, Hfs'.
  set (n2 := sample_filename
               (sample_base_filename COMPONENT_OUTPUT (sample_name_prefix c)
                  (now_output_sample clk)) k2) in *.
  cbn [glob_prefix DataType_eqb] in Hmatch2.
  assert (forall p n' f',
            fs' !! p = Some f' -> name_in_dir (sample_data_dir producer) p = Some n' ->
            matches_pattern "output_" n' = true ->
            p = path_join (sample_data_dir producer) n2 \/
            st_mtime f' < st_mtime sample) as Holder.
  { intros p n' f' Hp Hn' Hm'. rewrite Hfs' in Hp.
    destruct (decide (p = path_join (sample_data_dir producer) n2)) as [-> | Hp'];
      [now left | right].
    rewrite lookup_insert_ne in Hp by congruence.
    destruct (saves_input c); cbn [sample_added] in H1.
    - destruct H1 as (k1 & Hfree1 & ->).
      destruct (unprefixed_sample_name COMPONENT_INPUT (sample_name_prefix c)
                  (now_input_sample clk) k1 Hprefix) as (Hne1 & Hslash1 & Hmatch1).
      destruct (name_in_dir_join (sample_data_dir producer) _ Hne1 Hslash1)
        as [_ Hname1].
      unfold sample_candidate in Hp.
      destruct (decide (p = path_join (sample_data_dir producer)
                              (sample_filename
                                 (sample_base_filename COMPONENT_INPUT
                                    (sample_name_prefix c) (now_input_sample clk))
                                 k1))) as [-> | Hp1].
      + exfalso. rewrite Hname1 in Hn'. injection Hn' as <-.
        exact (input_name_is_no_output _ Hmatch1 Hm').
      + rewrite lookup_insert_ne in Hp by congruence.
        apply (Hnewer n' f'). apply glob_elem_iff. eauto.
    - subst fs1. apply (Hnewer n' f'). apply glob_elem_iff. eauto. }
  assert (fs' !! path_join (sample_data_dir producer) n2 = Some sample) as Hthere.
  { rewrite Hfs'. apply lookup_insert_eq. }
  destruct (latest_in_store (sample_data_dir producer) "output_" fs' n2 sample
              Hthere Hname2 Hmatch2 Holder) as (first & rest & Hglob & Hmax).
  cbn [_normalize_to_envelope].
  unfold bind, _get_latest_envelope, bind, get_files. cbn [DataType_eqb].
  rewrite Hs, Hglob, Hmax. cbn [fst].
  rewrite (load_sample_saved pd producer n2 now ts s
             (sample_envelope producer COMPONENT_OUTPUT (model_dump output) md) sample).
  - reflexivity.
  - rewrite Hs. exact Hthere.
  - reflexivity.
  - cbn [sample_envelope timestamp]. rewrite Hat. exact Hts.
Qed.

Lemma saved_output_feeds_next_component_witness :
  exists r output,
    fst (run any_datetime (TextPipeline.TextLoader "/w") (SrcDict hello)
             (Some (RunConfigPresets.testing true)) [] clk0 ∅) = Returned r /\
    res_data r = Some output /\
    _normalize_to_envelope any_datetime (TextPipeline.TextCleaner "/w")
      (SrcComponent (TextPipeline.TextLoader "/w")) t0
      {| st_metadata := metadata0;
         st_files :=
           snd (run any_datetime (TextPipeline.TextLoader "/w") (SrcDict hello)
                    (Some (RunConfigPresets.testing true)) [] clk0 ∅) |} =
      (Ok (reloaded t0
             (sample_envelope (TextPipeline.TextLoader "/w") COMPONENT_OUTPUT
                (model_dump output) (res_metadata r))),
       {| st_metadata := metadata0;
          st_files :=
            snd (run any_datetime (TextPipeline.TextLoader "/w") (SrcDict hello)
                     (Some (RunConfigPresets.testing true)) [] clk0 ∅) |}).
Proof.
  set (first_call := run any_datetime (TextPipeline.TextLoader "/w") (SrcDict hello)
                       (Some (RunConfigPresets.testing true)) [] clk0 ∅).
  assert (exists r, fst first_call = Returned r /\ res_error r = None)
    as (r & Hr & Herr).
  { eexists. split; vm_compute; reflexivity. }
  assert (first_call = (Returned r, snd first_call)) as Hrun.
  { rewrite <- Hr. apply surjective_pairing. }
  assert (forall n f,
            (n, f) ∈ glob (sample_data_dir (TextPipeline.TextLoader "/w")) "output_" ∅ ->
            st_mtime f < mtime_output_sample clk0) as Hnewer.
  { intros n f H. unfold glob in H. rewrite map_to_list_empty in H. inversion H. }
  destruct (saved_output_feeds_next_component any_datetime
              (TextPipeline.TextLoader "/w") (TextPipeline.TextCleaner "/w")
              (SrcDict hello) (Some (RunConfigPresets.testing true)) [] clk0 ∅
              (snd first_call) r t0 t0
              {| st_metadata := metadata0; st_files := snd first_call |}
              Hrun Herr eq_refl eq_refl Hnewer eq_refl eq_refl)
    as (output & out & Hdata & _ & _ & Hnorm & _).
  exists r, output. split; [exact Hr|]. split; [exact Hdata | exact Hnorm].
Defined.

(** ** Sources that name nothing *)

(** X12.  A source that names something the store does not hold is
    reported as a failure, and nothing else happens.  For a file name (as a
    string or as a path) that is not in the component's directory, [run]
    returns the failure ["Sample file not found: <name>"]; for another
    component that has no output sample, it returns ["No output samples
    found for <that component's name>"].  In both cases the store is
    untouched and the metadata of the result is still the initial one: no
    source type is recorded and the call is not marked as a replay.  (The
    file name is one that stands for an entry of the directory; the empty
    name and [.] denote the directory itself, which exists.) *)
Theorem missing_source_is_reported :
  forall (pydantic_datetime : pyval -> option datetime) (self : BaseComponent)
         (config : option RunConfig) (kwargs : pydict) (clk : clock)
         (fs : filesystem),
    let md := initial_metadata self (effective_config config) clk in
    (forall filename src,
       plain_name filename = true ->
       fs !! path_join (sample_data_dir self) filename = None ->
       src = SrcStr filename \/ src = SrcPath filename ->
       run pydantic_datetime self src config kwargs clk fs =
         (Returned (failure_result self md ("Sample file not found: " +:+ filename)),
          fs)) /\
    (forall other,
       glob (sample_data_dir other) "output_" fs = [] ->
       run pydantic_datetime self (SrcComponent other) config kwargs clk fs =
         (Returned (failure_result self md
                      ("No output samples found for " +:+ name other)),
          fs)).
Proof.
  intros pd self config kwargs clk fs md. split.
  - intros filename src _ Hmissing Hsrc.
    assert (load_sample pd self filename (now_envelope clk)
              {| st_metadata := md; st_files := fs |} =
            (Raise (FileNotFoundError ("Sample file not found: " +:+ filename)),
             {| st_metadata := md; st_files := fs |})) as Hload.
    { unfold load_sample, bind, get_files. cbv beta iota zeta.
      rewrite path_join_absolute. cbn [st_files]. now rewrite Hmissing. }
    unfold run. fold (effective_config config). fold md.
    destruct Hsrc as [-> | ->];
      unfold run_try, bind, resolve_input, _normalize_to_envelope, bind;
      rewrite Hload; reflexivity.
  - intros other Hglob.
    unfold run. fold (effective_config config). fold md.
    unfold run_try, bind, resolve_input, _normalize_to_envelope, bind,
      _get_latest_envelope, bind, get_files.
    cbn [DataType_eqb st_files]. rewrite Hglob. reflexivity.
Qed.

Lemma missing_source_is_reported_witness :
  run any_datetime (TextPipeline.TextCleaner "/w") (SrcStr "input_1.json") None []
      clk0 ∅ =
  (Returned (failure_result (TextPipeline.TextCleaner "/w")
               (initial_metadata (TextPipeline.TextCleaner "/w") RunConfig_default clk0)
               "Sample file not found: input_1.json"),
   ∅).
Proof.
  exact (proj1 (missing_source_is_reported any_datetime (TextPipeline.TextCleaner "/w")
                  None [] clk0 ∅)
           "input_1.json" (SrcStr "input_1.json") eq_refl eq_refl
           (or_introl eq_refl)).
Defined.

(** ** The compatibility check inside [run] *)

Lemma resolve_value (pydantic_datetime : pyval -> option datetime)
    (self : BaseComponent) (src : input_source) (clk : clock) (s : run_state)
    (l : list lineage_record) :
  source_lineage src = Some l ->
  exists envelope,
    resolve_input pydantic_datetime self src clk s =
      (Ok envelope,
       {| st_metadata := set_input_source_type (_get_source_type_name src)
                           (st_metadata s);
          st_files := st_files s |}) /\
    lineage envelope = l /\
    schema_name envelope = declared_schema src.
Proof.
  destruct src as [|f|f|e|r|c|m|d|items|t]; cbn [source_lineage]; try discriminate.
  - intros [= <-]. exists e. repeat split.
  - cbn [resolve_input _normalize_to_envelope declared_schema].
    destruct (res_envelope r) as [e|]; intros [= <-]; eexists; repeat split.
  - intros [= <-]. eexists. repeat split.
  - intros [= <-]. eexists. repeat split.
Qed.

(** X13.  A value that declares another schema is turned away before any
    of the component's code runs.  [run] is given a typed value, an
    envelope or a prior result whose declared schema name is not empty and
    is not the name of the component's input schema; the check is not
    skipped and [prepare_input] carries its usual name.  Then [run] returns
    the failure ["Component <name> failed: Component <name> cannot process
    this data: Schema mismatch: expects <input schema>, got <declared>"],
    with the component's name twice, and the store is untouched even when
    sample saving is on. *)
Theorem mismatching_value_is_rejected :
  forall (pydantic_datetime : pyval -> option datetime) (self : BaseComponent)
         (src : input_source) (config : option RunConfig) (kwargs : pydict)
         (clk : clock) (fs : filesystem) (l : list lineage_record)
         (declared : string),
    source_lineage src = Some l ->
    declared_schema src = Some declared ->
    declared <> "" ->
    declared <> cls_name (input_schema self) ->
    skip_compatibility_check (effective_config config) = false ->
    fn_name (prepare_input self) = "prepare_input" ->
    run pydantic_datetime self src config kwargs clk fs =
      (Returned
         (failure_result self (value_run_metadata self config clk src l)
            ("Component " +:+ name self +:+
             " cannot process this data: Schema mismatch: expects " +:+
             cls_name (input_schema self) +:+ ", got " +:+ declared)),
       fs).
Proof.
  intros pd self src config kwargs clk fs l declared
         Hsrc Hdecl Hne Hother Hskip Hhook.
  destruct (resolve_value pd self src clk
              (initial_state self config clk fs) l Hsrc)
    as (envelope & Hres & Hlin & Hschema).
  unfold effective_config in Hskip.
  unfold run. fold (initial_state self config clk fs).
  unfold run_try, bind. rewrite Hres.
  unfold execute, bind, update_metadata. rewrite Hskip. cbn [negb].
  unfold can_process. rewrite Hschema, Hdecl, Hhook.
  cbn [truthy_str or_str fn_name BaseComponent_prepare_input].
  apply String.eqb_neq in Hne, Hother. rewrite Hne, Hother.
  cbn. rewrite Hlin. reflexivity.
Qed.

Lemma mismatching_value_is_rejected_witness :
  run any_datetime (TextPipeline.TextLoader "/w") (SrcEnvelope cleaned_envelope)
      (Some (RunConfigPresets.debug true)) [] clk0 ∅ =
  (Returned
     (failure_result (TextPipeline.TextLoader "/w")
        (value_run_metadata (TextPipeline.TextLoader "/w")
           (Some (RunConfigPresets.debug true)) clk0 (SrcEnvelope cleaned_envelope) [])
        "Component text_loader cannot process this data: Schema mismatch: expects TextInput, got CleanedText"),
   ∅).
Proof.
  apply (mismatching_value_is_rejected any_datetime (TextPipeline.TextLoader "/w")
           (SrcEnvelope cleaned_envelope) (Some (RunConfigPresets.debug true)) []
           clk0 ∅ [] "CleanedText"); try reflexivity; discriminate.
Defined.

(** ** The execution id *)

Section IdentityFacts.

Variable pydantic_datetime : pyval -> option datetime.

(** After its first statement, [execute] leaves the metadata alone. *)
Lemma execute_metadata (self : BaseComponent) (config : RunConfig) (kwargs : pydict)
    (clk : clock) (envelope : DataEnvelope) (s s' : run_state)
    (o : outcome ComponentResult) :
  execute self config kwargs clk envelope s = (o, s') ->
  st_metadata s' = set_data_lineage (lineage envelope) (st_metadata s).
Proof.
  destruct o as [r|e]; intros H.
  - now apply execute_ok in H as (output & _ & Hmd & _).
  - unfold execute in H.
    apply bind_raise in H as [H | (? & s1 & Hset & H)]; [discriminate|].
    injection Hset as _ <-.
    apply bind_raise in H as [H | (? & s2 & Hcheck & H)].
    { destruct (negb (skip_compatibility_check config)); [|discriminate].
      destruct (can_process self envelope) as [ok reason].
      destruct (negb ok); [now injection H as _ <- | discriminate]. }
    match type of Hcheck with
    | _ ?st = _ => assert (s2 = st) as ->
    end.
    { destruct (negb (skip_compatibility_check config)).
      - destruct (can_process self envelope) as [ok reason].
        destruct (negb ok); [discriminate | now injection Hcheck as <-].
      - now injection Hcheck as <-. }
    clear Hcheck.
    apply bind_raise in H as [H | (transformed & s3 & Hprep & H)].
    { unfold lift in H. now injection H as _ <-. }
    unfold lift in Hprep. injection Hprep as Hprep <-.
    apply bind_raise in H as [H | (validated & s4 & Hval & H)].
    { unfold lift in H. now injection H as _ <-. }
    unfold lift in Hval. injection Hval as Hval <-.
    destruct (maybe_save_added (saves_input config) self COMPONENT_INPUT transformed
                (sample_name_prefix config) (now_input_sample clk)
                (mtime_input_sample clk)
                {| st_metadata := set_data_lineage (lineage envelope) (st_metadata s);
                   st_files := st_files s |}) as (s5' & E1 & Hmd1 & _).
    unfold saves_input in E1 at 1.
    apply bind_raise in H as [H | (? & s5 & Hsave1 & H)];
      [rewrite E1 in H; discriminate|].
    rewrite E1 in Hsave1. injection Hsave1 as _ <-.
    cbn [st_metadata] in Hmd1. rewrite <- Hmd1.
    apply bind_raise in H as [H | (raw & s6 & Hproc & H)].
    { unfold lift in H. now injection H as _ <-. }
    unfold lift in Hproc. injection Hproc as Hproc <-.
    apply bind_raise in H as [H | (output & s7 & Hout & H)].
    { unfold validate_output in H. destruct raw as [m|t].
      - destruct (isinstance_model m (output_schema self)); [discriminate|].
        unfold lift in H. now injection H as _ <-.
      - now injection H as _ <-. }
    apply bind_raise in H as [H | (metadata & s8 & _ & H)]; [discriminate|].
    apply bind_raise in H as [H | (? & s9 & _ & H)]; [|discriminate].
    destruct (maybe_save_added (saves_output config) self COMPONENT_OUTPUT
                (model_dump output) (sample_name_prefix config)
                (now_output_sample clk) (mtime_output_sample clk) s8)
      as (? & E2 & _).
    unfold saves_output in E2 at 1. rewrite E2 in H. discriminate.
Qed.

(** The metadata of every returned result is the initial one up to the
    fields the body assigns. *)
Lemma run_returned_identity (self : BaseComponent) (src : input_source)
    (config : option RunConfig) (kwargs : pydict) (clk : clock) (fs : filesystem)
    (r : ComponentResult) :
  fst (run pydantic_datetime self src config kwargs clk fs) = Returned r ->
  same_identity (initial_metadata self (effective_config config) clk) (res_metadata r).
Proof.
  unfold run. fold (initial_state self config clk fs). unfold run_try, bind.
  destruct (resolve_input _ _ _ _ _) as [[envelope|e] s1] eqn:Eres;
    apply resolve_input_state in Eres as [_ Hid].
  - destruct (execute _ _ _ _ _ _) as [[r'|e] s'] eqn:Eexec.
    + intros [= <-]. apply execute_ok in Eexec as (output & -> & _).
      cbn [success_result res_metadata].
      destruct Hid as (? & ? & ? & ? & ?). repeat split; assumption.
    + apply execute_metadata in Eexec.
      destruct (exc_is_Exception e); [|discriminate].
      intros [= <-]. cbn [res_metadata]. rewrite Eexec.
      destruct Hid as (? & ? & ? & ? & ?). repeat split; assumption.
  - destruct (exc_is_Exception e); [|discriminate].
    intros [= <-]. exact Hid.
Qed.

End IdentityFacts.

(** X14.  One execution id marks everything a call of [run] produces.
    The id is the one the configuration supplies, and ["local_run"] when it
    supplies none or the empty string.  Every returned result, success or
    failure, carries it in its metadata; the output envelope of a success
    carries it, and so does the lineage record the call appends; every file
    the call adds to the store holds an envelope that carries it. *)
Theorem execution_id_marks_everything :
  forall (pydantic_datetime : pyval -> option datetime) (self : BaseComponent)
         (src : input_source) (config : option RunConfig) (kwargs : pydict)
         (clk : clock) (fs : filesystem),
    let id := or_str (supplied_execution_id config) "local_run" in
    let out := run pydantic_datetime self src config kwargs clk fs in
    (forall r, fst out = Returned r ->
       execution_id (res_metadata r) = Some id /\
       forall envelope, res_envelope r = Some envelope ->
         env_execution_id envelope = Some id /\
         exists record, last (lineage envelope) = Some record /\
                        dict_get "execution_id" record = Some id) /\
    (forall p f, snd out !! p = Some f -> fs !! p = None ->
       exists e, content f = Some (envelope_to_json e) /\
                 env_execution_id e = Some id).
Proof.
  intros pd self src config kwargs clk fs id out.
  assert (forall md,
            same_identity (initial_metadata self (effective_config config) clk) md ->
            execution_id md = Some id) as Hid.
  { intros md (_ & _ & _ & -> & _). cbn [initial_metadata execution_id].
    subst id. now destruct config. }
  assert (id <> "") as Hne.
  { subst id. unfold or_str.
    destruct (supplied_execution_id config) as [x|]; [|discriminate].
    destruct (String.eqb_spec x ""); [discriminate | assumption]. }
  split.
  - intros r Hr.
    pose proof (run_returned_identity pd self src config kwargs clk fs r Hr) as Hsame.
    split; [now apply Hid|].
    intros envelope Henv.
    destruct (run_success pd self src config kwargs clk fs r envelope Hr Henv)
      as (input & s1 & output & md & _ & Hsame' & _ & -> & ->).
    cbn [_create_output_envelope env_execution_id lineage].
    split; [now apply Hid|].
    exists (new_lineage_record self md). split; [apply last_snoc|].
    unfold new_lineage_record. cbn [dict_get String.eqb Ascii.eqb Bool.eqb].
    rewrite (Hid md Hsame'). unfold or_str.
    apply String.eqb_neq in Hne. now rewrite Hne.
  - intros p f Hp Hnew.
    pose proof (run_store pd self src config kwargs clk fs) as H. cbv zeta in H.
    fold out in H.
    assert (forall b kind payload now mtime md (fs0 fs1 : filesystem),
              same_identity (initial_metadata self (effective_config config) clk) md ->
              sample_added b self kind payload
                (sample_name_prefix (effective_config config)) now mtime md fs0 fs1 ->
              fs1 !! p = Some f ->
              fs0 !! p = Some f \/
              exists e, content f = Some (envelope_to_json e) /\
                        env_execution_id e = Some id) as Hstep.
    { intros b kind payload now mtime md fs0 fs1 Hsame Hadd Hf.
      destruct b; cbn [sample_added] in Hadd; [|subst fs1; now left].
      destruct Hadd as (k & _ & ->).
      destruct (decide (p = sample_candidate (sample_data_dir self)
                              (sample_base_filename kind
                                 (sample_name_prefix (effective_config config)) now) k))
        as [-> | Hp'].
      - right. rewrite lookup_insert_eq in Hf. injection Hf as <-.
        eexists. split; [reflexivity|].
        cbn [sample_envelope env_execution_id]. now apply Hid.
      - left. now rewrite lookup_insert_ne in Hf by congruence. }
    destruct H as [(r & t & o & md & env & fs1 & _ & _ & _ & Hsame & H1 & H2)
                  | [_ [Hsame | (t & md & Hsame & H1)]]].
    + destruct (Hstep _ _ _ _ _ _ _ _ Hsame H2 Hp) as [Hp1 | Hdone]; [|exact Hdone].
      destruct (Hstep _ _ _ _ _ _ _ _ Hsame H1 Hp1) as [Hp0 | Hdone]; [|exact Hdone].
      congruence.
    + rewrite Hsame in Hp. congruence.
    + destruct (Hstep _ _ _ _ _ _ _ _ Hsame H1 Hp) as [Hp0 | Hdone]; [|exact Hdone].
      congruence.
Qed.

Lemma execution_id_marks_everything_witness :
  exists r,
    fst (run any_datetime (TextPipeline.TextLoader "/w") (SrcDict hello)
             (Some (RunConfigPresets.production "job-7")) [] clk0 ∅) = Returned r /\
    execution_id (res_metadata r) = Some "job-7".
Proof.
  assert (exists r,
            fst (run any_datetime (TextPipeline.TextLoader "/w") (SrcDict hello)
                     (Some (RunConfigPresets.production "job-7")) [] clk0 ∅)
            = Returned r) as (r & Hr).
  { eexists. vm_compute. reflexivity. }
  exists r. split; [exact Hr|].
  exact (proj1 (proj1 (execution_id_marks_everything any_datetime
                         (TextPipeline.TextLoader "/w") (SrcDict hello)
                         (Some (RunConfigPresets.production "job-7")) [] clk0 ∅)
                  r Hr)).
Defined.

(** ** The recorded source type *)

Section SourceTypeFacts.

Variable pydantic_datetime : pyval -> option datetime.

Lemma resolve_input_metadata (self : BaseComponent) (src : input_source)
    (clk : clock) (s s' : run_state) (o : outcome DataEnvelope) :
  resolve_input pydantic_datetime self src clk s = (o, s') ->
  match o with
  | Ok _ =>
      input_source_type (st_metadata s') = Some (source_label src) /\
      is_replay (st_metadata s') =
        (if is_replay_source src then true else is_replay (st_metadata s))
  | Raise _ => s' = s
  end.
Proof.
  assert (forall t : string,
    (let* envelope := _normalize_to_envelope pydantic_datetime self src
                        (now_envelope clk) in
     let* _ := update_metadata (set_input_source_type t) in
     ret envelope) s = (o, s') ->
    match o with
    | Ok _ => input_source_type (st_metadata s') = Some t /\
              is_replay (st_metadata s') = is_replay (st_metadata s)
    | Raise _ => s' = s
    end) as Hnorm.
  { intros t. unfold bind.
    destruct (_normalize_to_envelope _ _ _ _ s) as [[e|e] s1] eqn:E;
      apply _normalize_to_envelope_state in E; subst s1.
    - intros [= <- <-]. split; reflexivity.
    - now intros [= <- <-]. }
  destruct src; try exact (Hnorm _).
  cbn [resolve_input]. unfold bind.
  destruct (_get_latest_envelope _ _ _ _ s) as [[[e|]|e] s1] eqn:E;
    apply _get_latest_envelope_state in E; subst s1; intros [= <- <-];
    try reflexivity; split; reflexivity.
Qed.

End SourceTypeFacts.

Lemma source_label_is_not_dead (src : input_source) :
  source_label src <> "component_result" /\ source_label src <> "data_envelope".
Proof.
  destruct src; cbn [source_label _get_source_type_name]; split; discriminate.
Qed.

(** X15.  What [run] records about its input.  A success is marked as a
    replay exactly when [run] was called without input source, and its
    [input_source_type] is ["latest_saved_input"] then, and the name
    [_get_source_type_name] gives the source otherwise.  A prior result and
    an envelope are pydantic models, and the test for models comes first:
    they are recorded as ["model:ComponentResult"] and
    ["model:DataEnvelope"].  The labels ["component_result"] and
    ["data_envelope"] are never recorded, in no returned result. *)
Theorem recorded_source_type :
  forall (pydantic_datetime : pyval -> option datetime) (self : BaseComponent)
         (src : input_source) (config : option RunConfig) (kwargs : pydict)
         (clk : clock) (fs : filesystem) (r : ComponentResult),
    fst (run pydantic_datetime self src config kwargs clk fs) = Returned r ->
    (res_error r = None ->
       input_source_type (res_metadata r) = Some (source_label src) /\
       is_replay (res_metadata r) = is_replay_source src) /\
    (forall r0 e, src = SrcResult r0 \/ src = SrcEnvelope e ->
       res_error r = None ->
       input_source_type (res_metadata r) =
         Some (match src with
               | SrcResult _ => "model:ComponentResult"
               | _ => "model:DataEnvelope"
               end)) /\
    input_source_type (res_metadata r) <> Some "component_result" /\
    input_source_type (res_metadata r) <> Some "data_envelope".
Proof.
  intros pd self src config kwargs clk fs r.
  unfold run. fold (initial_state self config clk fs). unfold run_try, bind.
  destruct (resolve_input _ _ _ _ _) as [[envelope|e] s1] eqn:Eres;
    apply resolve_input_metadata in Eres.
  - destruct Eres as [Hlabel Hreplay].
    cbn [initial_state st_metadata initial_metadata is_replay] in Hreplay.
    destruct (source_label_is_not_dead src) as [Hdead1 Hdead2].
    destruct (execute _ _ _ _ _ _) as [[r'|e] s'] eqn:Eexec.
    + intros [= <-]. apply execute_ok in Eexec as (output & -> & _).
      cbn [success_result res_metadata res_error set_data_lineage
           input_source_type is_replay].
      rewrite Hlabel, Hreplay.
      split; [intros _; split; [reflexivity | now destruct (is_replay_source src)]|].
      split; [intros r0 e0 [-> | ->] _; reflexivity|].
      split; congruence.
    + apply execute_metadata in Eexec.
      destruct (exc_is_Exception e); [|discriminate].
      intros [= <-]. cbn [res_metadata res_error]. rewrite Eexec.
      cbn [set_data_lineage input_source_type]. rewrite Hlabel.
      split; [discriminate|]. split; [discriminate|]. split; congruence.
  - subst s1. destruct (exc_is_Exception e); [|discriminate].
    intros [= <-]. cbn [res_metadata res_error initial_state st_metadata
                        initial_metadata input_source_type].
    split; [discriminate|]. split; [discriminate|]. split; discriminate.
Qed.

Lemma recorded_source_type_witness :
  exists r,
    fst (run any_datetime (TextPipeline.TextLoader "/w") (SrcEnvelope cleaned_envelope)
             (Some (RunConfigPresets.production "job-7")) [] clk0 ∅) = Returned r /\
    input_source_type (res_metadata r) <> Some "data_envelope".
Proof.
  assert (exists r,
            fst (run any_datetime (TextPipeline.TextLoader "/w")
                     (SrcEnvelope cleaned_envelope)
                     (Some (RunConfigPresets.production "job-7")) [] clk0 ∅)
            = Returned r) as (r & Hr).
  { eexists. vm_compute. reflexivity. }
  exists r. split; [exact Hr|].
  exact (proj2 (proj2 (proj2 (recorded_source_type any_datetime
                                (TextPipeline.TextLoader "/w")
                                (SrcEnvelope cleaned_envelope)
                                (Some (RunConfigPresets.production "job-7")) []
                                clk0 ∅ r Hr)))).
Defined.

(** ** The text cleaner: white space *)

Lemma str_rev_length (s : string) : String.length (String.rev s) = String.length s.
Proof.
  unfold String.rev.
  assert (forall acc, String.length (String.rev_app s acc) =
                      (String.length s + String.length acc)%nat) as H.
  { induction s as [|c s IH]; intros acc; simpl; [reflexivity|].
    rewrite IH. simpl. lia. }
  rewrite H. simpl. lia.
Qed.

Lemma str_rev_cons (c : ascii) (s : string) :
  String.rev (String c s) = String.rev s +:+ String c "".
Proof. unfold String.rev. simpl. apply rev_app_acc. Qed.

Lemma all_chars_app (p : ascii -> bool) (a b : string) :
  all_chars p (a +:+ b) = all_chars p a && all_chars p b.
Proof.
  induction a as [|c a IH]; simpl; [reflexivity|].
  now rewrite IH, andb_assoc.
Qed.

Lemma all_chars_rev (p : ascii -> bool) (s : string) :
  all_chars p (String.rev s) = all_chars p s.
Proof.
  induction s as [|c s IH]; [reflexivity|].
  rewrite str_rev_cons, all_chars_app, IH. simpl.
  rewrite andb_true_r. apply andb_comm.
Qed.

Lemma nonspace_app (a b : string) : nonspace (a +:+ b) = nonspace a +:+ nonspace b.
Proof.
  induction a as [|c a IH]; simpl; [reflexivity|].
  destruct (TextPipeline.isspace c); simpl; now rewrite IH.
Qed.

Lemma nonspace_word (w : string) :
  all_chars (fun c => negb (TextPipeline.isspace c)) w = true -> nonspace w = w.
Proof.
  induction w as [|c w IH]; simpl; [reflexivity|].
  intros H. apply andb_true_iff in H as [Hc Hw].
  destruct (TextPipeline.isspace c); [discriminate|]. now rewrite IH.
Qed.

Lemma str_app_nil_r (s : string) : s +:+ "" = s.
Proof. induction s as [|c s IH]; simpl; [reflexivity | now rewrite IH]. Qed.

Lemma join_cons (sep w : string) (rest : list string) :
  TextPipeline.join sep (w :: rest) =
  match rest with
  | [] => w
  | _ :: _ => w +:+ sep +:+ TextPipeline.join sep rest
  end.
Proof. now destruct rest. Qed.

(** The words [split] finds, joined by single spaces: no longer than the
    text, white space only as the space character, and the same
    characters outside white space. *)
Lemma split_go_spec (s : string) :
  forall cur : option string,
    let w := match cur with Some w => w | None => "" end in
    let joined := TextPipeline.join " " (TextPipeline.split_go cur s) in
    all_chars (fun c => negb (TextPipeline.isspace c)) w = true ->
    (String.length joined <= String.length w + String.length s)%nat /\
    all_chars (fun c => negb (TextPipeline.isspace c) || Ascii.eqb c " ") joined = true /\
    nonspace joined = String.rev w +:+ nonspace s.
Proof.
  assert (forall w, all_chars (fun c => negb (TextPipeline.isspace c)) w = true ->
                    all_chars (fun c => negb (TextPipeline.isspace c) || Ascii.eqb c " ")
                      (String.rev w) = true) as Hword.
  { intros w Hw. rewrite all_chars_rev. revert Hw.
    induction w as [|c w IH]; simpl; [reflexivity|].
    intros H. apply andb_true_iff in H as [-> H]. simpl. now apply IH. }
  induction s as [|c s IH]; intros cur w joined Hw; subst joined.
  - cbn [TextPipeline.split_go]. destruct cur as [w'|]; cbn [TextPipeline.join nonspace].
    + subst w. rewrite str_rev_length, str_app_nil_r.
      split; [lia|]. split; [now apply Hword|].
      apply nonspace_word. now rewrite all_chars_rev.
    + subst w. repeat split. cbn. lia.
  - cbn [TextPipeline.split_go nonspace String.length].
    destruct (TextPipeline.isspace c) eqn:Hc.
    + destruct (IH None eq_refl) as (Hlen & Hall & Hns).
      cbn [String.length String.rev String.rev_app String.append] in Hlen, Hns.
      destruct cur as [w'|]; subst w.
      * rewrite join_cons.
        destruct (TextPipeline.split_go None s) as [|x rest] eqn:Hrest.
        -- cbn [TextPipeline.join nonspace] in Hns. rewrite <- Hns, str_app_nil_r.
           rewrite str_rev_length. split; [lia|]. split; [now apply Hword|].
           apply nonspace_word. now rewrite all_chars_rev.
        -- rewrite !str_app_length, str_rev_length. cbn [String.length].
           split; [lia|]. split.
           ++ rewrite !all_chars_app, Hword, Hall by exact Hw. reflexivity.
           ++ rewrite !nonspace_app, Hns. cbn [nonspace TextPipeline.isspace].
              rewrite nonspace_word by (now rewrite all_chars_rev). reflexivity.
      * split; [cbn [String.length]; lia|]. split; [exact Hall | exact Hns].
    + destruct (IH (Some (String c w))) as (Hlen & Hall & Hns).
      { cbn [all_chars]. now rewrite Hc, Hw. }
      cbn [String.length] in Hlen.
      assert (TextPipeline.split_go
                (Some (String c match cur with Some w0 => w0 | None => "" end)) s
              = TextPipeline.split_go (Some (String c w)) s) as -> by reflexivity.
      split; [lia|]. split; [exact Hall|].
      rewrite Hns, str_rev_cons, str_app_assoc. reflexivity.
Qed.

(** ** The text cleaner: characters *)

Ltac ascii_cases c := destruct c as [[] [] [] [] [] [] [] []].

Lemma lower_char_isspace (c : ascii) :
  TextPipeline.isspace (TextPipeline.lower_char c) = TextPipeline.isspace c.
Proof. ascii_cases c; reflexivity. Qed.

Lemma lower_char_space (c : ascii) :
  TextPipeline.isspace c = true -> TextPipeline.lower_char c = c.
Proof. ascii_cases c; intros H; try reflexivity; discriminate H. Qed.

Lemma kept_plain (c : ascii) :
  TextPipeline.kept c = true ->
  negb (TextPipeline.isspace c) || Ascii.eqb c " " = true ->
  plain_char c = true.
Proof. ascii_cases c; intros H1 H2; try reflexivity; discriminate. Qed.

Lemma lower_length (s : string) :
  String.length (TextPipeline.lower s) = String.length s.
Proof. induction s as [|c s IH]; simpl; [reflexivity | now rewrite IH]. Qed.

Lemma lower_spaces (s : string) :
  all_chars (fun c => negb (TextPipeline.isspace c) || Ascii.eqb c " ") s = true ->
  all_chars (fun c => negb (TextPipeline.isspace c) || Ascii.eqb c " ")
    (TextPipeline.lower s) = true.
Proof.
  induction s as [|c s IH]; [reflexivity|].
  cbn [all_chars TextPipeline.lower]. intros H.
  apply andb_true_iff in H as [Hc Hs]. rewrite (IH Hs), andb_true_r.
  rewrite lower_char_isspace.
  destruct (TextPipeline.isspace c) eqn:E; [|reflexivity].
  now rewrite (lower_char_space c E).
Qed.

Lemma remove_special_length (s : string) :
  (String.length (TextPipeline.remove_special s) <= String.length s)%nat.
Proof.
  induction s as [|c s IH]; simpl; [lia|].
  destruct (TextPipeline.kept c); simpl; lia.
Qed.

Lemma remove_special_plain (s : string) :
  all_chars (fun c => negb (TextPipeline.isspace c) || Ascii.eqb c " ") s = true ->
  all_chars plain_char (TextPipeline.remove_special s) = true.
Proof.
  induction s as [|c s IH]; [reflexivity|].
  cbn [all_chars TextPipeline.remove_special]. intros H.
  apply andb_true_iff in H as [Hc Hs].
  destruct (TextPipeline.kept c) eqn:Hk; [|now apply IH].
  cbn [all_chars]. now rewrite (kept_plain c Hk Hc), (IH Hs).
Qed.

(** Two texts with the same lower-case form and the same characters
    outside white space are the same text. *)
Lemma lower_nonspace_inj (a : string) :
  forall b, TextPipeline.lower a = TextPipeline.lower b ->
            nonspace a = nonspace b -> a = b.
Proof.
  induction a as [|x a IH]; intros [|y b]; cbn [TextPipeline.lower];
    try discriminate; [reflexivity|].
  intros [= Hxy Hab]. cbn [nonspace].
  pose proof (lower_char_isspace x) as Hx. pose proof (lower_char_isspace y) as Hy.
  rewrite Hxy in Hx. rewrite Hx in Hy.
  destruct (TextPipeline.isspace x) eqn:Ex; rewrite <- Hy.
  - intros Hns. rewrite <- (lower_char_space x Ex), Hxy.
    rewrite (lower_char_space y) by congruence.
    f_equal. now apply IH.
  - intros [= -> Hns]. f_equal. now apply IH.
Qed.

Lemma normalised_iff_lower (original : string) :
  String.eqb (TextPipeline.lower (TextPipeline.join " " (TextPipeline.split original)))
             (TextPipeline.lower original) =
  String.eqb (TextPipeline.join " " (TextPipeline.split original)) original.
Proof.
  destruct (String.eqb_spec (TextPipeline.join " " (TextPipeline.split original))
              original) as [E | Hne].
  - rewrite E. apply String.eqb_refl.
  - apply String.eqb_neq. intros Hlow. apply Hne.
    apply lower_nonspace_inj; [exact Hlow|].
    destruct (split_go_spec original None eq_refl) as (_ & _ & Hns).
    exact Hns.
Qed.

(** ** The text cleaner: what [process] returns *)

Lemma TextInput_validated (d : pydict) (input : model) :
  cls_validate TextPipeline.TextInput d = Ok input ->
  exists original source,
    dict_get "text" d = Some (PyStr original) /\
    model_fields input = [("text", PyStr original); ("source", source)] /\
    TextPipeline.validate_source (Some source) = Some source.
Proof.
  cbn [cls_validate TextPipeline.TextInput].
  destruct (dict_get "text" d) as [[| | | |t| | |]|]; try discriminate.
  destruct (dict_get "source" d) as [[| | | |s| | |]|];
    cbn [TextPipeline.validate_source]; try discriminate;
    intros [= <-]; eexists _, _; repeat split.
Qed.

Lemma cleaned_text_length (original : string) :
  (String.length (cleaned_text original) <= String.length original)%nat.
Proof.
  destruct (split_go_spec original None eq_refl) as (Hlen & _ & _).
  cbn [String.length] in Hlen. fold (TextPipeline.split original) in Hlen.
  pose proof (remove_special_length
                (TextPipeline.lower
                   (TextPipeline.join " " (TextPipeline.split original)))) as H.
  rewrite lower_length in H. fold (cleaned_text original) in H. lia.
Qed.

Lemma TextCleaner_process_validated (input : model) (original : string)
    (source : pyval) :
  model_fields input = [("text", PyStr original); ("source", source)] ->
  TextPipeline.validate_source (Some source) = Some source ->
  TextPipeline.TextCleaner_process input [] =
    Ok (ObjModel {| model_module := "components"; model_class := "CleanedText";
                    model_fields :=
                      CleanedText_fields (cleaned_text original) source
                        (reported_changes original) |}).
Proof.
  intros Hfields Hsource.
  unfold TextPipeline.TextCleaner_process, TextPipeline.no_kwargs, reported_changes.
  rewrite Hfields. cbn [dict_get String.eqb Ascii.eqb Bool.eqb fst snd].
  cbv zeta. rewrite normalised_iff_lower. fold (cleaned_text original).
  pose proof (cleaned_text_length original) as Hle.
  destruct (String.eqb (TextPipeline.join " " (TextPipeline.split original)) original);
    destruct (Nat.eqb_spec (String.length (cleaned_text original))
                (String.length original)) as [El | Hl];
    destruct (Nat.ltb_spec (String.length (cleaned_text original))
                (String.length original)) as [Hlt | Hge]; try lia;
    cbn [negb app cls_validate TextPipeline.CleanedText dict_get String.eqb
         Ascii.eqb Bool.eqb fst snd]; rewrite Hsource; reflexivity.
Qed.

(** X16.  What the text cleaner returns.  For every validated [TextInput]
    whose text is ASCII, [TextCleaner.process] returns a [CleanedText]
    whose text holds only lower-case letters, digits and the space
    character (no tab, no line break, no upper-case letter), is never longer
    than the input text, and whose source is the input's source. *)
Theorem text_cleaner_output :
  forall (d : pydict) (input : model) (original : string),
    cls_validate TextPipeline.TextInput d = Ok input ->
    dict_get "text" d = Some (PyStr original) ->
    isascii original = true ->
    exists cleaned changes source,
      TextPipeline.TextCleaner_process input [] =
        Ok (ObjModel {| model_module := "components"; model_class := "CleanedText";
                        model_fields := CleanedText_fields cleaned source changes |}) /\
      dict_get "source" (model_fields input) = Some source /\
      all_chars plain_char cleaned = true /\
      (String.length cleaned <= String.length original)%nat.
Proof.
  intros d input original Hval Htext _.
  destruct (TextInput_validated d input Hval) as (t & source & Ht & Hfields & Hsource).
  rewrite Htext in Ht. injection Ht as <-.
  exists (cleaned_text original), (reported_changes original), source.
  split; [now apply TextCleaner_process_validated|]. split; [now rewrite Hfields|].
  split; [|apply cleaned_text_length].
  destruct (split_go_spec original None eq_refl) as (_ & Hall & _).
  apply remove_special_plain, lower_spaces, Hall.
Qed.

Lemma text_cleaner_output_witness :
  exists cleaned changes source,
    TextPipeline.TextCleaner_process
      {| model_module := "components"; model_class := "TextInput";
         model_fields := hello |} [] =
      Ok (ObjModel {| model_module := "components"; model_class := "CleanedText";
                      model_fields := CleanedText_fields cleaned source changes |}) /\
    dict_get "source" hello = Some source /\
    all_chars plain_char cleaned = true /\
    (String.length cleaned <= String.length "Hello   World")%nat.
Proof.
  exact (text_cleaner_output hello
           {| model_module := "components"; model_class := "TextInput";
              model_fields := hello |}
           "Hello   World" eq_refl eq_refl eq_refl).
Defined.

(** X17.  What the text cleaner reports.  For every validated [TextInput]
    whose text is ASCII, the changes [TextCleaner.process] reports are:
    ["removed_extra_whitespace"] and ["converted_to_lowercase"], always
    together, when joining the words of the text by single spaces changes
    the text; then ["removed_special_characters"] when the returned text is
    shorter than the text that came in.  Whether a letter was converted, or
    a special character removed, plays no role: a text in upper case with
    single spaces comes back in lower case with no change reported. *)
Theorem text_cleaner_flags :
  forall (d : pydict) (input : model) (original : string),
    cls_validate TextPipeline.TextInput d = Ok input ->
    dict_get "text" d = Some (PyStr original) ->
    isascii original = true ->
    exists source,
      TextPipeline.TextCleaner_process input [] =
        Ok (ObjModel {| model_module := "components"; model_class := "CleanedText";
                        model_fields :=
                          CleanedText_fields (cleaned_text original) source
                            (reported_changes original) |}) /\
      (TextPipeline.join " " (TextPipeline.split original) = original ->
       String.length (cleaned_text original) = String.length original ->
       reported_changes original = []).
Proof.
  intros d input original Hval Htext _.
  destruct (TextInput_validated d input Hval) as (t & source & Ht & Hfields & Hsource).
  rewrite Htext in Ht. injection Ht as <-.
  exists source. split; [now apply TextCleaner_process_validated|].
  intros Hnorm Hsame. unfold reported_changes.
  rewrite Hnorm, String.eqb_refl, Hsame, Nat.ltb_irrefl. reflexivity.
Qed.

Lemma text_cleaner_flags_witness :
  exists source,
    TextPipeline.TextCleaner_process
      {| model_module := "components"; model_class := "TextInput";
         model_fields := [("text", PyStr "HELLO WORLD"); ("source", PyNone)] |} [] =
      Ok (ObjModel {| model_module := "components"; model_class := "CleanedText";
                      model_fields :=
                        CleanedText_fields "hello world" source [] |}).
Proof.
  destruct (text_cleaner_flags [("text", PyStr "HELLO WORLD")]
              {| model_module := "components"; model_class := "TextInput";
                 model_fields := [("text", PyStr "HELLO WORLD"); ("source", PyNone)] |}
              "HELLO WORLD" eq_refl eq_refl eq_refl) as (source & Hproc & _).
  exists source. exact Hproc.
Defined.

(** ** Listing the samples *)

Lemma name_in_dir_iff (dir p n : string) :
  name_in_dir dir p = Some n <->
  p = path_join dir n /\ n <> "" /\ contains_char "/" n = false.
Proof.
  split.
  - intros H. split; [now apply name_in_dir_some|].
    unfold name_in_dir in H.
    destruct (strip_prefix (dir +:+ "/") p) as [r|]; [|discriminate].
    destruct (String.eqb r "") eqn:Er; [discriminate|].
    cbn [orb] in H. destruct (contains_char "/" r) eqn:E; [discriminate|].
    injection H as <-. apply String.eqb_neq in Er. split; assumption.
  - intros (-> & Hne & Hslash). now apply name_in_dir_join.
Qed.

Lemma NoDup_omap_keys {A B : Type} (g : string * A -> option B)
    (l : list (string * A)) :
  NoDup (map fst l) ->
  (forall x y b, g x = Some b -> g y = Some b -> fst x = fst y) ->
  NoDup (omap g l).
Proof.
  intros Hl Hg. induction l as [|x l IH]; [constructor|].
  cbn [map] in Hl. apply NoDup_cons in Hl as [Hx Hl].
  cbn [omap list_omap]. destruct (g x) as [b|] eqn:Eb; [|now apply IH].
  apply NoDup_cons. split; [|now apply IH].
  intros Hin. apply list_elem_of_omap in Hin as (y & Hy & Ey).
  apply Hx. rewrite (Hg x y b Eb Ey).
  apply list_elem_of_fmap. exists y. split; [reflexivity | exact Hy].
Qed.

Lemma list_samples_elem (self : BaseComponent) (sample_type : option string)
    (fs : filesystem) (n : string) :
  n ∈ list_samples self sample_type fs <->
  is_Some (fs !! path_join (sample_data_dir self) n) /\
  n <> "" /\ contains_char "/" n = false /\ listed_name sample_type n = true.
Proof.
  unfold list_samples. rewrite merge_sort_Permutation, list_elem_of_omap. split.
  - intros ([p f] & Hin & Hg). apply elem_of_map_to_list in Hin.
    cbn [fst] in Hg.
    destruct (name_in_dir _ p) as [n'|] eqn:En; [|discriminate].
    destruct (listed_name sample_type n') eqn:El; [|discriminate].
    injection Hg as ->. apply name_in_dir_iff in En as (-> & Hne & Hslash).
    split; [eauto|]. split; [exact Hne|]. split; [exact Hslash | exact El].
  - intros ([f Hf] & Hne & Hslash & El).
    exists (path_join (sample_data_dir self) n, f). split.
    + now apply elem_of_map_to_list.
    + cbn [fst].
      destruct (name_in_dir_join (sample_data_dir self) n Hne Hslash) as [_ ->].
      now rewrite El.
Qed.

(** X18.  [list_samples] returns the names of the files of the
    component's directory that match, each once, in ascending order.  With
    a sample type (read literally by [glob]) a name matches when it starts
    with the type and an underscore and ends in [.json]; without one, or
    with the empty string, every name that ends in [.json] matches. *)
Theorem list_samples_spec :
  forall (self : BaseComponent) (sample_type : option string) (fs : filesystem),
    literal_sample_type sample_type = true ->
    StronglySorted String.le (list_samples self sample_type fs) /\
    NoDup (list_samples self sample_type fs) /\
    forall n,
      n ∈ list_samples self sample_type fs <->
      is_Some (fs !! path_join (sample_data_dir self) n) /\
      n <> "" /\ contains_char "/" n = false /\
      (if truthy_str sample_type
       then startswith (or_str sample_type "" +:+ "_") n && endswith ".json" n &&
            Nat.leb (String.length (or_str sample_type "") + 6) (String.length n)
       else endswith ".json" n) = true.
Proof.
  intros self sample_type fs _. split; [|split].
  - unfold list_samples. apply StronglySorted_merge_sort; apply _.
  - unfold list_samples. rewrite merge_sort_Permutation.
    apply NoDup_omap_keys; [apply NoDup_fst_map_to_list|].
    intros [p1 f1] [p2 f2] n. cbn [fst].
    destruct (name_in_dir _ p1) as [n1|] eqn:E1; [|discriminate].
    destruct (name_in_dir _ p2) as [n2|] eqn:E2; [|discriminate].
    destruct (listed_name sample_type n1); [|discriminate].
    destruct (listed_name sample_type n2); [|discriminate].
    intros [= ->] [= ->].
    apply name_in_dir_some in E1, E2. congruence.
  - intros n. rewrite list_samples_elem.
    assert (listed_name sample_type n =
            (if truthy_str sample_type
             then startswith (or_str sample_type "" +:+ "_") n && endswith ".json" n &&
                  Nat.leb (String.length (or_str sample_type "") + 6)
                          (String.length n)
             else endswith ".json" n)) as <-; [|reflexivity].
    unfold listed_name, matches_pattern.
    destruct (truthy_str sample_type); [|reflexivity].
    rewrite str_app_length. cbn [String.length].
    now replace (String.length (or_str sample_type "") + 1 + 5)%nat
      with (String.length (or_str sample_type "") + 6)%nat by lia.
Qed.

Lemma list_samples_spec_witness :
  NoDup (list_samples (TextPipeline.TextCleaner "/w") (Some "input")
           (snd (run any_datetime (TextPipeline.TextCleaner "/w") (SrcDict hello)
                     (Some (RunConfigPresets.debug true)) [] clk0 ∅))).
Proof.
  exact (proj1 (proj2 (list_samples_spec (TextPipeline.TextCleaner "/w") (Some "input")
                         (snd (run any_datetime (TextPipeline.TextCleaner "/w")
                                   (SrcDict hello)
                                   (Some (RunConfigPresets.debug true)) [] clk0 ∅))
                         eq_refl))).
Defined.

(** X19.  A sample saved without a name prefix shows up in the listings.
    The save ends on a name that was not in the store; afterwards
    [list_samples()] and [list_samples] of the sample's kind contain the
    name, [list_samples] of the other kind does not, and every listing is
    what it was apart from the new name. *)
Theorem saved_sample_is_listed :
  forall (self : BaseComponent) (sample_type : DataType) (payload : pydict)
         (prefix : option string) (now : datetime) (mtime : N) (s : run_state),
    truthy_str prefix = false ->
    exists n s',
      _save_sample self sample_type payload prefix now mtime s = (Ok tt, s') /\
      st_files s !! path_join (sample_data_dir self) n = None /\
      n ∈ list_samples self None (st_files s') /\
      n ∈ list_samples self (Some (kind_name sample_type)) (st_files s') /\
      ~ (n ∈ list_samples self
               (Some (if DataType_eqb sample_type COMPONENT_INPUT
                      then "output" else "input"))
               (st_files s')) /\
      forall filter m,
        literal_sample_type filter = true ->
        m <> n ->
        (m ∈ list_samples self filter (st_files s') <->
         m ∈ list_samples self filter (st_files s)).
Proof.
  intros self sample_type payload prefix now mtime s Hprefix.
  destruct (_save_sample_spec self sample_type payload prefix now mtime s)
    as (k & Hfree & _ & Hsave).
  cbv zeta in Hfree, Hsave. unfold sample_candidate in Hfree, Hsave.
  destruct (unprefixed_sample_name sample_type prefix now k Hprefix)
    as (Hne & Hslash & Hmatch).
  set (n := sample_filename (sample_base_filename sample_type prefix now) k) in *.
  exists n. eexists. split; [exact Hsave|]. split; [exact Hfree|].
  cbn [st_files].
  assert (listed_name (Some (kind_name sample_type)) n = true) as Hkind.
  { unfold kind_name, glob_prefix in *.
    destruct (DataType_eqb sample_type COMPONENT_INPUT); exact Hmatch. }
  assert (listed_name None n = true) as Hall.
  { unfold matches_pattern in Hmatch.
    apply andb_true_iff in Hmatch as [Hmatch _].
    apply andb_true_iff in Hmatch as [_ Hjson]. exact Hjson. }
  split; [|split; [|split]].
  - apply list_samples_elem. rewrite lookup_insert_eq. eauto.
  - apply list_samples_elem. rewrite lookup_insert_eq. eauto.
  - intros Hin. apply list_samples_elem in Hin as (_ & _ & _ & Hother).
    unfold kind_name in Hkind.
    destruct (DataType_eqb sample_type COMPONENT_INPUT).
    + exact (input_name_is_no_output n Hkind Hother).
    + exact (input_name_is_no_output n Hother Hkind).
  - intros filter m _ Hm. rewrite !list_samples_elem.
    assert (m <> "" -> contains_char "/" m = false ->
            path_join (sample_data_dir self) n <> path_join (sample_data_dir self) m)
      as Hdiff.
    { intros Hm1 Hm2 E. apply Hm.
      destruct (name_in_dir_join (sample_data_dir self) n Hne Hslash) as [En _].
      destruct (name_in_dir_join (sample_data_dir self) m Hm1 Hm2) as [Em _].
      rewrite En, Em in E. apply String.app_inj in E.
      now injection E as ->. }
    split; intros (Hf & Hm1 & Hm2 & Hl); (split; [|auto]).
    + now rewrite lookup_insert_ne in Hf by auto.
    + now rewrite lookup_insert_ne by auto.
Qed.

Lemma saved_sample_is_listed_witness :
  exists n s',
    _save_sample (TextPipeline.TextLoader "/w") COMPONENT_INPUT hello None t0 5
      {| st_metadata := metadata0; st_files := ∅ |} = (Ok tt, s') /\
    n ∈ list_samples (TextPipeline.TextLoader "/w") (Some "input") (st_files s').
Proof.
  destruct (saved_sample_is_listed (TextPipeline.TextLoader "/w") COMPONENT_INPUT
              hello None t0 5 {| st_metadata := metadata0; st_files := ∅ |} eq_refl)
    as (n & s' & Hsave & _ & _ & Hlisted & _).
  exists n, s'. split; [exact Hsave | exact Hlisted].
Defined.

(** ** What [run] reads of an envelope *)

Lemma execute_reads_lineage_and_data (self : BaseComponent) (config : RunConfig)
    (kwargs : pydict) (clk : clock) (e e' : DataEnvelope) (s : run_state) :
  passes_check self config e = true ->
  passes_check self config e' = true ->
  lineage e = lineage e' ->
  data e = data e' ->
  execute self config kwargs clk e s = execute self config kwargs clk e' s.
Proof.
  intros Hpass Hpass' Hlin Hdata.
  assert (forall env, passes_check self config env = true ->
            (if negb (skip_compatibility_check config)
             then let '(ok, reason) := can_process self env in
                  if negb ok
                  then raise (ValueError
                         ("Component " +:+ name self +:+
                          " cannot process this data: " +:+
                          match reason with Some r => r | None => "None" end))
                  else ret tt
             else ret tt)
            = @ret unit tt) as Hcheck.
  { intros env H. unfold passes_check in H.
    destruct (skip_compatibility_check config); [reflexivity|].
    cbn [orb negb] in H |- *.
    destruct (can_process self env) as [ok reason].
    cbn [fst] in H. now rewrite H. }
  unfold execute, _create_output_envelope.
  rewrite (Hcheck e Hpass), (Hcheck e' Hpass'), Hlin, Hdata. reflexivity.
Qed.

(** X20.  Of an envelope it is handed, [run] reads the lineage, the
    payload and, for the compatibility check, the schema name; nothing
    else.  Two envelopes with the same lineage and payload that both pass
    the check (or with the check skipped) give the same result and the same
    store: the component name, version, tags, execution id, timestamp and
    source information of the input envelope flow nowhere. *)
Theorem run_reads_lineage_and_data :
  forall (pydantic_datetime : pyval -> option datetime) (self : BaseComponent)
         (e e' : DataEnvelope) (config : option RunConfig) (kwargs : pydict)
         (clk : clock) (fs : filesystem),
    passes_check self (effective_config config) e = true ->
    passes_check self (effective_config config) e' = true ->
    lineage e = lineage e' ->
    data e = data e' ->
    run pydantic_datetime self (SrcEnvelope e) config kwargs clk fs =
    run pydantic_datetime self (SrcEnvelope e') config kwargs clk fs.
Proof.
  intros pd self e e' config kwargs clk fs Hpass Hpass' Hlin Hdata.
  unfold run. fold (effective_config config).
  assert (forall env s,
            run_try pd self (SrcEnvelope env) (effective_config config) kwargs clk s =
            execute self (effective_config config) kwargs clk env
              {| st_metadata := set_input_source_type "model:DataEnvelope" (st_metadata s);
                 st_files := st_files s |}) as Htry by reflexivity.
  rewrite !Htry.
  now rewrite (execute_reads_lineage_and_data self (effective_config config) kwargs clk
                 e e' _ Hpass Hpass' Hlin Hdata).
Qed.

Lemma run_reads_lineage_and_data_witness :
  run any_datetime (TextPipeline.TextCleaner "/w")
      (SrcEnvelope (sample_envelope (TextPipeline.TextLoader "/w") COMPONENT_INPUT
                      hello metadata0))
      (Some (RunConfigPresets.debug true)) [] clk0 ∅ =
  run any_datetime (TextPipeline.TextCleaner "/w")
      (SrcEnvelope (dict_envelope hello t0))
      (Some (RunConfigPresets.debug true)) [] clk0 ∅.
Proof.
  apply run_reads_lineage_and_data; reflexivity.
Defined.

(** ** The example pipeline *)

Lemma TextInput_validated_model (d : pydict) (input : model) :
  cls_validate TextPipeline.TextInput d = Ok input ->
  exists original source,
    dict_get "text" d = Some (PyStr original) /\
    input = {| model_module := "components"; model_class := "TextInput";
               model_fields := [("text", PyStr original); ("source", source)] |} /\
    TextPipeline.validate_source (Some source) = Some source.
Proof.
  cbn [cls_validate TextPipeline.TextInput].
  destruct (dict_get "text" d) as [[| | | |t| | |]|]; try discriminate.
  destruct (dict_get "source" d) as [[| | | |s| | |]|];
    cbn [TextPipeline.validate_source]; try discriminate;
    intros [= <-]; eexists _, _; repeat split.
Qed.

(** The success path of [execute] when no sample is saved *)
Lemma execute_success_without_saving (self : BaseComponent) (config : RunConfig)
    (kwargs : pydict) (clk : clock) (e : DataEnvelope) (s : run_state)
    (transformed : pydict) (validated output : model) :
  passes_check self config e = true ->
  fn_call (prepare_input self) (data e) = Ok transformed ->
  cls_validate (input_schema self) transformed = Ok validated ->
  process self validated kwargs = Ok (ObjModel output) ->
  isinstance_model output (output_schema self) = true ->
  save_samples config = SampleSaveMode.NONE ->
  execute self config kwargs clk e s =
    (Ok (success_result self output
           (set_data_lineage (lineage e) (st_metadata s)) e),
     {| st_metadata := set_data_lineage (lineage e) (st_metadata s);
        st_files := st_files s |}).
Proof.
  intros Hpass Hprep Hval Hproc Hinst Hnone.
  unfold execute, bind, lift, update_metadata.
  assert ((if negb (skip_compatibility_check config)
           then let '(ok, reason) := can_process self e in
                if negb ok
                then raise (ValueError
                       ("Component " +:+ name self +:+
                        " cannot process this data: " +:+
                        match reason with Some r => r | None => "None" end))
                else ret tt
           else ret tt)
          = @ret unit tt) as ->.
  { unfold passes_check in Hpass.
    destruct (skip_compatibility_check config); [reflexivity|].
    cbn [orb negb] in Hpass |- *.
    destruct (can_process self e) as [ok reason].
    cbn [fst] in Hpass. now rewrite Hpass. }
  unfold ret at 1. cbv beta iota. rewrite Hprep, Hval, Hnone.
  change (SampleSaveMode.truthy (N.land SampleSaveMode.NONE SampleSaveMode.INPUT))
    with false.
  change (SampleSaveMode.truthy (N.land SampleSaveMode.NONE SampleSaveMode.OUTPUT))
    with false.
  unfold ret at 1. cbv beta iota. rewrite Hproc.
  unfold validate_output. rewrite Hinst. reflexivity.
Qed.

(** X21.  The loader followed by the cleaner.  For every mapping that the
    schema [TextInput] accepts and whose text is ASCII, the text loader
    returns the validated input unchanged, and the text cleaner, handed that
    result, returns the cleaned text with the reported changes and the
    input's source; the output envelope's lineage names the loader, then the
    cleaner; the store is untouched, no configuration being passed. *)
Theorem loader_then_cleaner :
  forall (pydantic_datetime : pyval -> option datetime) (cwd : string)
         (d : pydict) (input : model) (original : string)
         (clk1 clk2 : clock) (fs : filesystem),
    cls_validate TextPipeline.TextInput d = Ok input ->
    dict_get "text" d = Some (PyStr original) ->
    isascii original = true ->
    exists r1 r2 source out,
      run pydantic_datetime (TextPipeline.TextLoader cwd) (SrcDict d) None [] clk1 fs =
        (Returned r1, fs) /\
      res_data r1 = Some input /\
      run pydantic_datetime (TextPipeline.TextCleaner cwd) (SrcResult r1) None [] clk2 fs =
        (Returned r2, fs) /\
      res_data r2 =
        Some {| model_module := "components"; model_class := "CleanedText";
                model_fields :=
                  CleanedText_fields (cleaned_text original) source
                    (reported_changes original) |} /\
      dict_get "source" (model_fields input) = Some source /\
      res_envelope r2 = Some out /\
      map (dict_get "component") (lineage out) =
        [Some "text_loader"; Some "text_cleaner"].
Proof.
  intros pd cwd d input original clk1 clk2 fs Hval Htext _.
  destruct (TextInput_validated_model d input Hval) as (t & source & Ht & Hinput & Hsource).
  rewrite Htext in Ht. injection Ht as <-.
  assert (cls_validate TextPipeline.TextInput (model_fields input) = Ok input) as Hagain.
  { rewrite Hinput. cbn [cls_validate TextPipeline.TextInput model_fields dict_get
                         String.eqb Ascii.eqb Bool.eqb fst snd].
    now rewrite Hsource. }
  pose proof (TextCleaner_process_validated input original source
                ltac:(now rewrite Hinput) Hsource) as Hclean.
  set (md1 := dict_run_metadata (TextPipeline.TextLoader cwd) None clk1).
  set (env1 := dict_envelope d (now_envelope clk1)).
  set (r1 := success_result (TextPipeline.TextLoader cwd) input md1 env1).
  set (out1 := _create_output_envelope (TextPipeline.TextLoader cwd) input md1 env1).
  set (cleaned := {| model_module := "components"; model_class := "CleanedText";
                     model_fields :=
                       CleanedText_fields (cleaned_text original) source
                         (reported_changes original) |}).
  set (md2 := set_data_lineage (lineage out1)
                (set_input_source_type "model:ComponentResult"
                   (initial_metadata (TextPipeline.TextCleaner cwd)
                      RunConfig_default clk2))).
  exists r1, (success_result (TextPipeline.TextCleaner cwd) cleaned md2 out1),
         source, (_create_output_envelope (TextPipeline.TextCleaner cwd) cleaned md2 out1).
  split.
  { unfold run.
    change (run_try pd (TextPipeline.TextLoader cwd) (SrcDict d) RunConfig_default []
              clk1
              {| st_metadata :=
                   initial_metadata (TextPipeline.TextLoader cwd) RunConfig_default clk1;
                 st_files := fs |})
      with (execute (TextPipeline.TextLoader cwd) RunConfig_default [] clk1 env1
              {| st_metadata :=
                   set_input_source_type "dict"
                     (initial_metadata (TextPipeline.TextLoader cwd)
                        RunConfig_default clk1);
                 st_files := fs |}).
    rewrite (execute_success_without_saving (TextPipeline.TextLoader cwd)
               RunConfig_default [] clk1 env1 _ d input input);
      try reflexivity; [exact Hval | now rewrite Hinput]. }
  split; [reflexivity|]. split.
  { unfold run.
    change (run_try pd (TextPipeline.TextCleaner cwd) (SrcResult r1) RunConfig_default []
              clk2
              {| st_metadata :=
                   initial_metadata (TextPipeline.TextCleaner cwd) RunConfig_default clk2;
                 st_files := fs |})
      with (execute (TextPipeline.TextCleaner cwd) RunConfig_default [] clk2 out1
              {| st_metadata :=
                   set_input_source_type "model:ComponentResult"
                     (initial_metadata (TextPipeline.TextCleaner cwd)
                        RunConfig_default clk2);
                 st_files := fs |}).
    rewrite (execute_success_without_saving (TextPipeline.TextCleaner cwd)
               RunConfig_default [] clk2 out1 _ (model_fields input) input cleaned);
      try reflexivity; [exact Hagain | exact Hclean]. }
  split; [reflexivity|]. split; [now rewrite Hinput|].
  split; reflexivity.
Qed.

Lemma loader_then_cleaner_witness :
  exists r1 r2,
    run any_datetime (TextPipeline.TextLoader "/w") (SrcDict hello) None [] clk0 ∅ =
      (Returned r1, ∅) /\
    run any_datetime (TextPipeline.TextCleaner "/w") (SrcResult r1) None [] clk0 ∅ =
      (Returned r2, ∅) /\
    res_data r2 =
      Some {| model_module := "components"; model_class := "CleanedText";
              model_fields :=
                CleanedText_fields "hello world" (PyStr "t1")
                  ["removed_extra_whitespace"; "converted_to_lowercase";
                   "removed_special_characters"] |}.
Proof.
  destruct (loader_then_cleaner any_datetime "/w" hello
              {| model_module := "components"; model_class := "TextInput";
                 model_fields := hello |}
              "Hello   World" clk0 clk0 ∅ eq_refl eq_refl eq_refl)
    as (r1 & r2 & source & out & H1 & _ & H2 & H3 & Hsource & _).
  cbn in Hsource. injection Hsource as <-.
  exists r1, r2. split; [exact H1|]. split; [exact H2 | exact H3].
Defined.

(** ** The configuration presets *)

(** X22.  What the presets of [RunConfig] mean for a call of [run].  Under
    [production] the store is never touched, however the call ends.  A call
    that returns a success has added two files under [debug()] and under
    [testing()], one file under [testing(save_output_only=True)] and none
    under [debug(save_all=False)].  Every returned result carries the
    preset's debug flag in its metadata: set under [debug] and [testing],
    not set under [production]. *)
Theorem presets_and_the_store :
  forall (pydantic_datetime : pyval -> option datetime) (self : BaseComponent)
         (src : input_source) (kwargs : pydict) (clk : clock) (fs : filesystem),
    (forall execution_id,
       snd (run pydantic_datetime self src
              (Some (RunConfigPresets.production execution_id)) kwargs clk fs) = fs) /\
    (forall config added r,
       In (config, added)
          [(RunConfigPresets.debug true, 2%nat); (RunConfigPresets.debug false, 0%nat);
           (RunConfigPresets.testing true, 1%nat);
           (RunConfigPresets.testing false, 2%nat)] ->
       fst (run pydantic_datetime self src (Some config) kwargs clk fs) = Returned r ->
       res_error r = None ->
       size (snd (run pydantic_datetime self src (Some config) kwargs clk fs)) =
         (size fs + added)%nat) /\
    (forall config r,
       fst (run pydantic_datetime self src (Some config) kwargs clk fs) = Returned r ->
       debug_mode (res_metadata r) = cfg_debug_mode config).
Proof.
  intros pd self src kwargs clk fs. split; [|split].
  - intros execution_id.
    pose proof (run_store pd self src (Some (RunConfigPresets.production execution_id))
                  kwargs clk fs) as H.
    cbv zeta in H. cbn [effective_config] in H.
    change (saves_input (RunConfigPresets.production execution_id)) with false in H.
    change (saves_output (RunConfigPresets.production execution_id)) with false in H.
    cbn [sample_added] in H.
    destruct H as [(r & t & o & md & env & fs1 & _ & _ & _ & _ & -> & ->)
                  | [_ [H | (t & md & _ & ->)]]];
      try reflexivity; exact H.
  - intros config added r Hin Hr Herr.
    pose proof (run_store pd self src (Some config) kwargs clk fs) as H.
    cbv zeta in H. cbn [effective_config] in H.
    destruct H as [(r0 & t & o & md & env & fs1 & _ & _ & _ & _ & H1 & H2) | [Hfail _]];
      [|destruct (Hfail r Hr) as [x Hx]; congruence].
    apply sample_added_size in H1, H2. rewrite H2, H1.
    cbn [In] in Hin.
    destruct Hin as [[= <- <-] | [[= <- <-] | [[= <- <-] | [[= <- <-] | []]]]];
      vm_compute flag_count; lia.
  - intros config r Hr.
    destruct (run_returned_identity pd self src (Some config) kwargs clk fs r Hr)
      as (_ & _ & _ & _ & ->).
    reflexivity.
Qed.

Lemma presets_and_the_store_witness :
  exists r,
    fst (run any_datetime (TextPipeline.TextCleaner "/w") (SrcDict hello)
             (Some (RunConfigPresets.testing true)) [] clk0 ∅) = Returned r /\
    size (snd (run any_datetime (TextPipeline.TextCleaner "/w") (SrcDict hello)
                   (Some (RunConfigPresets.testing true)) [] clk0 ∅)) = 1%nat.
Proof.
  assert (exists r,
            fst (run any_datetime (TextPipeline.TextCleaner "/w") (SrcDict hello)
                     (Some (RunConfigPresets.testing true)) [] clk0 ∅) = Returned r /\
            res_error r = None) as (r & Hr & Herr).
  { eexists. split; vm_compute; reflexivity. }
  exists r. split; [exact Hr|].
  refine (proj1 (proj2 (presets_and_the_store any_datetime
                          (TextPipeline.TextCleaner "/w") (SrcDict hello) [] clk0 ∅))
            (RunConfigPresets.testing true) 1%nat r _ Hr Herr).
  cbn [In]. right. right. left. reflexivity.
Defined.

(** ** Input that is turned away *)

(** X23.  Input that the component's own code turns away is reported and
    nothing is saved.  [run] is given a mapping; if [prepare_input] raises
    an exception of class [Exception], or the input schema rejects the
    adapted mapping with one, [run] returns the failure with that
    exception's text, and the store is as it was, whatever the configuration
    says about saving samples: the input sample is written only after
    validation. *)
Theorem invalid_input_is_reported :
  forall (pydantic_datetime : pyval -> option datetime) (self : BaseComponent)
         (d : pydict) (config : option RunConfig) (kwargs : pydict)
         (clk : clock) (fs : filesystem) (e : py_exception),
    exc_is_Exception e = true ->
    fn_call (prepare_input self) d = Raise e \/
    (exists transformed,
       fn_call (prepare_input self) d = Ok transformed /\
       cls_validate (input_schema self) transformed = Raise e) ->
    run pydantic_datetime self (SrcDict d) config kwargs clk fs =
      (Returned (failure_result self (dict_run_metadata self config clk) (exc_str e)),
       fs).
Proof.
  intros pd self d config kwargs clk fs e Hexc Hfail.
  unfold run. fold (effective_config config).
  change (run_try pd self (SrcDict d) (effective_config config) kwargs clk
            {| st_metadata := initial_metadata self (effective_config config) clk;
               st_files := fs |})
    with (execute self (effective_config config) kwargs clk
            (dict_envelope d (now_envelope clk))
            {| st_metadata :=
                 set_input_source_type "dict"
                   (initial_metadata self (effective_config config) clk);
               st_files := fs |}).
  unfold execute, bind, lift, update_metadata.
  cbn [can_process dict_envelope schema_name truthy_str andb negb data lineage
       st_metadata st_files].
  fold (dict_run_metadata self config clk).
  destruct (skip_compatibility_check (effective_config config)); cbn [negb];
    unfold ret at 1; cbv beta iota;
    (destruct Hfail as [Hprep | (transformed & Hprep & Hval)];
     [rewrite Hprep | rewrite Hprep, Hval]); rewrite Hexc; reflexivity.
Qed.

Lemma invalid_input_is_reported_witness :
  exists r,
    run any_datetime (TextPipeline.TextCleaner "/w")
        (SrcDict [("wrong_field", PyStr "This won't work")])
        (Some (RunConfigPresets.debug true)) [] clk0 ∅ = (Returned r, ∅) /\
    res_data r = None /\ is_Some (res_error r).
Proof.
  destruct (cls_validate TextPipeline.TextInput
              [("wrong_field", PyStr "This won't work")]) as [m|e] eqn:E;
    [discriminate E|].
  assert (exc_is_Exception e = true) as Hexc by (now injection E as <-).
  eexists. split.
  - apply (invalid_input_is_reported any_datetime (TextPipeline.TextCleaner "/w")
             [("wrong_field", PyStr "This won't work")]
             (Some (RunConfigPresets.debug true)) [] clk0 ∅ e Hexc).
    right. eexists. split; [reflexivity | exact E].
  - split; [reflexivity | cbn; eauto].
Defined.

(** ** Loading what a listing names *)

(** X24.  A name that [list_samples] of a component returns can be handed
    to any component as the pair of that component and the name: the file
    is found in the listed component's directory, not the receiver's, and
    when it holds a saved envelope the pair is normalised to that envelope
    as read back from the file. *)
Theorem listed_sample_loads_as_pair :
  forall (pydantic_datetime : pyval -> option datetime)
         (receiver other : BaseComponent) (filter : option string)
         (n : string) (now : datetime) (s : run_state),
    literal_sample_type filter = true ->
    n ∈ list_samples other filter (st_files s) ->
    exists f,
      st_files s !! path_join (sample_data_dir other) n = Some f /\
      forall e ts,
        content f = Some (envelope_to_json e) ->
        pydantic_datetime (PyStr (datetime_str (timestamp e))) = Some ts ->
        _normalize_to_envelope pydantic_datetime receiver
          (SrcTuple [SrcComponent other; SrcStr n]) now s =
        (Ok (reloaded ts e), s).
Proof.
  intros pd receiver other filter n now s _ Hin.
  apply list_samples_elem in Hin as ([f Hf] & _).
  exists f. split; [exact Hf|].
  intros e ts Hdoc Hts. cbn [_normalize_to_envelope as_filename].
  now apply (load_sample_saved pd other n now ts s e f).
Qed.

Lemma listed_sample_loads_as_pair_witness :
  exists n s' f,
    _save_sample (TextPipeline.TextLoader "/w") COMPONENT_OUTPUT hello None t0 5
      {| st_metadata := metadata0; st_files := ∅ |} = (Ok tt, s') /\
    n ∈ list_samples (TextPipeline.TextLoader "/w") (Some "output") (st_files s') /\
    st_files s' !! path_join (sample_data_dir (TextPipeline.TextLoader "/w")) n
      = Some f.
Proof.
  destruct (_save_sample_spec (TextPipeline.TextLoader "/w") COMPONENT_OUTPUT hello
              None t0 5 {| st_metadata := metadata0; st_files := ∅ |})
    as (k & _ & _ & Hsave).
  cbv zeta in Hsave.
  destruct (unprefixed_sample_name COMPONENT_OUTPUT None t0 k eq_refl)
    as (Hne & Hslash & Hmatch).
  assert (sample_filename (sample_base_filename COMPONENT_OUTPUT None t0) k
            ∈ list_samples (TextPipeline.TextLoader "/w") (Some "output")
                (<[sample_candidate (sample_data_dir (TextPipeline.TextLoader "/w"))
                     (sample_base_filename COMPONENT_OUTPUT None t0) k :=
                   sample_file (TextPipeline.TextLoader "/w") COMPONENT_OUTPUT hello
                     metadata0 5]> ∅)) as Hin.
  { apply list_samples_elem. unfold sample_candidate.
    rewrite lookup_insert_eq. split; [eauto|]. split; [exact Hne|].
    split; [exact Hslash | exact Hmatch]. }
  destruct (listed_sample_loads_as_pair any_datetime (TextPipeline.TextCleaner "/w")
              (TextPipeline.TextLoader "/w") (Some "output") _ t0
              {| st_metadata := metadata0;
                 st_files :=
                   <[sample_candidate (sample_data_dir (TextPipeline.TextLoader "/w"))
                       (sample_base_filename COMPONENT_OUTPUT None t0) k :=
                     sample_file (TextPipeline.TextLoader "/w") COMPONENT_OUTPUT hello
                       metadata0 5]> ∅ |}
              eq_refl Hin) as (f & Hf & _).
  eexists _, _, f. split; [exact Hsave|]. split; [exact Hin | exact Hf].
Defined.
